(** * Train_profile.py: argument validation, index remapping and generator set-up

    A shallow embedding of [src/Train_profile.py].  The script parses its
    command line, validates the chromosome identifiers against three npz
    archives, builds a model, merges the chromosomes, remaps the exclusion
    indices to merged coordinates and builds one window generator for
    training and one for validation.

    Python values are modelled as follows: [str] as [string], one
    character of the standard library's [ascii] for each character of the
    Python string, which covers the strings whose code points are below
    256; [int] as [Z], [None]-able values as [option], npz archives as
    finite maps from keys to arrays, arrays as lists along their first
    axis.
    Failures ([sys.exit] and uncaught exceptions) and the order of the
    externally visible steps are explicit: a computation returns the list
    of events it performed together with its result. *)

From Stdlib Require Import ZArith QArith Qminmax Qround Ascii String List Permutation Lia.
From Stdlib Require Import DecimalString DecimalPos.
From stdpp Require Import base option list sorting gmap strings.

Local Open Scope string_scope.
Local Open Scope Z_scope.
Local Open Scope list_scope.

(** ** Python built-ins used by the script *)

Module Py.

(** Whitespace skipped by [int(str)] around the digits.  CPython keeps
    the characters below 127 as they are and reads them with
    [Py_ISSPACE] (tab .. carriage return, and space); of the characters
    from 128 to 255 it turns the Unicode white space, U+0085 and U+00A0,
    into a space before parsing.  No character below 256 other than "0"
    .. "9" is a Unicode decimal digit. *)
Definition is_space (c : ascii) : bool :=
  let n := N_of_ascii c in
  ((9 <=? n)%N && (n <=? 13)%N) || (n =? 32)%N
  || (n =? 133)%N || (n =? 160)%N.

Definition digit_val (c : ascii) : option Z :=
  let n := N_of_ascii c in
  if ((48 <=? n)%N && (n <=? 57)%N)%bool then Some (Z.of_N n - 48) else None.

Fixpoint lstrip (s : string) : string :=
  match s with
  | String c r => if is_space c then lstrip r else s
  | EmptyString => EmptyString
  end.

(** The digit loop of [int(str)] in base 10: each digit extends the
    accumulator, a single underscore may separate two digits, trailing
    whitespace is accepted, anything else is refused. *)
Fixpoint int_digits (acc : Z) (prev_us : bool) (s : string) : option Z :=
  match s with
  | EmptyString => if prev_us then None else Some acc
  | String c r =>
      if Ascii.eqb c "_" then
        if prev_us then None else int_digits acc true r
      else match digit_val c with
           | Some d => int_digits (10 * acc + d) false r
           | None =>
               if (negb prev_us && is_space c && String.eqb (lstrip r) EmptyString)%bool
               then Some acc else None
           end
  end.

(** [int(s)] for a [str] argument; [None] stands for [ValueError].  The
    limit that recent interpreters put on the number of digits is not
    modelled. *)
Definition int (s : string) : option Z :=
  let t := lstrip s in
  let '(neg, body) :=
    match t with
    | String "-" r => (true, r)
    | String "+" r => (false, r)
    | _ => (false, t)
    end in
  match body with
  | String c _ =>
      match digit_val c with
      | Some _ =>
          match int_digits 0 false body with
          | Some n => Some (if neg : bool then - n else n)
          | None => None
          end
      | None => None
      end
  | EmptyString => None
  end.

(** Decimal rendering of an integer, as [str(n)] and [format(n, "d")]. *)
Definition str_of_int (n : Z) : string :=
  NilZero.string_of_int (Z.to_int n).

(** [format(n, "02d")]: sign-aware zero padding to a minimum width of
    two characters, the sign counting for one. *)
Definition format_02d (n : Z) : string :=
  if ((0 <=? n)%Z && (n <? 10)%Z)%bool
  then "0" +:+ str_of_int n else str_of_int n.

(** [str.rfind(ch)]: index of the last occurrence. *)
Fixpoint rfind (ch : ascii) (s : string) : option nat :=
  match s with
  | EmptyString => None
  | String c r =>
      match rfind ch r with
      | Some i => Some (S i)
      | None => if Ascii.eqb c ch then Some O else None
      end
  end.

(** [str.split(sep)] for a separator of one character. *)
Fixpoint split (sep : ascii) (s : string) : list string :=
  match s with
  | EmptyString => [EmptyString]
  | String c r =>
      if Ascii.eqb c sep then EmptyString :: split sep r
      else match split sep r with
           | x :: xs => String c x :: xs
           | [] => [String c EmptyString]
           end
  end.

(** The components of a POSIX path as [pathlib] parses it: empty
    components (doubled or trailing slashes, the root) and "." are
    dropped. *)
Definition path_tail (p : string) : list string :=
  List.filter
    (λ x, negb (String.eqb x EmptyString) && negb (String.eqb x "."))
    (split "/" p).

(** [PurePosixPath.name]: the last component, empty when there is
    none. *)
Definition path_name (p : string) : string :=
  List.last (path_tail p) EmptyString.

(** [PurePath.stem] (up to Python 3.13): the name without its last
    suffix; a leading or a trailing dot starts no suffix. *)
Definition path_stem (p : string) : string :=
  let name := path_name p in
  match rfind "." name with
  | Some i =>
      if ((0 <? i)%nat && (i <? String.length name - 1)%nat)%bool
      then String.substring 0 i name else name
  | None => name
  end.

End Py.

(** ** Failures, events and the computation monad *)

(** One-hot row of the genome array (all zero for an undefined base) and
    one value of the label array.  No arithmetic is done on label values
    by the script; the finite ones are embedded in [Q]. *)
Definition base : Type := list bool.
Definition signal : Type := Q.

(** Modelled from the spec: a merged array (3, 4.1), the result of
    [utils.merge_chroms], missing from the sources.  The arrays of the
    chromosomes follow each other in the order given, with one gap slot
    between two consecutive chromosomes; a gap slot holds no value, so a
    chromosome boundary can be told from any base and any label. *)
Abbreviation merged A := (list (option A)).

(** The keyword arguments of one call [tf_utils.WindowGenerator(...)].
    [balance] and [n_classes] are optional at the call site: [None] means
    that the keyword is not passed. *)
Record GenKwargs := {
  kw_data : merged base;
  kw_labels : merged signal;
  kw_winsize : Z;
  kw_batch_size : Z;
  kw_max_data : Z;
  kw_same_samples : bool;
  kw_balance : option (option string);
  kw_n_classes : option Z;
  kw_strand : string;
  kw_head_interval : option Z;
  kw_remove0s : bool;
  kw_removeNs : bool;
  kw_remove_indices : option (list Z);
  kw_seed : option Z
}.

(** How a run can end early: [sys.exit(msg)], an uncaught Python
    exception, or a failure raised inside [Modules]. *)
Inductive Failure :=
| SystemExit (msg : string)
| ValueError (what : string)
| KeyError (key : string)
| FileNotFoundError (path : string)
| OverflowError (what : string)
| ConfigurationError (what : string).

Inductive Res (A : Type) :=
| Ok (a : A)
| Fail (e : Failure).
Arguments Ok {A} a.
Arguments Fail {A} e.

Inductive GenRole := Train | Valid.

(** The steps of a run that the properties below speak about, in program
    order. *)
Inductive Event :=
| EvMembership (archive : string) (chr_id : string)
| EvMkdir (path : string)
| EvWriteInfo (path : string)
| EvSetSeed (s : Z)
| EvBuildModel (architecture : string) (winsize : Z) (distribute : bool)
| EvMergeChroms (chr_ids : list string) (archive : string)
| EvWindowGenerator (role : GenRole) (kw : GenKwargs)
| EvFit (epochs : Z)
| EvAppendInfo (path : string)
| EvSaveModel (path : string).

Definition M (A : Type) : Type := (list Event * Res A)%type.

#[export] Instance M_ret : MRet M := λ A a, ([], Ok a).
#[export] Instance M_bind : MBind M := λ A B f m,
  match m with
  | (t, Ok a) => let '(t', r) := f a in (t ++ t', r)
  | (t, Fail e) => (t, Fail e)
  end.

Definition emit (e : Event) : M unit := ([e], Ok ()).
Definition raise {A} (e : Failure) : M A := ([], Fail e).
Definition sys_exit {A} (msg : string) : M A := raise (SystemExit msg).
Definition lift_res {A} (r : Res A) : M A := ([], r).

Definition trace {A} (m : M A) : list Event := fst m.
Definition result {A} (m : M A) : Res A := snd m.

Definition nl : string := String "010" EmptyString.

(** ** NumPy integer arrays *)

(** The exclusion archive holds arrays of indices.  The script adds a
    Python integer to each of them and concatenates the results (lines
    317-323): both are NumPy operations on a fixed-width integer type, so
    an index array is modelled with its type.  Arrays of other types
    (floating point, boolean, object) are not index arrays and are
    outside the model. *)
Module Np.

Inductive IntType :=
| int8 | int16 | int32 | int64 | uint8 | uint16 | uint32 | uint64.

Definition bits (t : IntType) : Z :=
  match t with
  | int8 | uint8 => 8 | int16 | uint16 => 16
  | int32 | uint32 => 32 | int64 | uint64 => 64
  end.

Definition signed (t : IntType) : bool :=
  match t with
  | int8 | int16 | int32 | int64 => true
  | _ => false
  end.

Definition min_of (t : IntType) : Z :=
  if signed t then - 2 ^ (bits t - 1) else 0.

Definition max_of (t : IntType) : Z :=
  if signed t then 2 ^ (bits t - 1) - 1 else 2 ^ bits t - 1.

Definition in_range (t : IntType) (v : Z) : bool :=
  (min_of t <=? v) && (v <=? max_of t).

(** Fixed-width arithmetic: the result is reduced modulo [2 ^ bits]
    into the range of the type. *)
Definition wrap (t : IntType) (v : Z) : Z :=
  (v - min_of t) mod 2 ^ bits t + min_of t.

(** The type of a concatenation: an integer type, or [float64] when an
    unsigned 64-bit array meets a signed one. *)
Inductive DType :=
| DInt (t : IntType)
| DFloat64.

Definition sint (b : Z) : IntType :=
  if b <=? 8 then int8 else if b <=? 16 then int16
  else if b <=? 32 then int32 else int64.

Definition uint (b : Z) : IntType :=
  if b <=? 8 then uint8 else if b <=? 16 then uint16
  else if b <=? 32 then uint32 else uint64.

(** [np.promote_types] on integer types. *)
Definition promote_types (a b : IntType) : DType :=
  let mixed (sb ub : Z) :=
    if ub <? sb then DInt (sint sb)
    else if ub <? 64 then DInt (sint (2 * ub))
    else DFloat64 in
  match signed a, signed b with
  | true, true => DInt (sint (Z.max (bits a) (bits b)))
  | false, false => DInt (uint (Z.max (bits a) (bits b)))
  | true, false => mixed (bits a) (bits b)
  | false, true => mixed (bits b) (bits a)
  end.

Definition promote (d : DType) (t : IntType) : DType :=
  match d with
  | DInt a => promote_types a t
  | DFloat64 => DFloat64
  end.

(** [np.result_type] of the arrays of a non-empty list. *)
Definition result_type (ts : list IntType) : DType :=
  match ts with
  | [] => DFloat64
  | t :: rest => fold_left promote rest (DInt t)
  end.

(** Conversion of an integer to [float64]: exact below [2 ^ 53], rounded
    to 53 significant bits, ties to even, above. *)
Definition round_float64 (v : Z) : Z :=
  let a := Z.abs v in
  if a <? 2 ^ 53 then v
  else
    let sh := Z.log2 a - 52 in
    let q := Z.shiftr a sh in
    let r := a - Z.shiftl q sh in
    let half := Z.shiftl 1 (sh - 1) in
    let q' := if ((half <? r) || ((r =? half) && Z.odd q))%bool
              then q + 1 else q in
    Z.sgn v * Z.shiftl q' sh.

(** The value of [v] after conversion to the type [d]. *)
Definition cast (d : DType) (v : Z) : Z :=
  match d with
  | DInt t => wrap t v
  | DFloat64 => round_float64 v
  end.

Definition representable (d : DType) (v : Z) : Prop := cast d v = v.

(** A one-dimensional array of an integer type.  The values are read
    modulo the width of the type. *)
Record ndarray := {
  dtype : IntType;
  values : list Z
}.

End Np.

(** ** The files and the parsed command line *)

(** An npz archive: one array per key. *)
Abbreviation npz A := (gmap string (list A)).

(** The files a run can read, by path, and the entropy an unseeded random
    generator is initialised from.  Every file listed is a well-formed
    archive of its kind; a path is looked up as it is written on the
    command line. *)
Record World := {
  genome_files : gmap string (npz base);
  label_files : gmap string (npz signal);
  index_files : gmap string (gmap string Np.ndarray);
  entropy : Z
}.

(** The namespace returned by [parser.parse_args()]. *)
Record Args := {
  architecture : string;
  genome : string;
  labels : string;
  output : string;
  chrom_train : list string;
  chrom_valid : list string;
  strand : string;
  winsize : Z;
  head_interval : option Z;
  learn_rate : Q;
  epochs : Z;
  batch_size : Z;
  same_samples : bool;
  max_train : Z;
  max_valid : Z;
  balance : option string;
  n_classes : Z;
  remove0s : bool;
  removeNs : bool;
  remove_indices : option string;
  seed : option Z;
  disable_autotune : bool;
  patience : Z;
  distribute : bool;
  verbose : Z
}.

(** Assignment to [args.chrom_train] and [args.chrom_valid]. *)
Definition set_chroms (args : Args) (ct cv : list string) : Args :=
  {| architecture := architecture args; genome := genome args;
     labels := labels args; output := output args;
     chrom_train := ct; chrom_valid := cv;
     strand := strand args; winsize := winsize args;
     head_interval := head_interval args; learn_rate := learn_rate args;
     epochs := epochs args; batch_size := batch_size args;
     same_samples := same_samples args; max_train := max_train args;
     max_valid := max_valid args; balance := balance args;
     n_classes := n_classes args; remove0s := remove0s args;
     removeNs := removeNs args; remove_indices := remove_indices args;
     seed := seed args; disable_autotune := disable_autotune args;
     patience := patience args; distribute := distribute args;
     verbose := verbose args |}.

(** ** [parsing]: validation of the arguments (lines 222-254) *)

(** ["chr" + format(int(c), "02d")] *)
Definition w303_id (c : string) : Res string :=
  match Py.int c with
  | Some n => Ok ("chr" +:+ Py.format_02d n)
  | None => Fail (ValueError c)
  end.

(** [f"chr{c}" if c != "Mmmyco" else c] *)
Definition mmmyco_id (c : string) : string :=
  if bool_decide (c ≠ "Mmmyco") then "chr" +:+ c else c.

(** A list comprehension whose element expression may raise: the first
    failure, in list order, ends it. *)
Fixpoint comprehension {A B} (f : A → Res B) (l : list A) : Res (list B) :=
  match l with
  | [] => Ok []
  | x :: r =>
      match f x with
      | Ok y => match comprehension f r with
                | Ok ys => Ok (y :: ys)
                | Fail e => Fail e
                end
      | Fail e => Fail e
      end
  end.

(** Lines 231-237. *)
Definition rename_chroms (args : Args) : Res Args :=
  let genome_name := Py.path_stem (genome args) in
  if bool_decide (genome_name = "W303") then
    match comprehension w303_id (chrom_train args) with
    | Ok ct =>
        match comprehension w303_id (chrom_valid args) with
        | Ok cv => Ok (set_chroms args ct cv)
        | Fail e => Fail e
        end
    | Fail e => Fail e
    end
  else if bool_decide (genome_name = "W303_Mmmyco") then
    Ok (set_chroms args (mmmyco_id <$> chrom_train args)
                        (mmmyco_id <$> chrom_valid args))
  else Ok args.

(** [np.load(path)] on one kind of archive. *)
Definition np_load {V} (files : gmap string V) (path : string) : M V :=
  match files !! path with
  | Some a => mret a
  | None => raise (FileNotFoundError path)
  end.

(** [chr_id in a.keys()], recorded in the trace. *)
Definition has_key {V} (path : string) (a : gmap string V) (chr_id : string)
    : M bool :=
  emit (EvMembership path chr_id);;
  mret (bool_decide (is_Some (a !! chr_id))).

(** Lines 240-245: the loop over [args.chrom_train + args.chrom_valid]. *)
Fixpoint check_genome_labels (args : Args) (g : npz base) (s : npz signal)
    (chr_ids : list string) : M unit :=
  match chr_ids with
  | [] => mret ()
  | chr_id :: rest =>
      in_g ← has_key (genome args) g chr_id;
      in_s ← (if in_g : bool then has_key (labels args) s chr_id else mret false);
      if negb (in_g && in_s) then
        sys_exit (chr_id +:+ " is not a valid chromosome id in "
                  +:+ genome args +:+ " and " +:+ labels args)
      else check_genome_labels args g s rest
  end.

(** Lines 248-253. *)
Fixpoint check_remove_indices (path : string) (r : gmap string Np.ndarray)
    (chr_ids : list string) : M unit :=
  match chr_ids with
  | [] => mret ()
  | chr_id :: rest =>
      in_r ← has_key path r chr_id;
      if negb in_r then
        sys_exit (chr_id +:+ " is not a valid chromosome id in " +:+ path)
      else check_remove_indices path r rest
  end.

(** Lines 222-254, on the namespace returned by [parser.parse_args()]:
    the two files must exist, the identifiers are renamed for the W303
    genomes, and every identifier must be a key of the archives. *)
Definition parsing (w : World) (args : Args) : M Args :=
  if negb (bool_decide (is_Some (genome_files w !! genome args))) then
    sys_exit (genome args +:+ " does not exist." +:+ nl
              +:+ "Please enter a valid genome file path.")
  else if negb (bool_decide (is_Some (label_files w !! labels args))) then
    sys_exit (labels args +:+ " does not exist." +:+ nl
              +:+ "Please enter a valid labels file path.")
  else
    args ← lift_res (rename_chroms args);
    g ← np_load (genome_files w) (genome args);
    s ← np_load (label_files w) (labels args);
    check_genome_labels args g s (chrom_train args ++ chrom_valid args);;
    match remove_indices args with
    | Some path =>
        r ← np_load (index_files w) path;
        check_remove_indices path r (chrom_train args ++ chrom_valid args)
    | None => mret ()
    end;;
    mret args.

(** ** The collaborators in [Modules]

    [Modules/utils.py], [Modules/tf_utils.py] and [Modules/models.py] are
    not among the sources.  What the script needs from them is modelled
    from the specification, component by component. *)

(** Modelled from the spec: the concatenation of ChromosomeMerger (4.1),
    one gap slot between two consecutive chromosomes. *)
Fixpoint merge_arrays {A} (arrays : list (list A)) : merged A :=
  match arrays with
  | [] => []
  | [a] => Some <$> a
  | a :: rest => (Some <$> a) ++ None :: merge_arrays rest
  end.

(** Modelled from the spec: [utils.merge_chroms] (ChromosomeMerger, 4.1).
    A configuration error if an identifier is absent from the archive. *)
Definition merge_chroms {A} (chr_ids : list string) (a : npz A)
    : Res (merged A) :=
  match mapM (λ k, a !! k) chr_ids with
  | Some arrays => Ok (merge_arrays arrays)
  | None => Fail (ConfigurationError "unknown chromosome identifier")
  end.

(** The source of randomness of a generator: seeding, a draw of one index
    among candidates with given relative weights, and a fair coin.  The
    specification fixes no algorithm, so the model is generic in it. *)
Class RandomGen (rng : Type) := {
  rng_seed : Z → rng;
  rng_choice : rng → list Q → nat * rng;
  rng_coin : rng → bool * rng
}.

(** One batch: the drawn centres, their strands ([true] is forward), the
    window tensor and the label tensor. *)
Record Batch := {
  b_positions : list nat;
  b_strands : list bool;
  b_windows : list (list base);
  b_labels : list (list signal)
}.

Section WindowGenerator.
Context {rng : Type} `{RandomGen rng}.

(** Modelled from the spec: the state of a [tf_utils.WindowGenerator]
    (3, 4.6), missing from the sources.  The eligible positions are
    computed once; the unused positions of the current coverage cycle
    (the eligible positions that the used-index tracker does not hold)
    and the random state change with every fetch. *)
Record Generator := {
  g_data : merged base;
  g_labels : merged signal;
  g_winsize : nat;
  g_batch_size : nat;
  g_max_data : nat;
  g_same_samples : bool;
  g_balance : option string;
  g_n_classes : nat;
  g_strand : string;
  g_head_interval : option nat;
  g_eligible : list nat;
  g_class_weights : option (list Q);
  g_unused : list nat;
  g_rng : rng
}.

(** The base and the label at a position; an undefined base and a zero
    label stand for what a gap slot or a position outside the array does
    not hold. *)
Definition base_at (data : merged base) (p : nat) : base :=
  match data !! p with
  | Some (Some b) => b
  | _ => []
  end.

Definition label_at (labs : merged signal) (p : nat) : signal :=
  match labs !! p with
  | Some (Some v) => v
  | _ => 0%Q
  end.

(** A position that holds no base: a gap slot, or a position outside
    the array. *)
Definition is_gap (data : merged base) (p : nat) : bool :=
  match data !! p with
  | Some (Some _) => false
  | _ => true
  end.

(** Modelled from the spec: EligibilityFilter (4.2).  A position is
    excluded by a zero label ([remove0s]), by an all-zero one-hot row
    ([removeNs]) or by the supplied index list; and it is excluded when
    it lies within [winsize // 2] of the start or the end of the merged
    array or of a gap slot, the gap slots themselves included. *)
Definition is_N (b : base) : bool := forallb negb b.

Definition excluded (kw : GenKwargs) (p : nat) : bool :=
  (kw_remove0s kw && Qeq_bool (label_at (kw_labels kw) p) 0%Q)
  || (kw_removeNs kw && is_N (base_at (kw_data kw) p))
  || match kw_remove_indices kw with
     | Some idx => bool_decide (Z.of_nat p ∈ idx)
     | None => false
     end.

Definition clear_window (data : merged base) (half p : nat) : bool :=
  (half <=? p)%nat
  && forallb (λ q, negb (is_gap data q)) (seq (p - half) (2 * half + 1)).

Definition eligible_positions (kw : GenKwargs) : list nat :=
  let half := Z.to_nat (kw_winsize kw / 2) in
  List.filter
    (λ p, negb (excluded kw p) && clear_window (kw_data kw) half p)
    (seq 0 (length (kw_data kw))).

(** Modelled from the spec: ClassBalancer (4.3).  The label range of the
    candidates is cut into [n_classes] bins of equal width; a bin weighs
    the inverse of its occupancy and an empty bin weighs nothing. *)
Definition Qmin_list (l : list Q) : Q := fold_right Qmin (hd 0%Q l) l.
Definition Qmax_list (l : list Q) : Q := fold_right Qmax (hd 0%Q l) l.

Definition bin_of (n_classes : nat) (lo hi v : Q) : nat :=
  if Qeq_bool lo hi then O
  else Nat.min (n_classes - 1)
         (Z.to_nat (Qfloor ((v - lo) * inject_Z (Z.of_nat n_classes) / (hi - lo)))).

Definition occupancy (b : nat) (bins : list nat) : nat :=
  length (List.filter (Nat.eqb b) bins).

Definition class_weights (n_classes : nat) (labs : list Q) : list Q :=
  let lo := Qmin_list labs in
  let hi := Qmax_list labs in
  let bins := bin_of n_classes lo hi <$> labs in
  (λ b, match occupancy b bins with
        | O => 0%Q
        | S k => (1 / inject_Z (Z.of_nat (S k)))%Q
        end) <$> seq 0 n_classes.

(** Weights scaled to sum to one. *)
Definition normalized (ws : list Q) : list Q :=
  let total := fold_right Qplus 0%Q ws in
  (λ w, (w / total)%Q) <$> ws.

(** The weights of the candidates of one draw: all equal when no
    balancing is requested; otherwise the weight of the bin of each
    candidate, read from the table computed at construction for "global",
    recomputed over the candidates for "batch", and normalized. *)
Definition draw_weights (g : Generator) (cands : list nat) : list Q :=
  let labs := label_at (g_labels g) <$> cands in
  match g_balance g, g_class_weights g with
  | None, _ => (λ _, 1%Q) <$> cands
  | Some mode, Some table =>
      if bool_decide (mode = "batch") then
        let t := class_weights (g_n_classes g) labs in
        let lo := Qmin_list labs in
        let hi := Qmax_list labs in
        normalized ((λ v, nth (bin_of (g_n_classes g) lo hi v) t 0%Q) <$> labs)
      else
        let all := label_at (g_labels g) <$> g_eligible g in
        let lo := Qmin_list all in
        let hi := Qmax_list all in
        normalized ((λ v, nth (bin_of (g_n_classes g) lo hi v) table 0%Q) <$> labs)
  | Some _, None => (λ _, 1%Q) <$> cands
  end.

(** Modelled from the spec: WindowSampler (4.4).  One draw picks a
    candidate by index. *)
Definition pick (g : Generator) (r : rng) (cands : list nat) : nat * rng :=
  let '(i, r') := rng_choice r (draw_weights g cands) in
  ((i mod length cands)%nat, r').

(** [same_samples=True]: independent draws over the whole eligible set;
    nothing can be drawn from an empty one. *)
Fixpoint draw_with_replacement (g : Generator) (n : nat) (r : rng)
    : list nat * rng :=
  match n, g_eligible g with
  | O, _ | _, [] => ([], r)
  | S n', _ :: _ =>
      let '(i, r1) := pick g r (g_eligible g) in
      let '(ps, r2) := draw_with_replacement g n' r1 in
      (nth i (g_eligible g) O :: ps, r2)
  end.

(** [same_samples=False]: every draw removes the drawn position from the
    unused ones.  When none is left the cycle is complete: the tracker is
    reset, the eligible positions are all unused again, and the drawing
    goes on (7, exhaustion). *)
Fixpoint draw_without_replacement (g : Generator) (n : nat)
    (unused : list nat) (r : rng) : list nat * list nat * rng :=
  match n with
  | O => ([], unused, r)
  | S n' =>
      match (match unused with [] => g_eligible g | _ => unused end) with
      | [] => ([], [], r)
      | (_ :: _) as pool =>
          let '(i, r1) := pick g r pool in
          let '(ps, unused', r2) :=
            draw_without_replacement g n' (delete i pool) r1 in
          (nth i pool O :: ps, unused', r2)
      end
  end.

(** The strand of each drawn position. *)
Fixpoint draw_strands (strand : string) (n : nat) (r : rng) : list bool * rng :=
  match n with
  | O => ([], r)
  | S n' =>
      let '(fwd, r1) :=
        if bool_decide (strand = "for") then (true, r)
        else if bool_decide (strand = "rev") then (false, r)
        else rng_coin r in
      let '(ss, r2) := draw_strands strand n' r1 in
      (fwd :: ss, r2)
  end.

(** Modelled from the spec: BatchAssembler (4.5).  The window of length
    [winsize] centred on the position, reverse-complemented for a
    reverse-strand draw (the rows in reverse order, each row reversed);
    the label at the centre, or the labels at
    [centre + j * head_interval] for [j] symmetric around zero and
    inside the window. *)
Definition window (data : merged base) (winsize : nat) (fwd : bool) (p : nat)
    : list base :=
  let w := base_at data <$> seq (p - winsize / 2) winsize in
  if fwd then w else rev (@rev bool <$> w).

Definition head_offsets (winsize : nat) (head_interval : option nat) : list Z :=
  match head_interval with
  | None | Some O => [0]
  | Some h =>
      let m := Z.of_nat ((winsize / 2) / h) in
      (λ j, (Z.of_nat j - m) * Z.of_nat h) <$> seq 0 (2 * Z.to_nat m + 1)
  end.

Definition heads (labs : merged signal) (winsize : nat)
    (head_interval : option nat) (p : nat) : list signal :=
  (λ d, label_at labs (Z.to_nat (Z.of_nat p + d))) <$> head_offsets winsize head_interval.

Definition assemble (g : Generator) (ps : list nat) (ss : list bool) : Batch :=
  {| b_positions := ps;
     b_strands := ss;
     b_windows := (λ '(p, fwd), window (g_data g) (g_winsize g) fwd p) <$> zip ps ss;
     b_labels := heads (g_labels g) (g_winsize g) (g_head_interval g) <$> ps |}.

(** Modelled from the spec: WindowGenerator (4.6).  The number of
    positions of one epoch, the declared batch count
    [ceil(min(max_data, |eligible|) / batch_size)], and the size of batch
    [idx]: [batch_size], or fewer for the final partial batch (4.4). *)
Definition epoch_size (g : Generator) : nat :=
  Nat.min (g_max_data g) (length (g_eligible g)).

Definition n_batches (g : Generator) : nat :=
  match g_batch_size g with
  | O => O
  | S _ => ((epoch_size g + g_batch_size g - 1) / g_batch_size g)%nat
  end.

Definition batch_len (g : Generator) (idx : nat) : nat :=
  Nat.min (g_batch_size g) (epoch_size g - idx * g_batch_size g).

Definition with_state (g : Generator) (unused : list nat) (r : rng) : Generator :=
  {| g_data := g_data g; g_labels := g_labels g; g_winsize := g_winsize g;
     g_batch_size := g_batch_size g; g_max_data := g_max_data g;
     g_same_samples := g_same_samples g; g_balance := g_balance g;
     g_n_classes := g_n_classes g; g_strand := g_strand g;
     g_head_interval := g_head_interval g; g_eligible := g_eligible g;
     g_class_weights := g_class_weights g;
     g_unused := unused; g_rng := r |}.

(** "fetch batch idx".  Without replacement, the positions come from the
    unused ones.  After the last batch of the epoch the used-index
    tracker is reset and a new coverage cycle begins (4.6). *)
Definition fetch (g : Generator) (idx : nat) : Batch * Generator :=
  let n := batch_len g idx in
  if g_same_samples g then
    let '(ps, r1) := draw_with_replacement g n (g_rng g) in
    let '(ss, r2) := draw_strands (g_strand g) (length ps) r1 in
    (assemble g ps ss, with_state g (g_unused g) r2)
  else
    let '(ps, unused, r1) := draw_without_replacement g n (g_unused g) (g_rng g) in
    let '(ss, r2) := draw_strands (g_strand g) (length ps) r1 in
    let unused' := if (n_batches g <=? S idx)%nat then g_eligible g else unused in
    (assemble g ps ss, with_state g unused' r2).

Definition default_n_classes : Z := 500.

Definition length_error : Failure :=
  ConfigurationError "sequence and label arrays differ in length".

(** Where a merged array holds values and where it holds gaps. *)
Definition layout {A} (m : merged A) : list bool :=
  (λ o, bool_decide (is_Some o)) <$> m.

(** Modelled from the spec: the constructor of [WindowGenerator] (3, 7),
    missing from the sources.  The label array is aligned with the
    sequence array, the gaps in lockstep, and the length of the labels
    equals the length of the sequence for each chromosome: two merged
    arrays that do not have their values and their gaps at the same
    positions break that invariant, a configuration error that is fatal
    at construction.  Keywords that are not passed take the unset value:
    no balancing.  An unseeded generator is initialised from the entropy
    of the environment. *)
Definition WindowGenerator (entropy : Z) (kw : GenKwargs) : Res Generator :=
  if negb (bool_decide (layout (kw_data kw) = layout (kw_labels kw))) then
    Fail length_error
  else
    let el := eligible_positions kw in
    let bal := default None (kw_balance kw) in
    let nc := Z.to_nat (default default_n_classes (kw_n_classes kw)) in
    Ok {| g_data := kw_data kw; g_labels := kw_labels kw;
          g_winsize := Z.to_nat (kw_winsize kw);
          g_batch_size := Z.to_nat (kw_batch_size kw);
          g_max_data := Z.to_nat (kw_max_data kw);
          g_same_samples := kw_same_samples kw;
          g_balance := bal;
          g_n_classes := nc;
          g_strand := kw_strand kw;
          g_head_interval := Z.to_nat <$> kw_head_interval kw;
          g_eligible := el;
          g_class_weights :=
            match bal with
            | Some _ => Some (class_weights nc (label_at (kw_labels kw) <$> el))
            | None => None
            end;
          g_unused := el;
          g_rng := rng_seed (default entropy (kw_seed kw)) |}.

(** The batches of [k] consecutive fetches starting at batch [idx] of an
    epoch, as the training loop asks for them: the index goes back to
    zero after the last batch of the epoch. *)
Definition next_index (g : Generator) (idx : nat) : nat :=
  if (S idx <? n_batches g)%nat then S idx else O.

Fixpoint fetch_many (k : nat) (g : Generator) (idx : nat) : list Batch * Generator :=
  match k with
  | O => ([], g)
  | S k' =>
      let '(b, g1) := fetch g idx in
      let '(bs, g2) := fetch_many k' g1 (next_index g idx) in
      (b :: bs, g2)
  end.


(** The generator and the batches of epoch [c], counted from zero, when
    the batches are fetched in order from the start. *)
Definition epoch_start (g : Generator) (c : nat) : Generator :=
  snd (fetch_many (c * n_batches g) g 0).

Definition epoch_batches (g : Generator) (c : nat) : list Batch :=
  fst (fetch_many (n_batches g) (epoch_start g c) 0).


End WindowGenerator.

(** ** The script (lines 257-397) *)

#[export] Instance Res_ret : MRet Res := λ A a, Ok a.
#[export] Instance Res_bind : MBind Res := λ A B f m,
  match m with
  | Ok a => f a
  | Fail e => Fail e
  end.

Inductive ModelBuilder := mnase_Etienne | bassenji_Etienne.

(** Lines 284-287. *)
Definition model_dict : gmap string ModelBuilder :=
  {[ "mnase_Etienne" := mnase_Etienne; "bassenji_Etienne" := bassenji_Etienne ]}.

(** [d[key]] on a dictionary or an archive. *)
Definition getitem {V} (d : gmap string V) (key : string) : Res V :=
  match d !! key with
  | Some v => Ok v
  | None => Fail (KeyError key)
  end.

(** [a + n] for an index array and a Python integer (line 317).  The
    result has the type of the array: the integer must fit that type,
    or NumPy (from version 2) raises [OverflowError], whose message,
    which names the integer and the type, is abbreviated here; the sums
    are computed in that type and wrap around silently.  (Before version
    2 NumPy widened the type for an integer that did not fit; where the
    integer fits, the two agree.) *)
Definition np_add_int (a : Np.ndarray) (n : Z) : Res Np.ndarray :=
  if Np.in_range (Np.dtype a) n then
    Ok {| Np.dtype := Np.dtype a;
          Np.values := (λ x, Np.wrap (Np.dtype a) (x + n)) <$> Np.values a |}
  else Fail (OverflowError "Python integer out of bounds for the type of the array").

(** The loop of lines 316-318 (and 320-322): [f[k] + total_len] is
    appended, then [total_len] grows by [len(s[k]) + 1]. *)
Fixpoint remap_loop (f : gmap string Np.ndarray) (s : npz signal)
    (ks : list string) (remove_indices : list Np.ndarray) (total_len : Z)
    : Res (list Np.ndarray) :=
  match ks with
  | [] => Ok remove_indices
  | k :: rest =>
      fk ← getitem f k;
      shifted ← np_add_int fk total_len;
      let remove_indices := remove_indices ++ [shifted] in
      sk ← getitem s k;
      remap_loop f s rest remove_indices (total_len + (Z.of_nat (length sk) + 1))
  end.

(** [np.concatenate] of a list of index arrays: the values, converted to
    the common type of the arrays. *)
Definition np_concatenate (arrays : list Np.ndarray) : Res (list Z) :=
  match arrays with
  | [] => Fail (ValueError "need at least one array to concatenate")
  | _ =>
      Ok (Np.cast (Np.result_type (Np.dtype <$> arrays))
            <$> concat (Np.values <$> arrays))
  end.

Definition remap_indices (f : gmap string Np.ndarray) (s : npz signal)
    (ks : list string) : Res (list Z) :=
  arrays ← remap_loop f s ks [] 0;
  np_concatenate arrays.

(** Lines 328-343. *)
Definition generator_train_kwargs (args : Args) (x_train : merged base)
    (y_train : merged signal) (remove_indices_train : option (list Z)) : GenKwargs :=
  {| kw_data := x_train;
     kw_labels := y_train;
     kw_winsize := winsize args;
     kw_batch_size := batch_size args;
     kw_max_data := max_train args;
     kw_same_samples := same_samples args;
     kw_balance := Some (balance args);
     kw_n_classes := Some (n_classes args);
     kw_strand := strand args;
     kw_head_interval := head_interval args;
     kw_remove0s := remove0s args;
     kw_removeNs := removeNs args;
     kw_remove_indices := remove_indices_train;
     kw_seed := seed args |}.

(** Lines 344-357. *)
Definition generator_valid_kwargs (args : Args) (x_valid : merged base)
    (y_valid : merged signal) (remove_indices_valid : option (list Z)) : GenKwargs :=
  {| kw_data := x_valid;
     kw_labels := y_valid;
     kw_winsize := winsize args;
     kw_batch_size := batch_size args;
     kw_max_data := max_valid args;
     kw_same_samples := true;
     kw_balance := None;
     kw_n_classes := None;
     kw_strand := strand args;
     kw_head_interval := head_interval args;
     kw_remove0s := remove0s args;
     kw_removeNs := removeNs args;
     kw_remove_indices := remove_indices_valid;
     kw_seed := Some 0 |}.

Section Script.
Context {rng : Type} `{RandomGen rng}.

(** [utils.merge_chroms(chr_ids, path)] *)
Definition load_merged {A} (chr_ids : list string)
    (files : gmap string (npz A)) (path : string) : M (merged A) :=
  emit (EvMergeChroms chr_ids path);;
  a ← np_load files path;
  lift_res (merge_chroms chr_ids a).

(** A call of [tf_utils.WindowGenerator]. *)
Definition construct (w : World) (role : GenRole) (kw : GenKwargs) : M Generator :=
  emit (EvWindowGenerator role kw);;
  lift_res (WindowGenerator (entropy w) kw).

(** The arrays handed to the generators. *)
Record Data := {
  x_train : merged base;
  x_valid : merged base;
  y_train : merged signal;
  y_valid : merged signal;
  remove_indices_train : option (list Z);
  remove_indices_valid : option (list Z)
}.

(** Lines 280-304, "Build model with chosen strategy": the seed of the
    model initialisation, the look-up of the architecture, the model. *)
Definition build_model (args : Args) : M ModelBuilder :=
  match seed args with
  | Some s => emit (EvSetSeed s)
  | None => mret ()
  end;;
  model_builder ← lift_res (getitem model_dict (architecture args));
  emit (EvBuildModel (architecture args) (winsize args) (distribute args));;
  mret model_builder.

(** Lines 311-326. *)
Definition load_remove_indices (w : World) (args : Args)
    : M (option (list Z) * option (list Z)) :=
  match remove_indices args with
  | Some path =>
      f ← np_load (index_files w) path;
      s ← np_load (label_files w) (labels args);
      remove_indices_train ← lift_res (remap_indices f s (chrom_train args));
      remove_indices_valid ← lift_res (remap_indices f s (chrom_valid args));
      mret (Some remove_indices_train, Some remove_indices_valid)
  | None => mret (None, None)
  end.

(** Lines 306-326, "Load the data". *)
Definition load_data (w : World) (args : Args) : M Data :=
  x_train ← load_merged (chrom_train args) (genome_files w) (genome args);
  x_valid ← load_merged (chrom_valid args) (genome_files w) (genome args);
  y_train ← load_merged (chrom_train args) (label_files w) (labels args);
  y_valid ← load_merged (chrom_valid args) (label_files w) (labels args);
  '(remove_indices_train, remove_indices_valid) ← load_remove_indices w args;
  mret {| x_train := x_train; x_valid := x_valid;
          y_train := y_train; y_valid := y_valid;
          remove_indices_train := remove_indices_train;
          remove_indices_valid := remove_indices_valid |}.

(** Lines 327-357, "Build generators". *)
Definition build_generators (w : World) (args : Args) (d : Data)
    : M (Generator * Generator) :=
  generator_train ← construct w Train
    (generator_train_kwargs args (x_train d) (y_train d) (remove_indices_train d));
  generator_valid ← construct w Valid
    (generator_valid_kwargs args (x_valid d) (y_valid d) (remove_indices_valid d));
  mret (generator_train, generator_valid).

(** Lines 383-397, "Train model" and "Save trained model": the fit, the
    training time appended to the experiment file, the saved model. *)
Definition train (args : Args) : M unit :=
  emit (EvFit (epochs args));;
  emit (EvAppendInfo (output args +:+ "/Experiment_info.txt"));;
  emit (EvSaveModel (output args +:+ "/model")).

(** After [parsing]: the output directory and the experiment file, then
    the four blocks above.  The device set-up, the optimiser and the
    callbacks are outside the model. *)
Definition run (w : World) (args : Args) : M unit :=
  emit (EvMkdir (output args));;
  emit (EvWriteInfo (output args +:+ "/Experiment_info.txt"));;
  model_builder ← build_model args;
  d ← load_data w args;
  generators ← build_generators w args d;
  train args.

Definition main (w : World) (args : Args) : M unit :=
  args ← parsing w args;
  run w args.

End Script.

(** The steps that read array data or produce batches. *)
Definition touches_data (e : Event) : bool :=
  match e with
  | EvMergeChroms _ _ | EvWindowGenerator _ _ | EvFit _ => true
  | _ => false
  end.

Definition produces_batches (e : Event) : bool :=
  match e with
  | EvFit _ => true
  | _ => false
  end.

(** A small linear congruential generator, to run the model on examples. *)
Definition lcg_next (s : Z) : Z := (s * 1103515245 + 12345) mod 2147483648.

#[export] Instance lcg : RandomGen Z := {|
  rng_seed := λ s, lcg_next (s mod 2147483648);
  rng_choice := λ s ws, (Z.to_nat (s / 65536), lcg_next s);
  rng_coin := λ s, (Z.even (s / 65536), lcg_next s)
|}.

(** ** Command lines and files used in the examples *)

(** The namespace of a command line that gives the required options
    only: every other field has its [argparse] default. *)
Definition cli (architecture genome labels output : string)
    (chrom_train chrom_valid : list string) : Args :=
  {| architecture := architecture; genome := genome; labels := labels;
     output := output; chrom_train := chrom_train; chrom_valid := chrom_valid;
     strand := "both"; winsize := 2001; head_interval := None;
     learn_rate := (1 # 1000)%Q; epochs := 100; batch_size := 1024;
     same_samples := false; max_train := 2 ^ 22; max_valid := 2 ^ 20;
     balance := None; n_classes := 500; remove0s := false; removeNs := false;
     remove_indices := None; seed := None; disable_autotune := false;
     patience := 6; distribute := false; verbose := 2 |}.

(** [--seed], [--same_samples] and [--balance] set to given values. *)
Definition with_sampling (args : Args) (sd : option Z) (ss : bool)
    (bal : option string) : Args :=
  {| architecture := architecture args; genome := genome args;
     labels := labels args; output := output args;
     chrom_train := chrom_train args; chrom_valid := chrom_valid args;
     strand := strand args; winsize := winsize args;
     head_interval := head_interval args; learn_rate := learn_rate args;
     epochs := epochs args; batch_size := batch_size args;
     same_samples := ss; max_train := max_train args;
     max_valid := max_valid args; balance := bal;
     n_classes := n_classes args; remove0s := remove0s args;
     removeNs := removeNs args; remove_indices := remove_indices args;
     seed := sd; disable_autotune := disable_autotune args;
     patience := patience args; distribute := distribute args;
     verbose := verbose args |}.

(** [--winsize n]. *)
Definition with_winsize (args : Args) (n : Z) : Args :=
  {| architecture := architecture args; genome := genome args;
     labels := labels args; output := output args;
     chrom_train := chrom_train args; chrom_valid := chrom_valid args;
     strand := strand args; winsize := n;
     head_interval := head_interval args; learn_rate := learn_rate args;
     epochs := epochs args; batch_size := batch_size args;
     same_samples := same_samples args; max_train := max_train args;
     max_valid := max_valid args; balance := balance args;
     n_classes := n_classes args; remove0s := remove0s args;
     removeNs := removeNs args; remove_indices := remove_indices args;
     seed := seed args; disable_autotune := disable_autotune args;
     patience := patience args; distribute := distribute args;
     verbose := verbose args |}.

(** [--remove_indices path]. *)
Definition with_remove_indices (args : Args) (path : string) : Args :=
  {| architecture := architecture args; genome := genome args;
     labels := labels args; output := output args;
     chrom_train := chrom_train args; chrom_valid := chrom_valid args;
     strand := strand args; winsize := winsize args;
     head_interval := head_interval args; learn_rate := learn_rate args;
     epochs := epochs args; batch_size := batch_size args;
     same_samples := same_samples args; max_train := max_train args;
     max_valid := max_valid args; balance := balance args;
     n_classes := n_classes args; remove0s := remove0s args;
     removeNs := removeNs args; remove_indices := Some path;
     seed := seed args; disable_autotune := disable_autotune args;
     patience := patience args; distribute := distribute args;
     verbose := verbose args |}.

Module Sample.

Definition bA : base := [true; false; false; false].
Definition bC : base := [false; true; false; false].
Definition bG : base := [false; false; true; false].
Definition bT : base := [false; false; false; true].

(** A yeast-like genome with three chromosomes and the matching labels. *)
Definition genome_W303 : npz base :=
  {[ "chr01" := [bA; bC; bG]; "chr02" := [bT; bT]; "chr16" := [bG; bA; bT; bC] ]}.
Definition labels_W303 : npz signal :=
  {[ "chr01" := [1; 2; 3]%Q; "chr02" := [4; 5]%Q; "chr16" := [6; 7; 8; 9]%Q ]}.

(** The same genome with a bacterial chromosome added. *)
Definition genome_Mmmyco : npz base :=
  {[ "chrI" := [bA; bC; bG]; "chrII" := [bT; bT]; "Mmmyco" := [bG; bG; bA] ]}.
Definition labels_Mmmyco : npz signal :=
  {[ "chrI" := [1; 2; 3]%Q; "chrII" := [4; 5]%Q; "Mmmyco" := [6; 7; 8]%Q ]}.

(** Labels one value short for chr01. *)
Definition labels_short : npz signal :=
  {[ "chr01" := [1; 2]%Q; "chr02" := [4; 5]%Q; "chr16" := [6; 7; 8; 9]%Q ]}.

Definition int64_array (l : list Z) : Np.ndarray :=
  {| Np.dtype := Np.int64; Np.values := l |}.
Definition int8_array (l : list Z) : Np.ndarray :=
  {| Np.dtype := Np.int8; Np.values := l |}.

Definition exclusions : gmap string Np.ndarray :=
  {[ "chr01" := int64_array [0; 2]; "chr02" := int64_array [1];
     "chr16" := int64_array [0; 3] ]}.
Definition exclusions_partial : gmap string Np.ndarray :=
  {[ "chr01" := int64_array [0; 2]; "chr16" := int64_array [0; 3] ]}.

(** Two longer chromosomes, of 99 and 120 bases, and an exclusion
    archive saved with 8-bit indices. *)
Definition genome_long : npz base :=
  {[ "A" := replicate 99 bA; "B" := replicate 120 bC ]}.
Definition labels_long : npz signal :=
  {[ "A" := replicate 99 1%Q; "B" := replicate 120 2%Q ]}.
Definition exclusions_int8 : gmap string Np.ndarray :=
  {[ "A" := int8_array [0]; "B" := int8_array [100] ]}.

Definition world : World :=
  {| genome_files :=
       {[ "data/W303.npz" := genome_W303; "data/W303_Mmmyco.npz" := genome_Mmmyco;
          "data/yeast.npz" := genome_W303; "data/long.npz" := genome_long ]};
     label_files :=
       {[ "data/labels.npz" := labels_W303; "data/labels_Mmmyco.npz" := labels_Mmmyco;
          "data/short.npz" := labels_short;
          "data/long_labels.npz" := labels_long ]};
     index_files :=
       {[ "data/exclude.npz" := exclusions; "data/partial.npz" := exclusions_partial;
          "data/int8.npz" := exclusions_int8 ]};
     entropy := 20240229 |}.

(** Command lines over these files. *)
Definition args_W303 : Args :=
  cli "mnase_Etienne" "data/W303.npz" "data/labels.npz" "out" ["1"; "16"] ["2"].
Definition args_W303_X : Args :=
  cli "mnase_Etienne" "data/W303.npz" "data/labels.npz" "out" ["1"; "X"] ["2"].
Definition args_W303_007 : Args :=
  cli "mnase_Etienne" "data/W303.npz" "data/labels.npz" "out" ["007"] ["2"].
Definition args_W303_7 : Args :=
  cli "mnase_Etienne" "data/W303.npz" "data/labels.npz" "out" ["1"; "7"] ["2"].
Definition args_Mmmyco : Args :=
  cli "mnase_Etienne" "data/W303_Mmmyco.npz" "data/labels_Mmmyco.npz" "out"
      ["I"; "Mmmyco"] ["II"].
Definition args_yeast : Args :=
  cli "mnase_Etienne" "data/yeast.npz" "data/labels.npz" "out"
      ["chr01"; "chr16"] ["chr02"].

Definition args_resnet : Args :=
  cli "resnet" "data/yeast.npz" "data/labels.npz" "out"
      ["chr01"; "chr16"] ["chr02"].
Definition args_exclude : Args :=
  with_remove_indices (with_winsize args_yeast 1) "data/exclude.npz".
Definition args_partial : Args :=
  with_remove_indices (with_winsize args_yeast 1) "data/partial.npz".

Definition args_int8 : Args :=
  with_remove_indices
    (with_winsize (cli "mnase_Etienne" "data/long.npz" "data/long_labels.npz"
                       "out" ["A"; "B"] ["A"]) 1)
    "data/int8.npz".
(** The first chromosome asked for twice: the third offset, 221, is
    outside the 8-bit integers. *)
Definition args_int8_wide : Args :=
  with_remove_indices
    (with_winsize (cli "mnase_Etienne" "data/long.npz" "data/long_labels.npz"
                       "out" ["A"; "B"; "A"] ["A"]) 1)
    "data/int8.npz".
Definition args_short : Args :=
  with_winsize (cli "mnase_Etienne" "data/yeast.npz" "data/short.npz" "out"
                    ["chr01"; "chr02"] ["chr16"]) 1.

(** Ten positions, all eligible, drawn three at a time. *)
Definition kwargs_10 : GenKwargs :=
  {| kw_data := Some <$> [bA; bC; bG; bT; bA; bC; bG; bT; bA; bC];
     kw_labels := Some <$> [1; 2; 3; 4; 5; 6; 7; 8; 9; 10]%Q;
     kw_winsize := 1; kw_batch_size := 3; kw_max_data := 100;
     kw_same_samples := false; kw_balance := Some None;
     kw_n_classes := Some 500; kw_strand := "both";
     kw_head_interval := None; kw_remove0s := false; kw_removeNs := false;
     kw_remove_indices := None; kw_seed := Some 7 |}.

(** The same without a seed. *)
Definition kwargs_10_unseeded : GenKwargs :=
  {| kw_data := kw_data kwargs_10; kw_labels := kw_labels kwargs_10;
     kw_winsize := 1; kw_batch_size := 3; kw_max_data := 100;
     kw_same_samples := false; kw_balance := Some None;
     kw_n_classes := Some 500; kw_strand := "both";
     kw_head_interval := None; kw_remove0s := false; kw_removeNs := false;
     kw_remove_indices := None; kw_seed := None |}.

(** The same with [max_data] below the number of eligible positions. *)
Definition kwargs_10_capped : GenKwargs :=
  {| kw_data := kw_data kwargs_10; kw_labels := kw_labels kwargs_10;
     kw_winsize := 1; kw_batch_size := 3; kw_max_data := 4;
     kw_same_samples := false; kw_balance := Some None;
     kw_n_classes := Some 500; kw_strand := "both";
     kw_head_interval := None; kw_remove0s := false; kw_removeNs := false;
     kw_remove_indices := None; kw_seed := Some 7 |}.

(** Two chromosomes of four and three bases, merged, and windows of
    three bases. *)
Definition kwargs_gap : GenKwargs :=
  {| kw_data := merge_arrays [[bA; bC; bG; bT]; [bA; bC; bG]];
     kw_labels := merge_arrays [[1; 2; 3; 4]%Q; [5; 6; 7]%Q];
     kw_winsize := 3; kw_batch_size := 2; kw_max_data := 100;
     kw_same_samples := false; kw_balance := Some None;
     kw_n_classes := Some 500; kw_strand := "for";
     kw_head_interval := None; kw_remove0s := false; kw_removeNs := false;
     kw_remove_indices := None; kw_seed := Some 7 |}.

End Sample.

(** ** Vocabulary of the properties *)

(** An event is a membership test of one of the given identifiers. *)
Definition membership_of (ids : list string) (e : Event) : Prop :=
  ∃ a c, e = EvMembership a c ∧ c ∈ ids.

Definition genome_labels_msg (args : Args) (chr_id : string) : string :=
  chr_id +:+ " is not a valid chromosome id in "
  +:+ genome args +:+ " and " +:+ labels args.

Definition remove_indices_msg (path : string) (chr_id : string) : string :=
  chr_id +:+ " is not a valid chromosome id in " +:+ path.

(** The checks that follow the renaming, on the renamed arguments. *)
Definition membership_checks (w : World) (args : Args) (g : npz base)
    (s : npz signal) : M Args :=
  check_genome_labels args g s (chrom_train args ++ chrom_valid args);;
  match remove_indices args with
  | Some path =>
      r ← np_load (index_files w) path;
      check_remove_indices path r (chrom_train args ++ chrom_valid args)
  | None => mret ()
  end;;
  mret args.

(** The shape of every step that [run] can perform: no membership test,
    chromosomes merged by the lists of the arguments, generators built
    with the keyword arguments of lines 328-357. *)
Definition run_event (args : Args) (e : Event) : Prop :=
  match e with
  | EvMembership _ _ => False
  | EvMergeChroms ids _ => ids = chrom_train args ∨ ids = chrom_valid args
  | EvWindowGenerator Train kw =>
      ∃ x y ri, kw = generator_train_kwargs args x y ri
  | EvWindowGenerator Valid kw =>
      ∃ x y ri, kw = generator_valid_kwargs args x y ri
  | _ => True
  end.

(** An identifier padded with zeros on the left to a given width. *)
Fixpoint zfill_go (n : nat) (c : string) : string :=
  match n with
  | O => c
  | S n' => zfill_go n' ("0" +:+ c)
  end.
Definition zfill (width : nat) (c : string) : string :=
  zfill_go (width - String.length c) c.

(** The renaming read to the letter: every identifier becomes "chr"
    followed by the identifier itself, zero-padded to two digits. *)
Definition W303_renamed_as_stated (args : Args) : Prop :=
  rename_chroms args
  = Ok (set_chroms args ((λ c, "chr" +:+ zfill 2 c) <$> chrom_train args)
                        ((λ c, "chr" +:+ zfill 2 c) <$> chrom_valid args)).

(** The renaming as the script computes it, from the integer value. *)
Definition w303_name (n : Z) : string := "chr" +:+ Py.format_02d n.

(** Every membership test and every merge of an event list concerns the
    given identifiers only. *)
Definition names_only (ids : list string) (e : Event) : Prop :=
  match e with
  | EvMembership _ c => c ∈ ids
  | EvMergeChroms cs _ => cs ⊆ ids
  | _ => True
  end.

(** The keyword arguments of the calls that build a validation
    generator, in the order of the trace. *)
Definition valid_calls (t : list Event) : list GenKwargs :=
  omap (λ e, match e with
             | EvWindowGenerator Valid kw => Some kw
             | _ => None
             end) t.

(** The offset of chromosome [i], as the specification words it: the sum
    of the lengths of chromosomes [0 .. i-1] plus [i] separator slots. *)
Definition chrom_offset (lens : list nat) (i : nat) : Z :=
  Z.of_nat (sum_list (take i lens)) + Z.of_nat i.

(** The local indices of every chromosome shifted by its offset, in the
    order of the chromosomes. *)
Definition merged_indices (local : list (list Z)) (lens : list nat) : list Z :=
  concat (imap (λ i idx, (λ x, x + chrom_offset lens i) <$> idx) local).

(** An index array shifted by an offset, were the sums exact. *)
Definition shifted (a : Np.ndarray) (offset : Z) : Np.ndarray :=
  {| Np.dtype := Np.dtype a;
     Np.values := (λ x, x + offset) <$> Np.values a |}.

(** The offset and every shifted index fit the integer type of the
    array. *)
Definition shift_exact (a : Np.ndarray) (offset : Z) : bool :=
  Np.in_range (Np.dtype a) offset
  && forallb (λ x, Np.in_range (Np.dtype a) (x + offset)) (Np.values a).

(** Nothing is lost in the remapping of the arrays [fs] of chromosomes
    of lengths [lens]: every array can be shifted exactly, and the type
    to which the concatenation converts the arrays holds every index. *)
Definition remap_exact (fs : list Np.ndarray) (lens : list nat) : bool :=
  forallb id (imap (λ i a, shift_exact a (chrom_offset lens i)) fs)
  && forallb (λ v, Np.cast (Np.result_type (Np.dtype <$> fs)) v =? v)
       (merged_indices (Np.values <$> fs) lens).

(** The summed lengths of the arrays of the given chromosomes. *)
Definition total_length {A} (a : npz A) (ids : list string) : nat :=
  sum_list_with (λ k, length (default [] (a !! k))) ids.

(** Two collections of archives that hold the same files with the same
    keys, whatever the arrays are. *)
Definition same_keys {A B} (f : gmap string (gmap string A))
    (f' : gmap string (gmap string B)) : Prop :=
  ∀ path,
    match f !! path, f' !! path with
    | Some a, Some a' => ∀ k, is_Some (a !! k) ↔ is_Some (a' !! k)
    | None, None => True
    | _, _ => False
    end.

(** The batch count that a generator declares, if it was built. *)
Definition declared_batches {rng} (r : Res (@Generator rng)) : option nat :=
  match r with
  | Ok g => Some (n_batches g)
  | Fail _ => None
  end.

(** The calls that build a generator, in the order of the trace. *)
Definition generator_calls (t : list Event) : list (GenRole * GenKwargs) :=
  omap (λ e, match e with
             | EvWindowGenerator role kw => Some (role, kw)
             | _ => None
             end) t.

(** The membership tests of lines 240-245 on identifiers that pass: one
    test on the genome archive and one on the labels archive each. *)
Definition genome_labels_tests (args : Args) (ids : list string) : list Event :=
  concat ((λ c, [EvMembership (genome args) c; EvMembership (labels args) c])
            <$> ids).

(** The tests made on an identifier that fails: the labels archive is
    looked at only when the genome archive holds the identifier. *)
Definition failing_tests (args : Args) (g : npz base) (id : string) : list Event :=
  EvMembership (genome args) id
  :: (if bool_decide (is_Some (g !! id))
      then [EvMembership (labels args) id] else []).

(** The membership tests of lines 248-253 on identifiers that pass. *)
Definition remove_indices_tests (path : string) (ids : list string) : list Event :=
  EvMembership path <$> ids.

(** All the tests of an argument validation that passes. *)
Definition passing_tests (args : Args) : list Event :=
  genome_labels_tests args (chrom_train args ++ chrom_valid args)
  ++ match remove_indices args with
     | Some path => remove_indices_tests path (chrom_train args ++ chrom_valid args)
     | None => []
     end.

(** What argument validation requires of the files, for the arguments as
    renamed. *)
Definition well_formed (w : World) (args : Args) : Prop :=
  ∃ g s,
    genome_files w !! genome args = Some g
    ∧ label_files w !! labels args = Some s
    ∧ Forall (λ id, is_Some (g !! id) ∧ is_Some (s !! id))
             (chrom_train args ++ chrom_valid args)
    ∧ ∀ path, remove_indices args = Some path →
        ∃ r, index_files w !! path = Some r
             ∧ Forall (λ id, is_Some (r !! id))
                      (chrom_train args ++ chrom_valid args).

Definition genome_missing_msg (args : Args) : string :=
  genome args +:+ " does not exist." +:+ nl
  +:+ "Please enter a valid genome file path.".

Definition labels_missing_msg (args : Args) : string :=
  labels args +:+ " does not exist." +:+ nl
  +:+ "Please enter a valid labels file path.".

(** The seed of the model initialisation (lines 281-282): set only when
    [--seed] is given. *)
Definition seed_events (args : Args) : list Event :=
  match seed args with
  | Some s => [EvSetSeed s]
  | None => []
  end.

(** The steps of lines 262-282, before the architecture is looked up. *)
Definition setup_steps (args : Args) : list Event :=
  [EvMkdir (output args); EvWriteInfo (output args +:+ "/Experiment_info.txt")]
  ++ seed_events args.

(** The steps of a run that reaches its end, on the data [d]. *)
Definition run_steps (args : Args) (d : Data) : list Event :=
  setup_steps args
  ++ [EvBuildModel (architecture args) (winsize args) (distribute args);
      EvMergeChroms (chrom_train args) (genome args);
      EvMergeChroms (chrom_valid args) (genome args);
      EvMergeChroms (chrom_train args) (labels args);
      EvMergeChroms (chrom_valid args) (labels args);
      EvWindowGenerator Train
        (generator_train_kwargs args (x_train d) (y_train d)
                                (remove_indices_train d));
      EvWindowGenerator Valid
        (generator_valid_kwargs args (x_valid d) (y_valid d)
                                (remove_indices_valid d));
      EvFit (epochs args);
      EvAppendInfo (output args +:+ "/Experiment_info.txt");
      EvSaveModel (output args +:+ "/model")].

(** The settings that the two generator calls take from the same
    arguments. *)
Definition shared_settings (args : Args) (kw : GenKwargs) : Prop :=
  kw_winsize kw = winsize args
  ∧ kw_batch_size kw = batch_size args
  ∧ kw_strand kw = strand args
  ∧ kw_head_interval kw = head_interval args
  ∧ kw_remove0s kw = remove0s args
  ∧ kw_removeNs kw = removeNs args
  ∧ (is_Some (kw_remove_indices kw) ↔ is_Some (remove_indices args)).

(** The settings that only the training call takes from the arguments,
    and the window budget of each call. *)
Definition own_settings (args : Args) (role : GenRole) (kw : GenKwargs) : Prop :=
  match role with
  | Train =>
      kw_max_data kw = max_train args
      ∧ kw_same_samples kw = same_samples args
      ∧ kw_balance kw = Some (balance args)
      ∧ kw_n_classes kw = Some (n_classes args)
      ∧ kw_seed kw = seed args
  | Valid => kw_max_data kw = max_valid args
  end.

(** The renaming of one identifier for a genome of the given name, the
    three cases of lines 232-237 in one function. *)
Definition rename_id (genome_name c : string) : Res string :=
  if bool_decide (genome_name = "W303") then w303_id c
  else if bool_decide (genome_name = "W303_Mmmyco") then Ok (mmmyco_id c)
  else Ok c.

(** The value of [total_len] after the loop of lines 316-318: every
    chromosome takes the length of its labels and one more slot. *)
Definition total_len_after (s : npz signal) (ks : list string) : Z :=
  Z.of_nat (total_length s ks) + Z.of_nat (length ks).

(** The failure of [f[k] + total_len] when [total_len] is outside the
    integer type of [f[k]]. *)
Definition offset_overflow : Failure :=
  OverflowError "Python integer out of bounds for the type of the array".

(** Every value that [total_len] takes in the loop of lines 316-318 over
    the chromosomes [ks], entered after the chromosomes [pre], fits the
    integer type of the index array it is added to. *)
Fixpoint offsets_fit (f : gmap string Np.ndarray) (s : npz signal)
    (pre ks : list string) : bool :=
  match ks with
  | [] => true
  | k :: rest =>
      match f !! k with
      | Some a => Np.in_range (Np.dtype a) (total_len_after s pre)
      | None => true
      end
      && offsets_fit f s (pre ++ [k]) rest
  end.

(** How the step of the loop for chromosome [k], entered after the
    chromosomes [pre], fails with [e]: the exclusion archive does not
    hold [k], or the offset is outside the integer type of [f[k]], or the
    labels archive does not hold [k]. *)
Definition step_failure (f : gmap string Np.ndarray) (s : npz signal)
    (pre : list string) (k : string) (e : Failure) : Prop :=
  match f !! k with
  | None => e = KeyError k
  | Some a =>
      if Np.in_range (Np.dtype a) (total_len_after s pre)
      then s !! k = None ∧ e = KeyError k
      else e = offset_overflow
  end.

(** * Properties *)

Ltac run_cases :=
  unfold run, build_model, load_data, build_generators, train, load_merged,
    load_remove_indices, construct, np_load, lift_res, emit;
  repeat (match goal with
          | |- context [match ?x with _ => _ end] =>
              match x with
              | context [match _ with _ => _ end] => fail 1
              | _ => destruct x eqn:?
              end
          end;
          cbn -[merge_chroms remap_indices WindowGenerator getitem
                generator_train_kwargs generator_valid_kwargs]).

(** ** The computation monad *)

Lemma bind_Ok {A B} (m : M A) (f : A → M B) t a :
  m = (t, Ok a) → m ≫= f = (t ++ trace (f a), result (f a)).
Proof. intros ->. unfold mbind, M_bind. by destruct (f a). Qed.

Lemma bind_Fail {A B} (m : M A) (f : A → M B) t e :
  m = (t, Fail e) → m ≫= f = (t, Fail e).
Proof. by intros ->. Qed.

Lemma M_eta {A} (m : M A) : (let '(t, r) := m in (t, r)) = m.
Proof. by destruct m. Qed.

Lemma bind_ret {A B} (a : A) (f : A → M B) : mret a ≫= f = f a.
Proof. unfold mbind, M_bind, mret, M_ret. by destruct (f a). Qed.

Lemma bind_result_Ok {A B} (m : M A) (f : A → M B) a :
  result m = Ok a → m ≫= f = (trace m ++ trace (f a), result (f a)).
Proof. destruct m as [t r]. cbn [result snd]. intros ->. by apply bind_Ok. Qed.

Lemma bind_result_Fail {A B} (m : M A) (f : A → M B) e :
  result m = Fail e → m ≫= f = (trace m, Fail e).
Proof. destruct m as [t r]. cbn [result snd]. by intros ->. Qed.

Lemma bind_then_ret {A B} (m : M A) (b : B) :
  m ≫= (λ _, mret b)
  = (trace m, match result m with Ok _ => Ok b | Fail e => Fail e end).
Proof.
  destruct m as [t [a|e]]; simpl; [|done].
  unfold mbind, M_bind, mret, M_ret. by rewrite app_nil_r.
Qed.

Lemma trace_bind {A B} (m : M A) (f : A → M B) :
  trace (m ≫= f)
  = trace m ++ match result m with Ok a => trace (f a) | Fail _ => [] end.
Proof.
  destruct m as [t [a|e]]; cbn [trace result fst snd].
  - by rewrite (bind_Ok _ f t a).
  - by rewrite app_nil_r.
Qed.

Lemma result_bind {A B} (m : M A) (f : A → M B) :
  result (m ≫= f)
  = match result m with Ok a => result (f a) | Fail e => Fail e end.
Proof.
  destruct m as [t [a|e]]; cbn [trace result fst snd]; [|done].
  by rewrite (bind_Ok _ f t a).
Qed.

(** ** Renaming of the identifiers *)

Lemma set_chroms_id args : set_chroms args (chrom_train args) (chrom_valid args) = args.
Proof. by destruct args. Qed.

Lemma rename_chroms_set args args' :
  rename_chroms args = Ok args' →
  ∃ ct cv, args' = set_chroms args ct cv.
Proof.
  unfold rename_chroms. intros Hr.
  repeat case_bool_decide.
  - destruct (comprehension w303_id (chrom_train args)) as [ct|]; [|done].
    destruct (comprehension w303_id (chrom_valid args)) as [cv|]; [|done].
    injection Hr as <-. eauto.
  - injection Hr as <-. eauto.
  - injection Hr as <-. exists (chrom_train args), (chrom_valid args).
    by rewrite set_chroms_id.
Qed.

(** For any other genome the identifiers are left as given. *)
Lemma rename_chroms_other_genome args :
  Py.path_stem (genome args) ≠ "W303" →
  Py.path_stem (genome args) ≠ "W303_Mmmyco" →
  rename_chroms args = Ok args.
Proof.
  intros H1 H2. unfold rename_chroms.
  by rewrite !bool_decide_eq_false_2.
Qed.

Lemma comprehension_Ok {A B} (f : A → Res B) l k :
  comprehension f l = Ok k ↔ Forall2 (λ x y, f x = Ok y) l k.
Proof.
  revert k. induction l as [|x l IH]; intros k; simpl.
  - split.
    + intros [= <-]. constructor.
    + by inversion 1.
  - destruct (f x) as [y|e] eqn:Hx.
    + destruct (comprehension f l) as [ys|e].
      * split.
        -- intros [= <-]. constructor; [done|]. by apply IH.
        -- inversion 1 as [|? y' ? ys' Hy Hys]; subst.
           rewrite Hx in Hy. injection Hy as <-.
           apply IH in Hys. by injection Hys as <-.
      * split; [done|].
        inversion 1 as [|? y' ? ys' Hy Hys]; subst.
        by apply IH in Hys.
    + split; [done|].
      inversion 1 as [|? y' ? ys' Hy Hys]; subst. by rewrite Hx in Hy.
Qed.

(** ** The membership checks *)

Lemma membership_of_mono ids ids' e :
  ids ⊆ ids' → membership_of ids e → membership_of ids' e.
Proof. intros Hsub (a & c & -> & Hc). exists a, c. split; [done|]. by apply Hsub. Qed.

Lemma membership_no_data ids e : membership_of ids e → touches_data e = false.
Proof. by intros (a & c & -> & _). Qed.

Lemma check_genome_labels_spec args g s ids :
  Forall (membership_of ids) (trace (check_genome_labels args g s ids)) ∧
  ((Forall (λ id, is_Some (g !! id) ∧ is_Some (s !! id)) ids
    ∧ result (check_genome_labels args g s ids) = Ok ())
   ∨ (∃ pre id post, ids = pre ++ id :: post
      ∧ Forall (λ id, is_Some (g !! id) ∧ is_Some (s !! id)) pre
      ∧ (g !! id = None ∨ s !! id = None)
      ∧ result (check_genome_labels args g s ids)
        = Fail (SystemExit (genome_labels_msg args id)))).
Proof.
  induction ids as [|id ids [IHt IHr]].
  - split; [constructor|]. left. by split.
  - assert (Hmono : ∀ e, membership_of ids e → membership_of (id :: ids) e).
    { intros e. apply membership_of_mono. intros x Hx. apply elem_of_cons. by right. }
    assert (Hev : ∀ a, membership_of (id :: ids) (EvMembership a id)).
    { intros a. exists a, id. split; [done|]. apply elem_of_cons. by left. }
    simpl. unfold has_key.
    destruct (g !! id) as [gv|] eqn:Hg; simpl.
    + destruct (s !! id) as [sv|] eqn:Hs; simpl.
      * destruct (check_genome_labels args g s ids) as [t r] eqn:Hc.
        simpl in *. split.
        { repeat constructor; [apply Hev..|]. eapply Forall_impl; eauto. }
        destruct IHr as [[Hall ->]|(pre & id' & post & -> & Hpre & Hno & ->)].
        -- left. split; [|done]. constructor; [|done]. split; by eexists.
        -- right. exists (id :: pre), id', post. repeat split; try done.
           constructor; [|done]. split; by eexists.
      * split; [repeat constructor; apply Hev|].
        right. exists [], id, ids. repeat split; auto.
    + split; [repeat constructor; apply Hev|].
      right. exists [], id, ids. repeat split; auto.
Qed.

Lemma check_remove_indices_spec path r ids :
  Forall (membership_of ids) (trace (check_remove_indices path r ids)) ∧
  ((Forall (λ id, is_Some (r !! id)) ids
    ∧ result (check_remove_indices path r ids) = Ok ())
   ∨ (∃ pre id post, ids = pre ++ id :: post
      ∧ Forall (λ id, is_Some (r !! id)) pre
      ∧ r !! id = None
      ∧ result (check_remove_indices path r ids)
        = Fail (SystemExit (remove_indices_msg path id)))).
Proof.
  induction ids as [|id ids [IHt IHr]].
  - split; [constructor|]. left. by split.
  - assert (Hmono : ∀ e, membership_of ids e → membership_of (id :: ids) e).
    { intros e. apply membership_of_mono. intros x Hx. apply elem_of_cons. by right. }
    assert (Hev : ∀ a, membership_of (id :: ids) (EvMembership a id)).
    { intros a. exists a, id. split; [done|]. apply elem_of_cons. by left. }
    simpl. unfold has_key.
    destruct (r !! id) as [rv|] eqn:Hr; simpl.
    + destruct (check_remove_indices path r ids) as [t res] eqn:Hc.
      simpl in *. split.
      { repeat constructor; [apply Hev|]. eapply Forall_impl; eauto. }
      destruct IHr as [[Hall ->]|(pre & id' & post & -> & Hpre & Hno & ->)].
      * left. split; [|done]. constructor; [|done]. by eexists.
      * right. exists (id :: pre), id', post. repeat split; try done.
        constructor; [|done]. by eexists.
    + split; [repeat constructor; apply Hev|].
      right. exists [], id, ids. repeat split; auto.
Qed.

(** ** [parsing] *)

Lemma parsing_checks w args args' g s :
  genome_files w !! genome args = Some g →
  label_files w !! labels args = Some s →
  rename_chroms args = Ok args' →
  parsing w args = membership_checks w args' g s.
Proof.
  intros Hg Hs Hr. unfold parsing.
  rewrite Hg, Hs, Hr. simpl.
  destruct (rename_chroms_set _ _ Hr) as (ct & cv & ->).
  unfold np_load. simpl. rewrite Hg, Hs, !bind_ret.
  by rewrite M_eta.
Qed.

Lemma parsing_early w args :
  genome_files w !! genome args = None
  ∨ label_files w !! labels args = None
  ∨ (∃ e, rename_chroms args = Fail e) →
  ∃ e, parsing w args = ([], Fail e).
Proof.
  unfold parsing.
  destruct (genome_files w !! genome args) as [g|] eqn:Hg.
  2:{ intros _. rewrite bool_decide_eq_false_2 by by intros [? ?].
      simpl. eauto. }
  rewrite bool_decide_eq_true_2 by by eexists.
  destruct (label_files w !! labels args) as [s|] eqn:Hs.
  2:{ intros _. rewrite bool_decide_eq_false_2 by by intros [? ?].
      simpl. eauto. }
  rewrite bool_decide_eq_true_2 by by eexists. simpl.
  intros [?|[?|[e He]]]; [done..|].
  rewrite He. simpl. eauto.
Qed.

(** Either [parsing] stops before any check, or it runs the checks on
    the renamed arguments. *)
Lemma parsing_cases w args :
  (∃ e, parsing w args = ([], Fail e))
  ∨ (∃ g s args',
        genome_files w !! genome args = Some g
        ∧ label_files w !! labels args = Some s
        ∧ rename_chroms args = Ok args'
        ∧ parsing w args = membership_checks w args' g s).
Proof.
  destruct (genome_files w !! genome args) as [g|] eqn:Hg;
    [|left; apply parsing_early; auto].
  destruct (label_files w !! labels args) as [s|] eqn:Hs;
    [|left; apply parsing_early; auto].
  destruct (rename_chroms args) as [args'|e] eqn:Hr;
    [|left; apply parsing_early; eauto].
  right. exists g, s, args'. repeat split; try done.
  by apply parsing_checks.
Qed.

(** What the checks establish when they pass, and what they have tested
    in any case. *)
Lemma membership_checks_spec w args g s :
  Forall (membership_of (chrom_train args ++ chrom_valid args))
         (trace (membership_checks w args g s))
  ∧ ∀ args', result (membership_checks w args g s) = Ok args' →
      args' = args
      ∧ Forall (λ id, is_Some (g !! id) ∧ is_Some (s !! id))
               (chrom_train args ++ chrom_valid args)
      ∧ ∀ path, remove_indices args = Some path →
          ∃ r, index_files w !! path = Some r
               ∧ Forall (λ id, is_Some (r !! id))
                        (chrom_train args ++ chrom_valid args).
Proof.
  unfold membership_checks.
  set (ids := chrom_train args ++ chrom_valid args).
  destruct (check_genome_labels_spec args g s ids) as [Ht Hres].
  destruct Hres as [[Hall Hok]|(pre & id & post & _ & _ & _ & Hfail)].
  2:{ rewrite (bind_result_Fail _ _ _ Hfail). split; [done|by intros ?]. }
  rewrite (bind_result_Ok _ _ _ Hok), bind_then_ret.
  cbn [trace result fst snd].
  destruct (remove_indices args) as [path|] eqn:Hri.
  - unfold np_load. destruct (index_files w !! path) as [r|] eqn:Hr.
    + rewrite bind_ret.
      destruct (check_remove_indices_spec path r ids) as [Ht2 Hres2].
      split; [by apply Forall_app|].
      destruct Hres2 as [[Hall2 ->]|(pre & id & post & _ & _ & _ & ->)];
        [|by intros ?].
      intros args' [= <-]. repeat split; try done.
      intros ? [= <-]. eauto.
    + split; [by rewrite app_nil_r|by intros ?].
  - split; [by rewrite app_nil_r|].
    intros args' [= <-]. repeat split; try done.
Qed.

Lemma parsing_Ok_inv w args t args' :
  parsing w args = (t, Ok args') →
  ∃ g s,
    genome_files w !! genome args = Some g
    ∧ label_files w !! labels args = Some s
    ∧ rename_chroms args = Ok args'
    ∧ Forall (λ id, is_Some (g !! id) ∧ is_Some (s !! id))
             (chrom_train args' ++ chrom_valid args')
    ∧ ∀ path, remove_indices args' = Some path →
        ∃ r, index_files w !! path = Some r
             ∧ Forall (λ id, is_Some (r !! id))
                      (chrom_train args' ++ chrom_valid args').
Proof.
  intros Hp.
  destruct (parsing_cases w args) as [[e He]|(g & s & a & Hg & Hs & Hr & Hc)];
    [congruence|].
  rewrite Hc in Hp.
  destruct (membership_checks_spec w a g s) as [_ Hok].
  destruct (Hok args') as (-> & Hall & Hri); [by rewrite Hp|].
  exists g, s. by repeat split.
Qed.

(** Argument validation performs membership tests only: it reads no
    array and produces no batch. *)
Lemma parsing_trace w args :
  Forall (λ e, ∃ a c, e = EvMembership a c) (trace (parsing w args)).
Proof.
  destruct (parsing_cases w args) as [[e ->]|(g & s & a & _ & _ & _ & ->)];
    [constructor|].
  destruct (membership_checks_spec w a g s) as [Ht _].
  eapply Forall_impl; [exact Ht|].
  intros e (x & c & -> & _). eauto.
Qed.

Lemma parsing_no_data w args :
  Forall (λ e, touches_data e = false) (trace (parsing w args)).
Proof.
  eapply Forall_impl; [apply parsing_trace|]. by intros e (a & c & ->).
Qed.

Section ScriptFacts.
Context {rng : Type} `{RandomGen rng}.

(** A failure of [parsing] is the outcome of the run. *)
Lemma main_parsing_Fail w args t e :
  parsing w args = (t, Fail e) → main w args = (t, Fail e).
Proof. intros Hp. unfold main. by rewrite Hp. Qed.

Lemma main_parsing_Ok w args t args' :
  parsing w args = (t, Ok args') →
  main w args = (t ++ trace (run w args'), result (run w args')).
Proof. intros Hp. unfold main. by apply bind_Ok. Qed.

End ScriptFacts.

(** ** The steps of a run after [parsing] *)

Section RunFacts.
Context {rng : Type} `{RandomGen rng}.

Lemma run_trace w args : Forall (run_event args) (trace (run w args)).
Proof.
  run_cases;
    repeat match goal with |- Forall _ _ => constructor end; simpl; eauto.
Qed.

(** Without a known architecture, [run] stops at line 288. *)
Lemma run_unknown_architecture w args :
  model_dict !! architecture args = None →
  result (run w args) = Fail (KeyError (architecture args))
  ∧ Forall (λ e, touches_data e = false) (trace (run w args)).
Proof.
  intros Hnone. unfold run, build_model, getitem. rewrite Hnone.
  destruct (seed args); simpl; split; try done; by repeat constructor.
Qed.

End RunFacts.

(** ** Unknown chromosome identifiers (C3) *)

Section UnknownChromosome.
Context {rng : Type} `{RandomGen rng}.

(** C3.  Whenever one of the chromosome identifiers that the run looks up
    (the training and validation identifiers, as renamed for the genome at
    hand) is missing from the genome archive or from the labels archive,
    argument validation ends the run with [sys.exit] and the message
    naming the first such identifier; up to then only membership tests
    have been performed: no array has been read and no batch produced. *)
Theorem unknown_chromosome_exits w args args' g s :
  genome_files w !! genome args = Some g →
  label_files w !! labels args = Some s →
  rename_chroms args = Ok args' →
  Exists (λ id, g !! id = None ∨ s !! id = None)
         (chrom_train args' ++ chrom_valid args') →
  ∃ t id,
    id ∈ chrom_train args' ++ chrom_valid args'
    ∧ (g !! id = None ∨ s !! id = None)
    ∧ parsing w args = (t, Fail (SystemExit (genome_labels_msg args id)))
    ∧ main w args = (t, Fail (SystemExit (genome_labels_msg args id)))
    ∧ Forall (λ e, touches_data e = false) t.
Proof.
  intros Hg Hs Hr Hex.
  assert (Hp : ∃ t id, id ∈ chrom_train args' ++ chrom_valid args'
             ∧ (g !! id = None ∨ s !! id = None)
             ∧ parsing w args = (t, Fail (SystemExit (genome_labels_msg args id)))).
  { rewrite (parsing_checks _ _ _ _ _ Hg Hs Hr). unfold membership_checks.
    destruct (check_genome_labels_spec args' g s
                (chrom_train args' ++ chrom_valid args')) as [_ Hres].
    destruct Hres as [[Hall _]|(pre & id & post & Hids & _ & Hno & Hfail)].
    - exfalso. apply Exists_exists in Hex as (id & Hin & Hno).
      rewrite Forall_forall in Hall. destruct (Hall id Hin) as [[? Hg'] [? Hs']].
      destruct Hno; congruence.
    - assert (Hmsg : genome_labels_msg args' id = genome_labels_msg args id).
      { by destruct (rename_chroms_set _ _ Hr) as (ct & cv & ->). }
      rewrite Hmsg in Hfail. rewrite (bind_result_Fail _ _ _ Hfail).
      eexists _, id. split; [|by split].
      rewrite Hids. apply elem_of_app. right. apply elem_of_cons. by left. }
  destruct Hp as (t & id & Hin & Hno & Hp).
  exists t, id. repeat split; try done.
  - by apply main_parsing_Fail.
  - pose proof (parsing_no_data w args) as Hnd. by rewrite Hp in Hnd.
Qed.

End UnknownChromosome.

(** ** Exclusion archives must cover every chromosome (C10) *)

Section RemoveIndicesCoverage.
Context {rng : Type} `{RandomGen rng}.

(** C10.  With [--remove_indices] given and the earlier checks passed,
    argument validation ends the run with [sys.exit], naming the first
    training or validation identifier that has no array in the exclusion
    archive; it lets the run continue only when the archive has an array
    for every one of them. *)
Theorem remove_indices_must_cover w args args' g s path r :
  genome_files w !! genome args = Some g →
  label_files w !! labels args = Some s →
  rename_chroms args = Ok args' →
  Forall (λ id, is_Some (g !! id) ∧ is_Some (s !! id))
         (chrom_train args' ++ chrom_valid args') →
  remove_indices args = Some path →
  index_files w !! path = Some r →
  (Exists (λ id, r !! id = None) (chrom_train args' ++ chrom_valid args') →
   ∃ t id,
     id ∈ chrom_train args' ++ chrom_valid args'
     ∧ r !! id = None
     ∧ parsing w args = (t, Fail (SystemExit (remove_indices_msg path id)))
     ∧ main w args = (t, Fail (SystemExit (remove_indices_msg path id)))
     ∧ Forall (λ e, touches_data e = false) t)
  ∧ (Forall (λ id, is_Some (r !! id)) (chrom_train args' ++ chrom_valid args') →
     ∃ t, parsing w args = (t, Ok args')).
Proof.
  intros Hg Hs Hr Hall Hri Hidx.
  assert (Hri' : remove_indices args' = Some path).
  { by destruct (rename_chroms_set _ _ Hr) as (ct & cv & ->). }
  pose proof (parsing_checks _ _ _ _ _ Hg Hs Hr) as Hp.
  unfold membership_checks in Hp. rewrite Hri' in Hp.
  destruct (check_genome_labels_spec args' g s
              (chrom_train args' ++ chrom_valid args')) as [_ Hres].
  destruct Hres as [[_ Hok]|(pre & id & post & Hids & _ & Hno & _)].
  2:{ exfalso. rewrite Forall_forall in Hall.
      destruct (Hall id) as [[? Hg'] [? Hs']].
      - rewrite Hids. apply elem_of_app. right. apply elem_of_cons. by left.
      - destruct Hno; congruence. }
  rewrite (bind_result_Ok _ _ _ Hok), bind_then_ret in Hp.
  unfold np_load in Hp. rewrite Hidx, bind_ret in Hp.
  cbn [trace result fst snd] in Hp.
  destruct (check_remove_indices_spec path r
              (chrom_train args' ++ chrom_valid args')) as [_ Hres].
  split.
  - intros Hex.
    destruct Hres as [[Hall' _]|(pre & id & post & Hids & _ & Hno & Hfail)].
    + exfalso. apply Exists_exists in Hex as (id & Hin & Hno).
      rewrite Forall_forall in Hall'. destruct (Hall' id Hin). congruence.
    + rewrite Hfail in Hp. eexists _, id. repeat split; try done.
      * rewrite Hids. apply elem_of_app. right. apply elem_of_cons. by left.
      * by apply main_parsing_Fail.
      * pose proof (parsing_no_data w args) as Hnd. by rewrite Hp in Hnd.
  - intros Hall'.
    destruct Hres as [[_ Hok']|(pre & id & post & Hids & _ & Hno & _)].
    + rewrite Hok' in Hp. eauto.
    + exfalso. rewrite Forall_forall in Hall'. destruct (Hall' id); [|congruence].
      rewrite Hids. apply elem_of_app. right. apply elem_of_cons. by left.
Qed.

End RemoveIndicesCoverage.

(** ** Unknown architectures (C5) *)

Section UnknownArchitecture.
Context {rng : Type} `{RandomGen rng}.

(** C5.  With an architecture name that is not a key of [model_dict] the
    run always fails, and none of its steps reads array data or produces
    a batch; when argument validation passes, the failure is the
    [KeyError] of line 288. *)
Theorem unknown_architecture_fails w args :
  model_dict !! architecture args = None →
  ∃ t e,
    main w args = (t, Fail e)
    ∧ Forall (λ ev, touches_data ev = false) t
    ∧ (∀ args', result (parsing w args) = Ok args' →
         e = KeyError (architecture args)).
Proof.
  intros Hnone.
  destruct (parsing w args) as [t [args'|e]] eqn:Hp.
  - assert (Harch : architecture args' = architecture args).
    { destruct (parsing_Ok_inv _ _ _ _ Hp) as (g & s & _ & _ & Hr & _).
      by destruct (rename_chroms_set _ _ Hr) as (ct & cv & ->). }
    rewrite <- Harch in Hnone.
    destruct (run_unknown_architecture w args' Hnone) as [Hres Htr].
    rewrite (main_parsing_Ok _ _ _ _ Hp), Hres.
    eexists _, _. split; [done|]. split.
    + apply Forall_app. split; [|done].
      pose proof (parsing_no_data w args) as Hnd. by rewrite Hp in Hnd.
    + intros ? _. by rewrite Harch.
  - exists t, e. split; [by apply main_parsing_Fail|]. split.
    + pose proof (parsing_no_data w args) as Hnd. by rewrite Hp in Hnd.
    + by intros ?.
Qed.

End UnknownArchitecture.

Lemma unknown_chromosome_exits_witness :
  genome_files Sample.world !! genome Sample.args_W303_7 = Some Sample.genome_W303
  ∧ label_files Sample.world !! labels Sample.args_W303_7 = Some Sample.labels_W303
  ∧ rename_chroms Sample.args_W303_7
    = Ok (set_chroms Sample.args_W303_7 ["chr01"; "chr07"] ["chr02"])
  ∧ ∃ t id,
      id ∈ ["chr01"; "chr07"] ++ ["chr02"]
      ∧ (Sample.genome_W303 !! id = None ∨ Sample.labels_W303 !! id = None)
      ∧ parsing Sample.world Sample.args_W303_7
        = (t, Fail (SystemExit (genome_labels_msg Sample.args_W303_7 id)))
      ∧ main Sample.world Sample.args_W303_7
        = (t, Fail (SystemExit (genome_labels_msg Sample.args_W303_7 id)))
      ∧ Forall (λ e, touches_data e = false) t.
Proof.
  assert (Hr : rename_chroms Sample.args_W303_7
               = Ok (set_chroms Sample.args_W303_7 ["chr01"; "chr07"] ["chr02"]))
    by (vm_compute; reflexivity).
  split; [vm_compute; reflexivity|].
  split; [vm_compute; reflexivity|].
  split; [exact Hr|].
  apply (unknown_chromosome_exits (rng := Z) Sample.world Sample.args_W303_7
           (set_chroms Sample.args_W303_7 ["chr01"; "chr07"] ["chr02"])
           Sample.genome_W303 Sample.labels_W303);
    [vm_compute; reflexivity | vm_compute; reflexivity | exact Hr |].
  apply Exists_cons_tl, Exists_cons_hd. left. vm_compute; reflexivity.
Defined.

(** ** Renaming of the identifiers for the W303 genomes (C8) *)

Lemma comprehension_w303_Ok l ns :
  Forall2 (λ c n, Py.int c = Some n) l ns →
  comprehension w303_id l = Ok (w303_name <$> ns).
Proof.
  induction 1 as [|c n l ns Hc _ IH]; [done|].
  simpl. unfold w303_id at 1. by rewrite Hc, IH.
Qed.

Lemma comprehension_w303_Fail l e :
  comprehension w303_id l = Fail e →
  ∃ c, c ∈ l ∧ Py.int c = None ∧ e = ValueError c.
Proof.
  induction l as [|c l IH]; [done|]. simpl. unfold w303_id at 1.
  destruct (Py.int c) as [n|] eqn:Hc.
  - destruct (comprehension w303_id l) as [k|e']; [done|].
    intros [= <-]. destruct (IH eq_refl) as (c' & Hin & Hno & ->).
    exists c'. repeat split; try done. apply elem_of_cons. by right.
  - intros [= <-]. exists c. repeat split; try done. apply elem_of_cons. by left.
Qed.

Lemma comprehension_w303_total l k :
  comprehension w303_id l = Ok k → Forall (λ c, is_Some (Py.int c)) l.
Proof.
  intros Hk. apply comprehension_Ok in Hk.
  induction Hk as [|c y l k Hc _ IH]; constructor; [|done].
  unfold w303_id in Hc. destruct (Py.int c); [by eexists|done].
Qed.

Lemma comprehension_w303_stop pre c post :
  Forall (λ c, is_Some (Py.int c)) pre →
  Py.int c = None →
  comprehension w303_id (pre ++ c :: post) = Fail (ValueError c).
Proof.
  intros Hpre Hc. induction Hpre as [|x pre [n Hx] _ IH].
  - cbn [app comprehension]. unfold w303_id. by rewrite Hc.
  - cbn [app comprehension]. unfold w303_id at 1. by rewrite Hx, IH.
Qed.

Lemma comprehension_app_Fail {A B} (f : A → Res B) l1 l2 e :
  comprehension f (l1 ++ l2) = Fail e →
  comprehension f l1 = Fail e
  ∨ ∃ k, comprehension f l1 = Ok k ∧ comprehension f l2 = Fail e.
Proof.
  induction l1 as [|x l1 IH]; [right; by exists []|].
  cbn [app comprehension]. destruct (f x) as [y|e']; [|by left].
  destruct (comprehension f (l1 ++ l2)) as [k|e'] eqn:Happ; [done|].
  intros [= ->]. destruct (IH eq_refl) as [->|(k & -> & Hl2)]; [by left|].
  right. by eexists.
Qed.

Lemma parsing_trace_ids w args args' :
  rename_chroms args = Ok args' →
  Forall (membership_of (chrom_train args' ++ chrom_valid args'))
         (trace (parsing w args)).
Proof.
  intros Hr.
  destruct (parsing_cases w args) as [[e ->]|(g & s & a & _ & _ & Hr' & ->)];
    [constructor|].
  rewrite Hr in Hr'. injection Hr' as <-.
  by destruct (membership_checks_spec w args' g s) as [Ht _].
Qed.

Section Renaming.
Context {rng : Type} `{RandomGen rng}.

(** C8 (amended).  With the stem "W303", identifiers that are integer
    literals are renamed to "chr" followed by their value zero-padded to
    two digits; when an identifier is no integer literal, and the two
    input files exist, the run ends with the [ValueError] of the first
    such identifier, training list first, at the renaming and before any
    membership test.  With
    the stem "W303_Mmmyco", every identifier but "Mmmyco" is prefixed
    with "chr".  In every run, the membership tests and the merges
    concern the renamed identifiers only. *)
Theorem rename_before_membership w args :
  (Py.path_stem (genome args) = "W303" →
   ∀ nt nv,
     Forall2 (λ c n, Py.int c = Some n) (chrom_train args) nt →
     Forall2 (λ c n, Py.int c = Some n) (chrom_valid args) nv →
     rename_chroms args
     = Ok (set_chroms args (w303_name <$> nt) (w303_name <$> nv)))
  ∧ (Py.path_stem (genome args) = "W303" →
     is_Some (genome_files w !! genome args) →
     is_Some (label_files w !! labels args) →
     ∀ pre c post,
       chrom_train args ++ chrom_valid args = pre ++ c :: post →
       Forall (λ c, is_Some (Py.int c)) pre →
       Py.int c = None →
       rename_chroms args = Fail (ValueError c)
       ∧ main w args = ([], Fail (ValueError c)))
  ∧ (Py.path_stem (genome args) = "W303_Mmmyco" →
     rename_chroms args
     = Ok (set_chroms args
             ((λ c, if bool_decide (c = "Mmmyco") then c else "chr" +:+ c)
                <$> chrom_train args)
             ((λ c, if bool_decide (c = "Mmmyco") then c else "chr" +:+ c)
                <$> chrom_valid args)))
  ∧ (∀ args', rename_chroms args = Ok args' →
       Forall (names_only (chrom_train args' ++ chrom_valid args'))
              (trace (main w args))).
Proof.
  split; [|split; [|split]].
  - intros Hstem nt nv Ht Hv. unfold rename_chroms.
    rewrite bool_decide_eq_true_2 by done.
    by rewrite (comprehension_w303_Ok _ _ Ht), (comprehension_w303_Ok _ _ Hv).
  - intros Hstem Hg Hs pre c post Hids Hpre Hc.
    assert (Hr : rename_chroms args = Fail (ValueError c)).
    { unfold rename_chroms. rewrite bool_decide_eq_true_2 by done.
      pose proof (comprehension_w303_stop pre c post Hpre Hc) as Hstop.
      rewrite <- Hids in Hstop.
      by destruct (comprehension_app_Fail _ _ _ _ Hstop) as [->|(k & -> & ->)]. }
    split; [done|].
    apply main_parsing_Fail. unfold parsing.
    rewrite !bool_decide_eq_true_2 by done. by rewrite Hr.
  - intros Hstem. unfold rename_chroms.
    rewrite bool_decide_eq_false_2 by (rewrite Hstem; done).
    rewrite bool_decide_eq_true_2 by done.
    f_equal. f_equal; apply list_fmap_ext; intros _ c _; unfold mmmyco_id;
      repeat case_bool_decide; congruence.
  - intros args' Hr.
    assert (Hpt : Forall (names_only (chrom_train args' ++ chrom_valid args'))
                         (trace (parsing w args))).
    { eapply Forall_impl; [by apply parsing_trace_ids|].
      by intros e (a & c & -> & Hc). }
    destruct (parsing w args) as [t [a|e]] eqn:Hp.
    + destruct (parsing_Ok_inv _ _ _ _ Hp) as (g & s & _ & _ & Hr' & _).
      rewrite Hr in Hr'. injection Hr' as <-.
      rewrite (main_parsing_Ok _ _ _ _ Hp). cbn [trace fst].
      apply Forall_app. split; [done|].
      eapply Forall_impl; [apply run_trace|].
      intros [] He; simpl in *; try done.
      destruct He as [->| ->]; intros x Hx; apply elem_of_app; auto.
    + by rewrite (main_parsing_Fail _ _ _ _ Hp).
Qed.

End Renaming.

Lemma W303_rename_counterexample :
  Py.path_stem (genome Sample.args_W303_X) = "W303"
  ∧ ¬ W303_renamed_as_stated Sample.args_W303_X
  ∧ rename_chroms Sample.args_W303_X = Fail (ValueError "X")
  ∧ main Sample.world Sample.args_W303_X = ([], Fail (ValueError "X"))
  ∧ Py.path_stem (genome Sample.args_W303_007) = "W303"
  ∧ ¬ W303_renamed_as_stated Sample.args_W303_007
  ∧ rename_chroms Sample.args_W303_007
    = Ok (set_chroms Sample.args_W303_007 ["chr07"] ["chr02"])
  ∧ trace (parsing Sample.world Sample.args_W303_007)
    = [EvMembership "data/W303.npz" "chr07"].
Proof.
  split; [vm_compute; reflexivity|].
  split; [intros Hs; vm_compute in Hs; discriminate|].
  split; [vm_compute; reflexivity|].
  split; [vm_compute; reflexivity|].
  split; [vm_compute; reflexivity|].
  split; [intros Hs; vm_compute in Hs; discriminate|].
  split; vm_compute; reflexivity.
Qed.

Lemma rename_before_membership_witness :
  (Py.path_stem (genome Sample.args_W303) = "W303"
   ∧ Forall2 (λ c n, Py.int c = Some n) (chrom_train Sample.args_W303) [1; 16]
   ∧ Forall2 (λ c n, Py.int c = Some n) (chrom_valid Sample.args_W303) [2]
   ∧ rename_chroms Sample.args_W303
     = Ok (set_chroms Sample.args_W303 ["chr01"; "chr16"] ["chr02"]))
  ∧ (Py.path_stem (genome Sample.args_W303_X) = "W303"
     ∧ is_Some (genome_files Sample.world !! genome Sample.args_W303_X)
     ∧ is_Some (label_files Sample.world !! labels Sample.args_W303_X)
     ∧ chrom_train Sample.args_W303_X ++ chrom_valid Sample.args_W303_X
       = ["1"] ++ "X" :: ["2"]
     ∧ Forall (λ c, is_Some (Py.int c)) ["1"]
     ∧ Py.int "X" = None
     ∧ rename_chroms Sample.args_W303_X = Fail (ValueError "X")
     ∧ main Sample.world Sample.args_W303_X = ([], Fail (ValueError "X")))
  ∧ (Py.path_stem (genome Sample.args_Mmmyco) = "W303_Mmmyco"
     ∧ rename_chroms Sample.args_Mmmyco
       = Ok (set_chroms Sample.args_Mmmyco ["chrI"; "Mmmyco"] ["chrII"]))
  ∧ Forall (names_only (["chr01"; "chr16"] ++ ["chr02"]))
           (trace (main Sample.world Sample.args_W303)).
Proof.
  destruct (rename_before_membership (rng := Z) Sample.world Sample.args_W303)
    as (H303 & _ & _ & Hnames).
  destruct (rename_before_membership (rng := Z) Sample.world Sample.args_W303_X)
    as (_ & HX & _ & _).
  destruct (rename_before_membership (rng := Z) Sample.world Sample.args_Mmmyco)
    as (_ & _ & HM & _).
  assert (Hstem : Py.path_stem (genome Sample.args_W303) = "W303")
    by (vm_compute; reflexivity).
  assert (Ht : Forall2 (λ c n, Py.int c = Some n)
                       (chrom_train Sample.args_W303) [1; 16])
    by (repeat constructor).
  assert (Hv : Forall2 (λ c n, Py.int c = Some n)
                       (chrom_valid Sample.args_W303) [2])
    by (repeat constructor).
  assert (HstemX : Py.path_stem (genome Sample.args_W303_X) = "W303")
    by (vm_compute; reflexivity).
  assert (HgX : is_Some (genome_files Sample.world !! genome Sample.args_W303_X))
    by (eexists; vm_compute; reflexivity).
  assert (HsX : is_Some (label_files Sample.world !! labels Sample.args_W303_X))
    by (eexists; vm_compute; reflexivity).
  assert (HpreX : Forall (λ c, is_Some (Py.int c)) ["1"])
    by (repeat constructor; by eexists).
  assert (HstemM : Py.path_stem (genome Sample.args_Mmmyco) = "W303_Mmmyco")
    by (vm_compute; reflexivity).
  split; [repeat split; try done; exact (H303 Hstem _ _ Ht Hv)|].
  split.
  { split; [exact HstemX|]. split; [exact HgX|]. split; [exact HsX|].
    split; [reflexivity|]. split; [exact HpreX|]. split; [reflexivity|].
    exact (HX HstemX HgX HsX ["1"] "X" ["2"] eq_refl HpreX eq_refl). }
  split; [split; [done|exact (HM HstemM)]|].
  exact (Hnames _ (H303 Hstem _ _ Ht Hv)).
Defined.

Example w303_id_007 : w303_id "007" = Ok "chr07".
Proof. reflexivity. Qed.

Lemma remove_indices_must_cover_witness :
  genome_files Sample.world !! genome Sample.args_partial = Some Sample.genome_W303
  ∧ label_files Sample.world !! labels Sample.args_partial = Some Sample.labels_W303
  ∧ rename_chroms Sample.args_partial = Ok Sample.args_partial
  ∧ Forall (λ id, is_Some (Sample.genome_W303 !! id) ∧ is_Some (Sample.labels_W303 !! id))
           (chrom_train Sample.args_partial ++ chrom_valid Sample.args_partial)
  ∧ remove_indices Sample.args_partial = Some "data/partial.npz"
  ∧ index_files Sample.world !! "data/partial.npz" = Some Sample.exclusions_partial
  ∧ Exists (λ id, Sample.exclusions_partial !! id = None)
           (chrom_train Sample.args_partial ++ chrom_valid Sample.args_partial)
  ∧ ∃ t id,
      id ∈ chrom_train Sample.args_partial ++ chrom_valid Sample.args_partial
      ∧ Sample.exclusions_partial !! id = None
      ∧ parsing Sample.world Sample.args_partial
        = (t, Fail (SystemExit (remove_indices_msg "data/partial.npz" id)))
      ∧ main Sample.world Sample.args_partial
        = (t, Fail (SystemExit (remove_indices_msg "data/partial.npz" id)))
      ∧ Forall (λ e, touches_data e = false) t.
Proof.
  assert (Hg : genome_files Sample.world !! genome Sample.args_partial
               = Some Sample.genome_W303) by (vm_compute; reflexivity).
  assert (Hs : label_files Sample.world !! labels Sample.args_partial
               = Some Sample.labels_W303) by (vm_compute; reflexivity).
  assert (Hr : rename_chroms Sample.args_partial = Ok Sample.args_partial)
    by (vm_compute; reflexivity).
  assert (Hall : Forall (λ id, is_Some (Sample.genome_W303 !! id)
                               ∧ is_Some (Sample.labels_W303 !! id))
                   (chrom_train Sample.args_partial ++ chrom_valid Sample.args_partial))
    by (repeat constructor; by eexists).
  assert (Hri : remove_indices Sample.args_partial = Some "data/partial.npz")
    by reflexivity.
  assert (Hidx : index_files Sample.world !! "data/partial.npz"
                 = Some Sample.exclusions_partial) by (vm_compute; reflexivity).
  assert (Hex : Exists (λ id, Sample.exclusions_partial !! id = None)
                  (chrom_train Sample.args_partial ++ chrom_valid Sample.args_partial))
    by (apply Exists_cons_tl, Exists_cons_tl, Exists_cons_hd; vm_compute; reflexivity).
  repeat (split; [done|]).
  exact (proj1 (remove_indices_must_cover (rng := Z) _ _ _ _ _ _ _
                  Hg Hs Hr Hall Hri Hidx) Hex).
Defined.

Lemma unknown_architecture_fails_witness :
  model_dict !! architecture Sample.args_resnet = None
  ∧ ∃ t e,
      main Sample.world Sample.args_resnet = (t, Fail e)
      ∧ Forall (λ ev, touches_data ev = false) t
      ∧ (∀ args', result (parsing Sample.world Sample.args_resnet) = Ok args' →
           e = KeyError (architecture Sample.args_resnet)).
Proof.
  assert (Hnone : model_dict !! architecture Sample.args_resnet = None)
    by (vm_compute; reflexivity).
  split; [exact Hnone|].
  exact (unknown_architecture_fails (rng := Z) Sample.world Sample.args_resnet Hnone).
Defined.

Example unknown_architecture_run :
  main Sample.world Sample.args_resnet
  = ([EvMembership "data/yeast.npz" "chr01"; EvMembership "data/labels.npz" "chr01";
      EvMembership "data/yeast.npz" "chr16"; EvMembership "data/labels.npz" "chr16";
      EvMembership "data/yeast.npz" "chr02"; EvMembership "data/labels.npz" "chr02";
      EvMkdir "out"; EvWriteInfo "out/Experiment_info.txt"],
     Fail (KeyError "resnet")).
Proof. vm_compute. reflexivity. Qed.

(** ** The validation generator (C2, C9) *)

Lemma valid_calls_app t1 t2 :
  valid_calls (t1 ++ t2) = valid_calls t1 ++ valid_calls t2.
Proof. apply omap_app. Qed.

Lemma valid_calls_none t :
  Forall (λ e, ∀ kw, e ≠ EvWindowGenerator Valid kw) t → valid_calls t = [].
Proof.
  induction 1 as [|e t He _ IH]; [done|].
  unfold valid_calls in *.
  destruct e as [| | | | | |[] kw| | |]; simpl; try exact IH. by destruct (He kw).
Qed.

Lemma valid_calls_elem kw t :
  EvWindowGenerator Valid kw ∈ t ↔ kw ∈ valid_calls t.
Proof.
  unfold valid_calls. rewrite list_elem_of_omap. split.
  - intros Hin. eexists. split; [exact Hin|done].
  - intros (e & Hin & He).
    destruct e as [| | | | | |[] kw'| | |]; try done. by injection He as ->.
Qed.

(** The changes of [--seed], [--same_samples] and [--balance] do not
    reach argument validation. *)
Lemma rename_chroms_with_sampling args sd ss bal :
  rename_chroms (with_sampling args sd ss bal)
  = match rename_chroms args with
    | Ok a => Ok (with_sampling a sd ss bal)
    | Fail e => Fail e
    end.
Proof.
  unfold rename_chroms. cbn [with_sampling genome chrom_train chrom_valid].
  repeat case_bool_decide; try done.
  destruct (comprehension w303_id (chrom_train args)); [|done].
  by destruct (comprehension w303_id (chrom_valid args)).
Qed.

Lemma check_genome_labels_with_sampling args sd ss bal g s ids :
  check_genome_labels (with_sampling args sd ss bal) g s ids
  = check_genome_labels args g s ids.
Proof. induction ids as [|id ids IH]; [done|]. simpl. by rewrite IH. Qed.

Lemma membership_checks_with_sampling w args sd ss bal g s :
  membership_checks w (with_sampling args sd ss bal) g s
  = (trace (membership_checks w args g s),
     match result (membership_checks w args g s) with
     | Ok a => Ok (with_sampling a sd ss bal)
     | Fail e => Fail e
     end).
Proof.
  unfold membership_checks.
  cbn [with_sampling chrom_train chrom_valid remove_indices].
  rewrite check_genome_labels_with_sampling.
  match goal with
  | |- (?X ≫= (λ _, ?Y ≫= _)) = _ =>
      destruct X as [t1 [[]|e1]], Y as [t2 [[]|e2]]
  end; reflexivity.
Qed.

Lemma parsing_with_sampling w args sd ss bal :
  parsing w (with_sampling args sd ss bal)
  = (trace (parsing w args),
     match result (parsing w args) with
     | Ok a => Ok (with_sampling a sd ss bal)
     | Fail e => Fail e
     end).
Proof.
  destruct (genome_files w !! genome args) as [g|] eqn:Hg.
  2:{ unfold parsing. cbn [with_sampling genome labels]. by rewrite Hg. }
  destruct (label_files w !! labels args) as [s|] eqn:Hs.
  2:{ unfold parsing. cbn [with_sampling genome labels]. by rewrite Hg, Hs. }
  pose proof (rename_chroms_with_sampling args sd ss bal) as Hr'.
  destruct (rename_chroms args) as [a|e] eqn:Hr.
  - rewrite (parsing_checks w args a g s Hg Hs Hr).
    rewrite (parsing_checks w (with_sampling args sd ss bal)
               (with_sampling a sd ss bal) g s Hg Hs Hr').
    apply membership_checks_with_sampling.
  - unfold parsing. rewrite Hr'. cbn [with_sampling genome labels].
    by rewrite Hg, Hs, Hr.
Qed.

Section ValidationGenerator.
Context {rng : Type} `{RandomGen rng}.

(** Whether the constructor accepts its arguments depends on the two
    arrays only. *)
Lemma WindowGenerator_outcome e e' kw kw' :
  kw_data kw = kw_data kw' → kw_labels kw = kw_labels kw' →
  match WindowGenerator e kw, WindowGenerator e' kw' with
  | Ok _, Ok _ => True
  | Fail a, Fail b => a = b
  | _, _ => False
  end.
Proof.
  intros Hd Hl. unfold WindowGenerator. rewrite Hd, Hl.
  by destruct (negb _).
Qed.

Lemma build_model_with_sampling args sd ss bal :
  result (build_model (with_sampling args sd ss bal)) = result (build_model args)
  ∧ valid_calls (trace (build_model args)) = [].
Proof.
  unfold build_model. cbn [with_sampling seed architecture winsize distribute].
  destruct (getitem model_dict (architecture args)), sd, (seed args); done.
Qed.

Lemma load_data_with_sampling w args sd ss bal :
  load_data w (with_sampling args sd ss bal) = load_data w args.
Proof. reflexivity. Qed.

Lemma load_data_calls w args : valid_calls (trace (load_data w args)) = [].
Proof.
  apply valid_calls_none.
  unfold load_data, load_merged, load_remove_indices, np_load, lift_res, emit.
  repeat (match goal with
          | |- context [match ?x with _ => _ end] =>
              match x with
              | context [match _ with _ => _ end] => fail 1
              | _ => destruct x eqn:?
              end
          end;
          cbn -[merge_chroms remap_indices]);
    by repeat constructor.
Qed.

Lemma build_generators_with_sampling w args sd ss bal d :
  valid_calls (trace (build_generators w (with_sampling args sd ss bal) d))
  = valid_calls (trace (build_generators w args d)).
Proof.
  unfold build_generators, construct, lift_res, emit.
  pose proof (WindowGenerator_outcome (entropy w) (entropy w)
    (generator_train_kwargs (with_sampling args sd ss bal)
       (x_train d) (y_train d) (remove_indices_train d))
    (generator_train_kwargs args (x_train d) (y_train d) (remove_indices_train d))
    eq_refl eq_refl) as Hout.
  destruct (WindowGenerator (entropy w) (generator_train_kwargs (with_sampling _ _ _ _) _ _ _)),
    (WindowGenerator (entropy w) (generator_train_kwargs args _ _ _)); try done.
  change (generator_valid_kwargs (with_sampling args sd ss bal))
    with (generator_valid_kwargs args).
  by destruct (WindowGenerator _ (generator_valid_kwargs _ _ _ _)).
Qed.

Lemma run_with_sampling w args sd ss bal :
  valid_calls (trace (run w (with_sampling args sd ss bal)))
  = valid_calls (trace (run w args)).
Proof.
  unfold run. cbn [with_sampling output].
  rewrite !trace_bind, !valid_calls_app. cbn [result emit snd].
  rewrite !valid_calls_app. f_equal. f_equal.
  destruct (build_model_with_sampling args sd ss bal) as [-> ->].
  rewrite (proj2 (build_model_with_sampling (with_sampling args sd ss bal) sd ss bal)).
  f_equal. destruct (result (build_model args)); [|done].
  rewrite !valid_calls_app, load_data_with_sampling.
  f_equal. destruct (result (load_data w args)) as [d|]; [|done].
  rewrite !trace_bind, !valid_calls_app, build_generators_with_sampling.
  f_equal. by destruct (result _), (result _).
Qed.

Lemma main_with_sampling w args sd ss bal :
  valid_calls (trace (main w (with_sampling args sd ss bal)))
  = valid_calls (trace (main w args)).
Proof.
  unfold main. rewrite !trace_bind, !valid_calls_app, parsing_with_sampling.
  cbn [trace result fst snd]. f_equal.
  destruct (result (parsing w args)); [|done].
  apply run_with_sampling.
Qed.

(** Every validation call of a run carries the keyword arguments of
    lines 344-357, for the arguments as renamed by [parsing]. *)
Lemma main_valid_call w args kw :
  EvWindowGenerator Valid kw ∈ trace (main w args) →
  ∃ args' x y ri,
    rename_chroms args = Ok args' ∧ kw = generator_valid_kwargs args' x y ri.
Proof.
  intros Hin. destruct (parsing w args) as [t [a|e]] eqn:Hp.
  - rewrite (main_parsing_Ok _ _ _ _ Hp) in Hin. cbn [trace fst] in Hin.
    apply elem_of_app in Hin as [Hin|Hin].
    + pose proof (parsing_trace w args) as Ht. rewrite Hp in Ht.
      rewrite Forall_forall in Ht. by destruct (Ht _ Hin) as (? & ? & ?).
    + pose proof (run_trace w a) as Ht. rewrite Forall_forall in Ht.
      destruct (Ht _ Hin) as (x & y & ri & ->).
      destruct (parsing_Ok_inv _ _ _ _ Hp) as (g & s & _ & _ & Hr & _).
      by exists a, x, y, ri.
  - rewrite (main_parsing_Fail _ _ _ _ Hp) in Hin. cbn [trace fst] in Hin.
    pose proof (parsing_trace w args) as Ht. rewrite Hp in Ht.
    rewrite Forall_forall in Ht. by destruct (Ht _ Hin) as (? & ? & ?).
Qed.

(** C2.  Every call that builds the validation generator passes
    [same_samples=True] and [seed=0]; and changing [--seed] and
    [--same_samples] changes nothing in the keyword arguments of the
    validation generator. *)
Theorem validation_generator_fixed_sampling w args :
  (∀ kw, EvWindowGenerator Valid kw ∈ trace (main w args) →
         kw_same_samples kw = true ∧ kw_seed kw = Some 0)
  ∧ (∀ sd ss,
       valid_calls (trace (main w (with_sampling args sd ss (balance args))))
       = valid_calls (trace (main w args))).
Proof.
  split.
  - intros kw Hin.
    by destruct (main_valid_call _ _ _ Hin) as (a & x & y & ri & _ & ->).
  - intros sd ss. apply main_with_sampling.
Qed.

(** C9.  Every call that builds the validation generator passes neither
    [balance] nor [n_classes], whatever [--balance] is; a generator built
    from such a call balances nothing: in each of its draws the
    candidates have equal weights. *)
Theorem validation_generator_unweighted w args :
  (∀ kw, EvWindowGenerator Valid kw ∈ trace (main w args) →
         kw_balance kw = None ∧ kw_n_classes kw = None
         ∧ ∀ e g, WindowGenerator e kw = Ok g →
             g_balance g = None
             ∧ ∀ cands, draw_weights g cands = (λ _, 1%Q) <$> cands)
  ∧ (∀ bal,
       valid_calls (trace (main w (with_sampling args (seed args)
                                      (same_samples args) bal)))
       = valid_calls (trace (main w args))).
Proof.
  split.
  - intros kw Hin.
    destruct (main_valid_call _ _ _ Hin) as (a & x & y & ri & _ & ->).
    split; [done|]. split; [done|]. intros e g Hg.
    unfold WindowGenerator in Hg. destruct (negb _); [done|].
    injection Hg as <-. by split.
  - intros bal. apply main_with_sampling.
Qed.

End ValidationGenerator.

(** ** Fixed-width integers *)

Lemma in_range_spec t v :
  Np.in_range t v = true ↔ Np.min_of t <= v <= Np.max_of t.
Proof. unfold Np.in_range. rewrite andb_true_iff, !Z.leb_le. tauto. Qed.

Lemma min_of_nonpos t : Np.min_of t <= 0.
Proof. by destruct t. Qed.

Lemma range_width t : Np.max_of t - Np.min_of t + 1 = 2 ^ Np.bits t.
Proof. by destruct t. Qed.

(** A value inside the range of the type is not changed by the
    reduction. *)
Lemma wrap_in_range t v : Np.in_range t v = true → Np.wrap t v = v.
Proof.
  intros Hr%in_range_spec. unfold Np.wrap.
  pose proof (range_width t). rewrite Z.mod_small by lia. lia.
Qed.

(** A non-negative value below one that fits does fit. *)
Lemma in_range_below t u v :
  0 <= v <= u → Np.in_range t u = true → Np.in_range t v = true.
Proof.
  intros Hv Hu%in_range_spec. apply in_range_spec.
  pose proof (min_of_nonpos t). lia.
Qed.

Lemma round_float64_small v : Z.abs v < 2 ^ 53 → Np.round_float64 v = v.
Proof.
  intros Hv. unfold Np.round_float64.
  by rewrite (proj2 (Z.ltb_lt _ _) Hv).
Qed.

(** Promotion never lowers the largest value of the type. *)
Lemma promote_types_max a b t :
  Np.promote_types a b = Np.DInt t → Np.max_of a <= Np.max_of t.
Proof. destruct a, b; intros [= <-]; by vm_compute. Qed.

Lemma fold_promote_max rest : ∀ d t,
  fold_left Np.promote rest d = Np.DInt t →
  ∃ u, d = Np.DInt u ∧ Np.max_of u <= Np.max_of t.
Proof.
  induction rest as [|t' rest IH]; intros d t Hf.
  - exists t. by split.
  - cbn [fold_left] in Hf. destruct (IH _ _ Hf) as (u' & Hp & Hle).
    destruct d as [u|]; [|done]. exists u. split; [done|].
    cbn [Np.promote] in Hp. apply promote_types_max in Hp. lia.
Qed.

(** A non-negative value below [2 ^ 53] that fits the type of the first
    array is unchanged by the conversion to the type of a
    concatenation. *)
Lemma cast_result_type t ts v :
  0 <= v < 2 ^ 53 →
  Np.in_range t v = true →
  Np.cast (Np.result_type (t :: ts)) v = v.
Proof.
  intros Hv Hr. cbn [Np.result_type].
  destruct (fold_left Np.promote ts (Np.DInt t)) as [r|] eqn:Hf.
  - destruct (fold_promote_max _ _ _ Hf) as (u & [= <-] & Hle).
    cbn [Np.cast]. apply wrap_in_range, in_range_spec.
    apply in_range_spec in Hr. pose proof (min_of_nonpos r). lia.
  - cbn [Np.cast]. apply round_float64_small. lia.
Qed.

Lemma promote_types_max_r a b t :
  Np.promote_types a b = Np.DInt t → Np.max_of b <= Np.max_of t.
Proof. destruct a, b; intros [= <-]; by vm_compute. Qed.

Lemma fold_promote_max_in rest : ∀ d t t',
  fold_left Np.promote rest d = Np.DInt t →
  t' ∈ rest → Np.max_of t' <= Np.max_of t.
Proof.
  induction rest as [|t0 rest IH]; intros d t t' Hf Hin.
  - by apply elem_of_nil in Hin.
  - cbn [fold_left] in Hf. apply elem_of_cons in Hin as [->|Hin].
    + destruct (fold_promote_max _ _ _ Hf) as (u & Hp & Hle).
      destruct d as [a|]; [|done]. cbn [Np.promote] in Hp.
      apply promote_types_max_r in Hp. lia.
    + by eapply IH.
Qed.

(** A non-negative value below [2 ^ 53] that fits the type of one of the
    arrays is unchanged by the conversion to the type of their
    concatenation. *)
Lemma cast_result_type_in ts t v :
  t ∈ ts →
  0 <= v < 2 ^ 53 →
  Np.in_range t v = true →
  Np.cast (Np.result_type ts) v = v.
Proof.
  intros Hin Hv Hr. destruct ts as [|t0 rest]; [by apply elem_of_nil in Hin|].
  cbn [Np.result_type].
  destruct (fold_left Np.promote rest (Np.DInt t0)) as [r|] eqn:Hf.
  - cbn [Np.cast]. apply wrap_in_range, in_range_spec.
    apply in_range_spec in Hr. pose proof (min_of_nonpos r).
    assert (Np.max_of t <= Np.max_of r); [|lia].
    apply elem_of_cons in Hin as [->|Hin].
    + by destruct (fold_promote_max _ _ _ Hf) as (u & [= <-] & Hle).
    + by eapply fold_promote_max_in.
  - cbn [Np.cast]. apply round_float64_small. lia.
Qed.

Lemma np_add_int_exact a n :
  shift_exact a n = true → np_add_int a n = Ok (shifted a n).
Proof.
  unfold shift_exact, np_add_int, shifted.
  intros [Hn Hx]%andb_true_iff. rewrite Hn. do 2 f_equal.
  apply list_fmap_ext. intros _ x Hin%list_elem_of_lookup_2.
  rewrite forallb_forall in Hx.
  apply wrap_in_range, Hx. by apply list_elem_of_In.
Qed.

(** ** Exclusion indices in merged coordinates (C1) *)

Lemma chrom_offset_0 lens : chrom_offset lens 0 = 0.
Proof. unfold chrom_offset. by rewrite take_0. Qed.

Lemma chrom_offset_S n lens i :
  chrom_offset (n :: lens) (S i) = Z.of_nat n + 1 + chrom_offset lens i.
Proof. unfold chrom_offset. simpl. lia. Qed.

Lemma lookups_Forall2 {V} (a : gmap string V) ks :
  Forall (λ k, is_Some (a !! k)) ks →
  ∃ vs, Forall2 (λ k v, a !! k = Some v) ks vs.
Proof.
  induction 1 as [|k ks [v Hv] _ [vs IH]].
  - exists []. constructor.
  - exists (v :: vs). by constructor.
Qed.

Lemma forallb_imap {A} (g : nat → A → bool) l :
  forallb id (imap g l) = true ↔ ∀ i a, l !! i = Some a → g i a = true.
Proof.
  revert g. induction l as [|x l IH]; intros g; [done|].
  rewrite imap_cons. cbn [forallb id]. rewrite andb_true_iff, IH. split.
  - intros [Hx Hl] [|i] a Hi; [by injection Hi as <-|]. by apply Hl.
  - intros Hall. split; [by apply (Hall 0%nat)|].
    intros i a Hi. by apply (Hall (S i)).
Qed.

(** The loop on chromosomes that the two archives hold, when every
    array can be shifted exactly. *)
Lemma remap_loop_spec f s ks : ∀ fs ss acc total,
  Forall2 (λ k a, f !! k = Some a) ks fs →
  Forall2 (λ k a, s !! k = Some a) ks ss →
  (∀ i a, fs !! i = Some a →
     shift_exact a (total + chrom_offset (length <$> ss) i) = true) →
  remap_loop f s ks acc total
  = Ok (acc ++ imap (λ i a, shifted a (total + chrom_offset (length <$> ss) i)) fs).
Proof.
  induction ks as [|k ks IH]; intros fs ss acc total Hf Hs Hex.
  - inversion Hf; subst. simpl. by rewrite app_nil_r.
  - inversion Hf as [|? fk ? fs' Hfk Hfs]; subst.
    inversion Hs as [|? sk ? ss' Hsk Hss]; subst.
    cbn [remap_loop]. unfold getitem. rewrite Hfk, Hsk. cbn.
    pose proof (Hex 0%nat fk eq_refl) as H0.
    rewrite fmap_cons, chrom_offset_0, Z.add_0_r in H0.
    rewrite (np_add_int_exact _ _ H0). cbn.
    rewrite (IH fs' ss'); [|done|done|].
    + rewrite <- app_assoc. cbn [app]. do 3 f_equal.
      * by rewrite chrom_offset_0, Z.add_0_r.
      * apply imap_ext. intros i a _. cbn. rewrite chrom_offset_S.
        f_equal. unfold fmap. lia.
    + intros i a Hi. specialize (Hex (S i) a Hi).
      rewrite fmap_cons, chrom_offset_S in Hex.
      rewrite <- Hex. f_equal. unfold fmap. lia.
Qed.

Lemma np_concatenate_nonempty arrays :
  arrays ≠ [] →
  np_concatenate arrays
  = Ok (Np.cast (Np.result_type (Np.dtype <$> arrays))
          <$> concat (Np.values <$> arrays)).
Proof. by destruct arrays. Qed.

Lemma concat_shifted fs lens :
  concat (Np.values <$> imap (λ i a, shifted a (0 + chrom_offset lens i)) fs)
  = merged_indices (Np.values <$> fs) lens.
Proof.
  unfold merged_indices. f_equal.
  rewrite fmap_imap, imap_fmap. apply imap_ext. intros i a _. by cbn.
Qed.

(** The remapping of lines 314-319 on identifiers that the two archives
    hold, when nothing is lost in it. *)
Lemma remap_indices_spec f s ks fs ss :
  ks ≠ [] →
  Forall2 (λ k a, f !! k = Some a) ks fs →
  Forall2 (λ k a, s !! k = Some a) ks ss →
  remap_exact fs (length <$> ss) = true →
  remap_indices f s ks = Ok (merged_indices (Np.values <$> fs) (length <$> ss)).
Proof.
  intros Hne Hf Hs [Hsh Hcast]%andb_true_iff. unfold remap_indices.
  rewrite (remap_loop_spec _ _ _ _ _ [] 0 Hf Hs).
  2:{ intros i a Hi. rewrite Z.add_0_l.
      by apply (proj1 (forallb_imap _ _) Hsh). }
  cbn [app]. cbn.
  assert (Hdt : Np.dtype <$> imap (λ i a, shifted a (0 + chrom_offset (length <$> ss) i)) fs
                = Np.dtype <$> fs).
  { rewrite fmap_imap, <- (imap_const Np.dtype fs). by apply imap_ext. }
  rewrite np_concatenate_nonempty
    by (destruct fs; [by inversion Hf; subst|done]).
  rewrite concat_shifted, Hdt. f_equal.
  rewrite forallb_forall in Hcast.
  rewrite <- (list_fmap_id (merged_indices _ _)) at 2.
  apply list_fmap_ext. intros _ v Hin%list_elem_of_lookup_2.
  apply Z.eqb_eq, Hcast. by apply list_elem_of_In.
Qed.

(** In the merged array, chromosome [i] starts at its offset: the
    remapped index of a local position addresses the same element. *)
Lemma merged_lookup_offset {A} (arrays : list (list A)) : ∀ i a j x,
  arrays !! i = Some a →
  a !! j = Some x →
  merge_arrays arrays
    !! (Z.to_nat (chrom_offset (length <$> arrays) i) + j)%nat
  = Some (Some x).
Proof.
  induction arrays as [|a0 rest IH]; intros i a j x Hi Hj; [done|].
  destruct i as [|i].
  - injection Hi as ->. rewrite chrom_offset_0. simpl Z.to_nat.
    assert (Hs : (Some <$> a) !! j = Some (Some x))
      by by rewrite list_lookup_fmap, Hj.
    destruct rest as [|l rest]; [exact Hs|].
    change (merge_arrays (a :: l :: rest))
      with ((Some <$> a) ++ None :: merge_arrays (l :: rest)).
    rewrite lookup_app_l; [exact Hs|].
    rewrite length_fmap. by eapply lookup_lt_Some.
  - simpl in Hi. destruct rest as [|b rest]; [done|].
    change (merge_arrays (a0 :: b :: rest))
      with ((Some <$> a0) ++ None :: merge_arrays (b :: rest)).
    rewrite fmap_cons, chrom_offset_S.
    assert (Hpos : 0 <= chrom_offset (length <$> b :: rest) i)
      by (unfold chrom_offset; lia).
    rewrite lookup_app_r by (rewrite length_fmap; lia).
    rewrite length_fmap.
    replace (Z.to_nat (Z.of_nat (length a0) + 1 + chrom_offset (length <$> b :: rest) i)
             + j - length a0)%nat
      with (S (Z.to_nat (chrom_offset (length <$> b :: rest) i) + j)) by lia.
    simpl. by eapply IH.
Qed.

(** C1 (amended).  For lists of chromosome identifiers that the
    exclusion archive and the labels archive hold, and provided every
    offset and every shifted index fits the integer type of its index
    array and the type of the concatenation, the exclusion indices
    handed to the training and to the validation generator are the local
    indices of each chromosome shifted by its offset: the sum of the
    label-array lengths of the chromosomes before it plus one slot for
    each of them. *)
Theorem remove_indices_offsets w args path f s ft st fv sv :
  remove_indices args = Some path →
  index_files w !! path = Some f →
  label_files w !! labels args = Some s →
  chrom_train args ≠ [] →
  chrom_valid args ≠ [] →
  Forall2 (λ k a, f !! k = Some a) (chrom_train args) ft →
  Forall2 (λ k a, s !! k = Some a) (chrom_train args) st →
  Forall2 (λ k a, f !! k = Some a) (chrom_valid args) fv →
  Forall2 (λ k a, s !! k = Some a) (chrom_valid args) sv →
  remap_exact ft (length <$> st) = true →
  remap_exact fv (length <$> sv) = true →
  load_remove_indices w args
  = ([], Ok (Some (merged_indices (Np.values <$> ft) (length <$> st)),
             Some (merged_indices (Np.values <$> fv) (length <$> sv)))).
Proof.
  intros Hri Hf Hs Hnt Hnv Hft Hst Hfv Hsv Het Hev.
  unfold load_remove_indices, np_load. rewrite Hri, Hf, Hs.
  rewrite !bind_ret. unfold lift_res.
  rewrite (remap_indices_spec _ _ _ _ _ Hnt Hft Hst Het).
  rewrite (remap_indices_spec _ _ _ _ _ Hnv Hfv Hsv Hev).
  reflexivity.
Qed.

(** With 8-bit indices the sum of line 317 wraps around: the index 100
    of the second chromosome, whose offset is 100, does not become 200. *)
Lemma narrow_indices_counterexample :
  remove_indices Sample.args_int8 = Some "data/int8.npz"
  ∧ index_files Sample.world !! "data/int8.npz" = Some Sample.exclusions_int8
  ∧ label_files Sample.world !! labels Sample.args_int8 = Some Sample.labels_long
  ∧ Forall2 (λ k a, Sample.exclusions_int8 !! k = Some a)
            (chrom_train Sample.args_int8)
            [Sample.int8_array [0]; Sample.int8_array [100]]
  ∧ Forall2 (λ k a, Sample.labels_long !! k = Some a)
            (chrom_train Sample.args_int8)
            [replicate 99 1%Q; replicate 120 2%Q]
  ∧ merged_indices [[0]; [100]] [99; 120]%nat = [0; 200]
  ∧ load_remove_indices Sample.world Sample.args_int8
    = ([], Ok (Some [0; -56], Some [0]))
  ∧ result (load_remove_indices Sample.world Sample.args_int8)
    ≠ Ok (Some (merged_indices [[0]; [100]] [99; 120]%nat), Some [0]).
Proof.
  split; [reflexivity|].
  split; [vm_compute; reflexivity|].
  split; [vm_compute; reflexivity|].
  split; [repeat constructor|].
  split; [repeat constructor|].
  split; [vm_compute; reflexivity|].
  split; [vm_compute; reflexivity|].
  intros Heq. vm_compute in Heq. discriminate.
Qed.

Lemma remove_indices_offsets_witness :
  remove_indices Sample.args_exclude = Some "data/exclude.npz"
  ∧ index_files Sample.world !! "data/exclude.npz" = Some Sample.exclusions
  ∧ label_files Sample.world !! labels Sample.args_exclude = Some Sample.labels_W303
  ∧ chrom_train Sample.args_exclude ≠ []
  ∧ chrom_valid Sample.args_exclude ≠ []
  ∧ Forall2 (λ k a, Sample.exclusions !! k = Some a)
            (chrom_train Sample.args_exclude)
            [Sample.int64_array [0; 2]; Sample.int64_array [0; 3]]
  ∧ Forall2 (λ k a, Sample.labels_W303 !! k = Some a)
            (chrom_train Sample.args_exclude) [[1; 2; 3]%Q; [6; 7; 8; 9]%Q]
  ∧ Forall2 (λ k a, Sample.exclusions !! k = Some a)
            (chrom_valid Sample.args_exclude) [Sample.int64_array [1]]
  ∧ Forall2 (λ k a, Sample.labels_W303 !! k = Some a)
            (chrom_valid Sample.args_exclude) [[4; 5]%Q]
  ∧ remap_exact [Sample.int64_array [0; 2]; Sample.int64_array [0; 3]]
                [3; 4]%nat = true
  ∧ remap_exact [Sample.int64_array [1]] [2]%nat = true
  ∧ load_remove_indices Sample.world Sample.args_exclude
    = ([], Ok (Some [0; 2; 4; 7], Some [1])).
Proof.
  assert (Hf : index_files Sample.world !! "data/exclude.npz" = Some Sample.exclusions)
    by (vm_compute; reflexivity).
  assert (Hs : label_files Sample.world !! labels Sample.args_exclude
               = Some Sample.labels_W303) by (vm_compute; reflexivity).
  assert (Hft : Forall2 (λ k a, Sample.exclusions !! k = Some a)
                  (chrom_train Sample.args_exclude)
                  [Sample.int64_array [0; 2]; Sample.int64_array [0; 3]])
    by (repeat constructor).
  assert (Hst : Forall2 (λ k a, Sample.labels_W303 !! k = Some a)
                  (chrom_train Sample.args_exclude) [[1; 2; 3]%Q; [6; 7; 8; 9]%Q])
    by (repeat constructor).
  assert (Hfv : Forall2 (λ k a, Sample.exclusions !! k = Some a)
                  (chrom_valid Sample.args_exclude) [Sample.int64_array [1]])
    by (repeat constructor).
  assert (Hsv : Forall2 (λ k a, Sample.labels_W303 !! k = Some a)
                  (chrom_valid Sample.args_exclude) [[4; 5]%Q])
    by (repeat constructor).
  assert (Het : remap_exact [Sample.int64_array [0; 2]; Sample.int64_array [0; 3]]
                            [3; 4]%nat = true) by (vm_compute; reflexivity).
  assert (Hev : remap_exact [Sample.int64_array [1]] [2]%nat = true)
    by (vm_compute; reflexivity).
  repeat (split; [done|]).
  exact (remove_indices_offsets Sample.world Sample.args_exclude _ _ _
           _ _ _ _ eq_refl Hf Hs ltac:(done) ltac:(done) Hft Hst Hfv Hsv Het Hev).
Defined.

(** The exclusion indices of a run reach the two generators remapped. *)
Example exclusions_reach_generators :
  (λ '(role, kw), (role, kw_remove_indices kw))
    <$> generator_calls (trace (main Sample.world Sample.args_exclude))
  = [(Train, Some [0; 2; 4; 7]); (Valid, Some [1])].
Proof. vm_compute. reflexivity. Qed.

(** ** Sequence and label arrays of different lengths (C4) *)

(** Argument validation looks at the keys of the archives only: on files
    with the same keys it does the same, whatever the lengths and the
    contents of the arrays. *)
Lemma has_key_same_keys {A B} path (a : gmap string A) (a' : gmap string B) chr_id :
  (∀ k, is_Some (a !! k) ↔ is_Some (a' !! k)) →
  has_key path a chr_id = has_key path a' chr_id.
Proof.
  intros Hk. unfold has_key. by rewrite (bool_decide_ext _ _ (Hk chr_id)).
Qed.

Lemma check_genome_labels_same_keys args (g g' : npz base) (s s' : npz signal) ids :
  (∀ k, is_Some (g !! k) ↔ is_Some (g' !! k)) →
  (∀ k, is_Some (s !! k) ↔ is_Some (s' !! k)) →
  check_genome_labels args g s ids = check_genome_labels args g' s' ids.
Proof.
  intros Hg Hs. induction ids as [|id ids IH]; [done|]. simpl.
  rewrite (bool_decide_ext _ _ (Hg id)), IH.
  by rewrite (has_key_same_keys _ s s' id Hs).
Qed.

Lemma check_remove_indices_same_keys path (r r' : gmap string Np.ndarray) ids :
  (∀ k, is_Some (r !! k) ↔ is_Some (r' !! k)) →
  check_remove_indices path r ids = check_remove_indices path r' ids.
Proof.
  intros Hr. induction ids as [|id ids IH]; [done|]. simpl.
  by rewrite (bool_decide_ext _ _ (Hr id)), IH.
Qed.

Lemma parsing_same_keys w w' args :
  same_keys (genome_files w) (genome_files w') →
  same_keys (label_files w) (label_files w') →
  same_keys (index_files w) (index_files w') →
  parsing w args = parsing w' args.
Proof.
  intros Hg Hs Hr.
  specialize (Hg (genome args)). specialize (Hs (labels args)).
  destruct (genome_files w !! genome args) as [g|] eqn:Eg,
    (genome_files w' !! genome args) as [g'|] eqn:Eg'; try done.
  2:{ unfold parsing. by rewrite Eg, Eg'. }
  destruct (label_files w !! labels args) as [s|] eqn:Es,
    (label_files w' !! labels args) as [s'|] eqn:Es'; try done.
  2:{ unfold parsing. by rewrite Eg, Eg', Es, Es'. }
  destruct (rename_chroms args) as [a|e] eqn:Ha.
  2:{ unfold parsing. by rewrite Eg, Eg', Es, Es', Ha. }
  rewrite (parsing_checks w args a g s Eg Es Ha).
  rewrite (parsing_checks w' args a g' s' Eg' Es' Ha).
  unfold membership_checks.
  rewrite (check_genome_labels_same_keys _ g g' s s' _ Hg Hs).
  match goal with
  | |- (_ ≫= (λ _, ?Y ≫= _)) = (_ ≫= (λ _, ?Y' ≫= _)) =>
      assert (Y = Y') as ->; [|done]
  end.
  destruct (remove_indices a) as [path|]; [|done].
  specialize (Hr path). unfold np_load.
  destruct (index_files w !! path) as [r|], (index_files w' !! path) as [r'|];
    try done.
  rewrite !bind_ret. by apply check_remove_indices_same_keys.
Qed.

(** The layout of a merged array gives the lengths of its chromosomes. *)
Lemma layout_merge_cons {A} (a b : list A) rest :
  layout (merge_arrays (a :: b :: rest))
  = replicate (length a) true ++ false :: layout (merge_arrays (b :: rest)).
Proof.
  change (merge_arrays (a :: b :: rest))
    with ((Some <$> a) ++ None :: merge_arrays (b :: rest)).
  unfold layout. rewrite fmap_app, fmap_cons. f_equal.
  induction a as [|x a IH]; [done|]. simpl. by rewrite <- IH.
Qed.

Lemma layout_merge_one {A} (a : list A) :
  layout (merge_arrays [a]) = replicate (length a) true.
Proof.
  unfold layout. cbn [merge_arrays].
  induction a as [|x a IH]; [done|]. simpl. by rewrite <- IH.
Qed.

Lemma replicate_true_inj n : ∀ m X Y,
  replicate n true ++ false :: X = replicate m true ++ false :: Y →
  n = m ∧ X = Y.
Proof.
  induction n as [|n IH]; intros [|m] X Y Heq; simpl in Heq; try done.
  - by injection Heq as ->.
  - injection Heq as Heq. by destruct (IH _ _ _ Heq) as [-> ->].
Qed.

Lemma layout_merge_lengths {A B} (xs : list (list A)) : ∀ (ys : list (list B)),
  length xs = length ys →
  layout (merge_arrays xs) = layout (merge_arrays ys) →
  Forall2 (λ x y, length x = length y) xs ys.
Proof.
  induction xs as [|a [|a' xs] IH]; intros [|b [|b' ys]] Hlen Hlay;
    try done.
  - rewrite !layout_merge_one in Hlay.
    constructor; [|constructor].
    apply (f_equal length) in Hlay. by rewrite !length_replicate in Hlay.
  - rewrite !layout_merge_cons in Hlay.
    destruct (replicate_true_inj _ _ _ _ Hlay) as [Hab Hrest].
    constructor; [done|]. apply IH; [|done]. simpl in *. lia.
Qed.

Lemma merge_chroms_Ok {A} ids (a : npz A) vs :
  Forall2 (λ k v, a !! k = Some v) ids vs →
  merge_chroms ids a = Ok (merge_arrays vs).
Proof.
  intros Hvs. unfold merge_chroms. by rewrite (proj2 (mapM_Some _ _ _) Hvs).
Qed.

(** A chromosome of a list that has not as many labels as bases shows in
    the layouts of the two merged arrays. *)
Lemma layout_mismatch (g : npz base) (s : npz signal) ids gs ss :
  Forall2 (λ k v, g !! k = Some v) ids gs →
  Forall2 (λ k v, s !! k = Some v) ids ss →
  Exists (λ k, length (default [] (g !! k)) ≠ length (default [] (s !! k))) ids →
  layout (merge_arrays gs) ≠ layout (merge_arrays ss).
Proof.
  intros Hg Hs Hex Hlay.
  apply layout_merge_lengths in Hlay.
  2:{ by rewrite <- (Forall2_length _ _ _ Hg), <- (Forall2_length _ _ _ Hs). }
  clear -Hg Hs Hex Hlay. revert ss Hs Hlay.
  induction Hg as [|k v ids gs Hk _ IH]; intros ss Hs Hlay.
  - by apply Exists_nil in Hex.
  - inversion Hs as [|? sv ? ss' Hsk Hss]; subst.
    inversion Hlay as [|? ? ? ? Hl Hrest]; subst.
    apply Exists_cons in Hex as [Hex|Hex].
    + rewrite Hk, Hsk in Hex. by cbn in Hex.
    + by apply (IH Hex ss').
Qed.

(** No step of the three blocks before the fit produces a batch. *)
Lemma build_model_no_batches args :
  Forall (λ e, produces_batches e = false) (trace (build_model args)).
Proof.
  unfold build_model, lift_res, emit.
  destruct (seed args), (getitem model_dict (architecture args));
    by repeat constructor.
Qed.

Lemma build_model_Ok args b :
  model_dict !! architecture args = Some b →
  result (build_model args) = Ok b.
Proof.
  intros Hb. unfold build_model, getitem, lift_res, emit. rewrite Hb.
  by destruct (seed args).
Qed.

Lemma load_data_no_batches w args :
  Forall (λ e, produces_batches e = false) (trace (load_data w args)).
Proof.
  unfold load_data, load_merged, load_remove_indices, np_load, lift_res, emit.
  repeat (match goal with
          | |- context [match ?x with _ => _ end] =>
              match x with
              | context [match _ with _ => _ end] => fail 1
              | _ => destruct x eqn:?
              end
          end;
          cbn -[merge_chroms remap_indices]);
    by repeat constructor.
Qed.

Lemma load_merged_eq {A} ids (files : gmap string (npz A)) path a :
  files !! path = Some a →
  load_merged ids files path
  = ([EvMergeChroms ids path], merge_chroms ids a).
Proof.
  intros Ha. unfold load_merged, np_load, lift_res, emit. rewrite Ha.
  unfold mbind, M_bind, mret, M_ret. simpl.
  by destruct (merge_chroms ids a).
Qed.

Lemma load_remove_indices_trace w args :
  trace (load_remove_indices w args) = [].
Proof.
  unfold load_remove_indices, np_load, lift_res.
  destruct (remove_indices args) as [path|]; [|done].
  destruct (index_files w !! path); [|done].
  destruct (label_files w !! labels args); [|done].
  rewrite !bind_ret.
  destruct (remap_indices _ _ (chrom_train args)); [|done].
  by destruct (remap_indices _ _ (chrom_valid args)).
Qed.

(** The data of a run whose chromosomes are in the two archives: the
    merged arrays, and whatever the remapping of the exclusions gives. *)
Lemma load_data_eq w args g s gt gv st sv :
  genome_files w !! genome args = Some g →
  label_files w !! labels args = Some s →
  Forall2 (λ k v, g !! k = Some v) (chrom_train args) gt →
  Forall2 (λ k v, g !! k = Some v) (chrom_valid args) gv →
  Forall2 (λ k v, s !! k = Some v) (chrom_train args) st →
  Forall2 (λ k v, s !! k = Some v) (chrom_valid args) sv →
  load_data w args
  = ([EvMergeChroms (chrom_train args) (genome args);
      EvMergeChroms (chrom_valid args) (genome args);
      EvMergeChroms (chrom_train args) (labels args);
      EvMergeChroms (chrom_valid args) (labels args)],
     match result (load_remove_indices w args) with
     | Ok (rt, rv) =>
         Ok {| x_train := merge_arrays gt; x_valid := merge_arrays gv;
               y_train := merge_arrays st; y_valid := merge_arrays sv;
               remove_indices_train := rt; remove_indices_valid := rv |}
     | Fail e => Fail e
     end).
Proof.
  intros Hg Hs Hgt Hgv Hst Hsv. unfold load_data.
  rewrite !(load_merged_eq _ _ _ _ Hg), !(load_merged_eq _ _ _ _ Hs).
  rewrite (merge_chroms_Ok _ _ _ Hgt), (merge_chroms_Ok _ _ _ Hgv).
  rewrite (merge_chroms_Ok _ _ _ Hst), (merge_chroms_Ok _ _ _ Hsv).
  pose proof (load_remove_indices_trace w args) as Ht.
  destruct (load_remove_indices w args) as [t [[rt rv]|e]];
    cbn [trace fst] in Ht; subst t; reflexivity.
Qed.

Section LengthMismatch.
Context {rng : Type} `{RandomGen rng}.

Lemma construct_eq w role kw :
  construct w role kw
  = ([EvWindowGenerator role kw], WindowGenerator (entropy w) kw).
Proof.
  unfold construct, lift_res, emit, mbind, M_bind. simpl.
  by destruct (WindowGenerator (entropy w) kw).
Qed.

Lemma WindowGenerator_mismatch e kw :
  layout (kw_data kw) ≠ layout (kw_labels kw) →
  WindowGenerator e kw = Fail length_error.
Proof.
  intros Hne. unfold WindowGenerator.
  by rewrite (bool_decide_eq_false_2 _ Hne).
Qed.

Lemma WindowGenerator_match e kw :
  layout (kw_data kw) = layout (kw_labels kw) →
  ∃ g, WindowGenerator e kw = Ok g.
Proof.
  intros Heq. unfold WindowGenerator.
  rewrite (bool_decide_eq_true_2 _ Heq). by eexists.
Qed.

Lemma build_generators_no_batches w args d :
  Forall (λ e, produces_batches e = false) (trace (build_generators w args d)).
Proof.
  unfold build_generators. rewrite !construct_eq.
  destruct (WindowGenerator _ (generator_train_kwargs _ _ _ _));
    [|by repeat constructor].
  destruct (WindowGenerator _ (generator_valid_kwargs _ _ _ _));
    by repeat constructor.
Qed.

(** With a mismatch the construction of the generators fails, at the
    first of the two calls whose arrays differ in layout. *)
Lemma build_generators_mismatch w args d :
  layout (x_train d) ≠ layout (y_train d)
  ∨ layout (x_valid d) ≠ layout (y_valid d) →
  ∃ t role kw,
    build_generators w args d
    = (t ++ [EvWindowGenerator role kw], Fail length_error).
Proof.
  intros Hne. unfold build_generators. rewrite !construct_eq.
  destruct (decide (layout (x_train d) = layout (y_train d))) as [Heq|Hneq].
  - destruct Hne as [?|Hne]; [done|].
    destruct (WindowGenerator_match (entropy w)
                (generator_train_kwargs args (x_train d) (y_train d)
                   (remove_indices_train d)) Heq) as [gt ->].
    rewrite (WindowGenerator_mismatch (entropy w)
               (generator_valid_kwargs args (x_valid d) (y_valid d)
                  (remove_indices_valid d)) Hne).
    by eexists [_], Valid, _.
  - rewrite (WindowGenerator_mismatch (entropy w)
               (generator_train_kwargs args (x_train d) (y_train d)
                  (remove_indices_train d)) Hneq).
    by eexists [], Train, _.
Qed.

(** The trace and the result of [run], block by block. *)
Lemma run_decompose w args :
  run w args
  = (setup_steps args
     ++ match model_dict !! architecture args with
        | None => []
        | Some _ =>
            EvBuildModel (architecture args) (winsize args) (distribute args)
            :: trace (load_data w args)
            ++ match result (load_data w args) with
               | Fail _ => []
               | Ok d =>
                   trace (build_generators w args d)
                   ++ match result (build_generators w args d) with
                      | Fail _ => []
                      | Ok _ => [EvFit (epochs args);
                                 EvAppendInfo
                                   (output args +:+ "/Experiment_info.txt");
                                 EvSaveModel (output args +:+ "/model")]
                      end
               end
        end,
     match model_dict !! architecture args with
     | None => Fail (KeyError (architecture args))
     | Some _ =>
         match result (load_data w args) with
         | Fail e => Fail e
         | Ok d =>
             match result (build_generators w args d) with
             | Fail e => Fail e
             | Ok _ => Ok ()
             end
         end
     end).
Proof.
  unfold run, build_model, getitem, setup_steps, seed_events, train, lift_res, emit.
  destruct (load_data w args) as [tl [d|e]].
  - destruct (seed args), (model_dict !! architecture args);
      cbn -[build_generators]; try done;
      destruct (build_generators w args d) as [tg [g|e]]; cbn;
      by rewrite ?app_nil_r.
  - destruct (seed args), (model_dict !! architecture args); cbn;
      by rewrite ?app_nil_r.
Qed.

(** C4.  Argument validation does not look at the lengths of the
    arrays.  When it has passed and the architecture is known, a
    training or validation chromosome whose sequence array and label
    array differ in length ends the run before any batch is produced:
    with the configuration error of the constructor of a generator, the
    last step of the run, unless the remapping of the exclusion indices
    has failed before. *)
Theorem length_mismatch_fails w args t0 args' g s :
  parsing w args = (t0, Ok args') →
  is_Some (model_dict !! architecture args') →
  genome_files w !! genome args' = Some g →
  label_files w !! labels args' = Some s →
  Exists (λ k, length (default [] (g !! k)) ≠ length (default [] (s !! k)))
         (chrom_train args' ++ chrom_valid args') →
  ∃ t e,
    main w args = (t, Fail e)
    ∧ Forall (λ ev, produces_batches ev = false) t
    ∧ (∀ p, result (load_remove_indices w args') = Ok p →
         e = length_error
         ∧ ∃ t1 role kw, t = t1 ++ [EvWindowGenerator role kw]).
Proof.
  intros Hp [b Hb] Hg Hs Hex.
  destruct (parsing_Ok_inv _ _ _ _ Hp) as (g' & s' & Hg' & Hs' & Hr & Hall & Hri).
  assert (g' = g ∧ s' = s) as [-> ->].
  { destruct (rename_chroms_set _ _ Hr) as (ct & cv & ->).
    cbn [set_chroms genome labels] in Hg, Hs. split; congruence. }
  apply Forall_app in Hall as [Ht Hv].
  destruct (lookups_Forall2 g (chrom_train args')) as [gt Hgt];
    [eapply Forall_impl; [exact Ht|]; by intros ? [? ?]|].
  destruct (lookups_Forall2 s (chrom_train args')) as [st Hst];
    [eapply Forall_impl; [exact Ht|]; by intros ? [? ?]|].
  destruct (lookups_Forall2 g (chrom_valid args')) as [gv Hgv];
    [eapply Forall_impl; [exact Hv|]; by intros ? [? ?]|].
  destruct (lookups_Forall2 s (chrom_valid args')) as [sv Hsv];
    [eapply Forall_impl; [exact Hv|]; by intros ? [? ?]|].
  assert (Hlay : layout (merge_arrays gt) ≠ layout (merge_arrays st)
                 ∨ layout (merge_arrays gv) ≠ layout (merge_arrays sv)).
  { apply Exists_app in Hex as [Hex|Hex]; [left|right];
      by eapply layout_mismatch. }
  assert (Hpt : Forall (λ ev, produces_batches ev = false) t0).
  { pose proof (parsing_trace w args) as Hpt. rewrite Hp in Hpt.
    eapply Forall_impl; [exact Hpt|]. by intros e (a & c & ->). }
  assert (Hsetup : Forall (λ ev, produces_batches ev = false) (setup_steps args')).
  { unfold setup_steps, seed_events. destruct (seed args'); by repeat constructor. }
  rewrite (main_parsing_Ok _ _ _ _ Hp), run_decompose, Hb.
  rewrite (load_data_eq _ _ _ _ _ _ _ _ Hg Hs Hgt Hgv Hst Hsv).
  cbn [trace result fst snd].
  destruct (result (load_remove_indices w args')) as [[rt rv]|e] eqn:Hrem.
  - set (d := {| x_train := merge_arrays gt |}).
    destruct (build_generators_mismatch w args' d Hlay)
      as (t1 & role & kw & Hbg).
    pose proof (build_generators_no_batches w args' d) as Hnb.
    rewrite Hbg in Hnb |- *. cbn [trace result fst snd] in *.
    eexists _, _. split; [reflexivity|]. split.
    + rewrite app_nil_r.
      apply Forall_app; split; [done|]. apply Forall_app; split; [done|].
      cbn [app]. repeat (apply Forall_cons; split; [done|]). exact Hnb.
    + intros p _. split; [done|].
      exists (t0 ++ setup_steps args'
              ++ EvBuildModel (architecture args') (winsize args') (distribute args')
                 :: [EvMergeChroms (chrom_train args') (genome args');
                     EvMergeChroms (chrom_valid args') (genome args');
                     EvMergeChroms (chrom_train args') (labels args');
                     EvMergeChroms (chrom_valid args') (labels args')] ++ t1),
        role, kw.
      rewrite app_nil_r. cbn [app]. rewrite <- ?app_assoc. cbn [app].
      reflexivity.
  - eexists _, _. split; [reflexivity|]. split; [|done].
    rewrite app_nil_r.
    apply Forall_app; split; [done|]. apply Forall_app; split; [done|].
    by repeat constructor.
Qed.

End LengthMismatch.

Lemma length_mismatch_fails_witness :
  parsing Sample.world Sample.args_short
  = (passing_tests Sample.args_short, Ok Sample.args_short)
  ∧ is_Some (model_dict !! architecture Sample.args_short)
  ∧ genome_files Sample.world !! genome Sample.args_short = Some Sample.genome_W303
  ∧ label_files Sample.world !! labels Sample.args_short = Some Sample.labels_short
  ∧ length (default [] (Sample.genome_W303 !! "chr01"))
    ≠ length (default [] (Sample.labels_short !! "chr01"))
  ∧ result (load_remove_indices Sample.world Sample.args_short) = Ok (None, None)
  ∧ ∃ t e,
      main Sample.world Sample.args_short = (t, Fail e)
      ∧ Forall (λ ev, produces_batches ev = false) t
      ∧ (∀ p, result (load_remove_indices Sample.world Sample.args_short) = Ok p →
           e = length_error
           ∧ ∃ t1 role kw, t = t1 ++ [EvWindowGenerator role kw]).
Proof.
  assert (Hp : parsing Sample.world Sample.args_short
               = (passing_tests Sample.args_short, Ok Sample.args_short))
    by (vm_compute; reflexivity).
  assert (Hb : is_Some (model_dict !! architecture Sample.args_short))
    by (eexists; vm_compute; reflexivity).
  assert (Hg : genome_files Sample.world !! genome Sample.args_short
               = Some Sample.genome_W303) by (vm_compute; reflexivity).
  assert (Hs : label_files Sample.world !! labels Sample.args_short
               = Some Sample.labels_short) by (vm_compute; reflexivity).
  assert (Hne : length (default [] (Sample.genome_W303 !! "chr01"))
                ≠ length (default [] (Sample.labels_short !! "chr01")))
    by (vm_compute; lia).
  split; [exact Hp|]. split; [exact Hb|]. split; [exact Hg|].
  split; [exact Hs|]. split; [exact Hne|]. split; [reflexivity|].
  apply (length_mismatch_fails (rng := Z) Sample.world Sample.args_short
           _ Sample.args_short _ _ Hp Hb Hg Hs).
  apply Exists_cons_hd. exact Hne.
Defined.

(** The run of that command line: the training chromosome chr01 has
    three bases and two labels, and the constructor of the training
    generator refuses the merged arrays. *)
Example length_mismatch_run :
  result (main Sample.world Sample.args_short) = Fail length_error
  ∧ (λ '(role, kw), (role, layout (kw_data kw), layout (kw_labels kw)))
      <$> generator_calls (trace (main Sample.world Sample.args_short))
    = [(Train, [true; true; true; false; true; true],
               [true; true; false; true; true])].
Proof. vm_compute. split; reflexivity. Qed.

(** ** The sampler (C6, C7) *)

Section Sampler.
Context {rng : Type} `{RandomGen rng}.






















End Sampler.



(** Ten eligible positions drawn three at a time (8): batches of 3, 3,
    3 and 1 that hold every position once, and again in the next epoch. *)
Example ten_positions_by_three :
  ∃ g : @Generator Z,
    WindowGenerator 0 Sample.kwargs_10 = Ok g
    ∧ b_positions <$> epoch_batches g 0
      = [[4; 6; 5]; [2; 3; 0]; [8; 9; 7]; [1]]%nat
    ∧ b_positions <$> epoch_batches g 1
      = [[2; 9; 8]; [7; 4; 6]; [3; 5; 0]; [1]]%nat.
Proof. eexists. split; [reflexivity|]. split; vm_compute; reflexivity. Qed.

(** With [max_data] at 4 an epoch holds four positions, in batches of 3
    and 1, and the tracker is reset when the epoch ends: the positions 5
    and 6 of the first epoch are drawn again in the second. *)
Example capped_epochs :
  ∃ g : @Generator Z,
    WindowGenerator 0 Sample.kwargs_10_capped = Ok g
    ∧ n_batches g = 2%nat
    ∧ b_positions <$> fst (fetch_many 5 g 0)
      = [[4; 6; 5]; [2]; [5; 6; 7]; [0]; [5; 2; 8]]%nat.
Proof. eexists. split; [reflexivity|]. split; vm_compute; reflexivity. Qed.

(** Two chromosomes of four and three bases and windows of three bases:
    the gap slot, at position 4, its two neighbours and the two ends of
    the merged array are not eligible. *)
Example gap_positions_not_eligible :
  eligible_positions Sample.kwargs_gap = [1; 2; 6]%nat.
Proof. vm_compute. reflexivity. Qed.

Example first_batch_of_windows :
  ∃ g : @Generator Z,
    WindowGenerator 0 Sample.kwargs_gap = Ok g
    ∧ fst (fetch g 0)
      = {| b_positions := [2; 1]%nat;
           b_strands := [true; true];
           b_windows := [[Sample.bC; Sample.bG; Sample.bT];
                         [Sample.bA; Sample.bC; Sample.bG]];
           b_labels := [[3%Q]; [2%Q]] |}.
Proof. eexists. split; [reflexivity|]. vm_compute. reflexivity. Qed.

(** Without a seed the positions depend on the entropy of the
    environment. *)
Example unseeded_generator_varies :
  ∃ g1 g2 : @Generator Z,
    WindowGenerator 1 Sample.kwargs_10_unseeded = Ok g1
    ∧ WindowGenerator 2 Sample.kwargs_10_unseeded = Ok g2
    ∧ b_positions (fst (fetch g1 0)) = [8; 7; 1]%nat
    ∧ b_positions (fst (fetch g2 0)) = [8; 2; 9]%nat.
Proof.
  eexists _, _. split; [reflexivity|]. split; [reflexivity|].
  split; vm_compute; reflexivity.
Qed.

Example validation_call_yeast :
  valid_calls (trace (main Sample.world Sample.args_yeast))
  = [generator_valid_kwargs Sample.args_yeast
       [Some Sample.bT; Some Sample.bT] [Some 4; Some 5]%Q None].
Proof. vm_compute. reflexivity. Qed.

Lemma validation_generator_fixed_sampling_witness :
  EvWindowGenerator Valid
    (generator_valid_kwargs Sample.args_yeast [Some Sample.bT; Some Sample.bT] [Some 4; Some 5]%Q None)
  ∈ trace (main Sample.world (with_sampling Sample.args_yeast (Some 11) true None))
  ∧ kw_same_samples
      (generator_valid_kwargs Sample.args_yeast [Some Sample.bT; Some Sample.bT] [Some 4; Some 5]%Q None)
    = true
  ∧ kw_seed
      (generator_valid_kwargs Sample.args_yeast [Some Sample.bT; Some Sample.bT] [Some 4; Some 5]%Q None)
    = Some 0
  ∧ valid_calls (trace (main Sample.world
                          (with_sampling Sample.args_yeast (Some 11) true None)))
    = valid_calls (trace (main Sample.world Sample.args_yeast)).
Proof.
  assert (Hin : EvWindowGenerator Valid
            (generator_valid_kwargs Sample.args_yeast
               [Some Sample.bT; Some Sample.bT] [Some 4; Some 5]%Q None)
          ∈ trace (main Sample.world
                     (with_sampling Sample.args_yeast (Some 11) true None))).
  { apply valid_calls_elem. vm_compute. apply elem_of_cons. by left. }
  split; [exact Hin|].
  destruct (validation_generator_fixed_sampling (rng := Z) Sample.world
              (with_sampling Sample.args_yeast (Some 11) true None))
    as [Hkw _].
  destruct (validation_generator_fixed_sampling (rng := Z) Sample.world
              Sample.args_yeast) as [_ Hsame].
  destruct (Hkw _ Hin) as [Hss Hsd].
  split; [exact Hss|]. split; [exact Hsd|].
  exact (Hsame (Some 11) true).
Defined.

Lemma validation_generator_unweighted_witness :
  EvWindowGenerator Valid
    (generator_valid_kwargs Sample.args_yeast [Some Sample.bT; Some Sample.bT] [Some 4; Some 5]%Q None)
  ∈ trace (main Sample.world
             (with_sampling Sample.args_yeast None false (Some "global")))
  ∧ kw_balance
      (generator_valid_kwargs Sample.args_yeast [Some Sample.bT; Some Sample.bT] [Some 4; Some 5]%Q None)
    = None
  ∧ valid_calls (trace (main Sample.world
                          (with_sampling Sample.args_yeast None false (Some "global"))))
    = valid_calls (trace (main Sample.world Sample.args_yeast)).
Proof.
  assert (Hin : EvWindowGenerator Valid
            (generator_valid_kwargs Sample.args_yeast
               [Some Sample.bT; Some Sample.bT] [Some 4; Some 5]%Q None)
          ∈ trace (main Sample.world
                     (with_sampling Sample.args_yeast None false (Some "global")))).
  { apply valid_calls_elem. vm_compute. apply elem_of_cons. by left. }
  split; [exact Hin|].
  destruct (validation_generator_unweighted (rng := Z) Sample.world
              (with_sampling Sample.args_yeast None false (Some "global")))
    as [Hkw _].
  destruct (validation_generator_unweighted (rng := Z) Sample.world
              Sample.args_yeast) as [_ Hsame].
  destruct (Hkw _ Hin) as (Hbal & _ & _).
  split; [exact Hbal|].
  exact (Hsame (Some "global")).
Defined.

(** The training generator of the same run does receive [--balance]. *)
Example training_call_balanced :
  omap (λ e, match e with
             | EvWindowGenerator Train kw => Some (kw_balance kw, kw_n_classes kw)
             | _ => None
             end)
       (trace (main Sample.world
                 (with_sampling Sample.args_yeast None false (Some "global"))))
  = [(Some (Some "global"), Some 500)].
Proof. vm_compute. reflexivity. Qed.

(** * Further properties of the script *)

(** ** Argument validation, step by step *)

Lemma check_genome_labels_pass args g s ids :
  Forall (λ id, is_Some (g !! id) ∧ is_Some (s !! id)) ids →
  check_genome_labels args g s ids = (genome_labels_tests args ids, Ok ()).
Proof.
  induction 1 as [|id ids [[gv Hg] [sv Hs]] _ IH]; [done|].
  cbn [check_genome_labels]. unfold has_key. rewrite Hg, Hs, IH.
  reflexivity.
Qed.

Lemma check_genome_labels_stop args g s pre id post :
  Forall (λ id, is_Some (g !! id) ∧ is_Some (s !! id)) pre →
  g !! id = None ∨ s !! id = None →
  check_genome_labels args g s (pre ++ id :: post)
  = (genome_labels_tests args pre ++ failing_tests args g id,
     Fail (SystemExit (genome_labels_msg args id))).
Proof.
  intros Hpre Hno. induction Hpre as [|c pre [[gv Hg] [sv Hs]] _ IH].
  - cbn [app check_genome_labels]. unfold has_key, failing_tests.
    destruct (g !! id) as [gv|] eqn:Hg.
    + destruct Hno as [?|Hs]; [done|]. by rewrite Hs.
    + reflexivity.
  - cbn [app check_genome_labels]. unfold has_key. rewrite Hg, Hs, IH.
    reflexivity.
Qed.

Lemma check_remove_indices_pass path r ids :
  Forall (λ id, is_Some (r !! id)) ids →
  check_remove_indices path r ids = (remove_indices_tests path ids, Ok ()).
Proof.
  induction 1 as [|id ids [rv Hr] _ IH]; [done|].
  cbn [check_remove_indices]. unfold has_key. rewrite Hr, IH.
  reflexivity.
Qed.

Lemma membership_checks_pass w args :
  well_formed w args →
  ∀ g s, genome_files w !! genome args = Some g →
         label_files w !! labels args = Some s →
         membership_checks w args g s = (passing_tests args, Ok args).
Proof.
  intros (g' & s' & Hg' & Hs' & Hall & Hri) g s Hg Hs.
  assert (g' = g) as -> by congruence. assert (s' = s) as -> by congruence.
  unfold membership_checks, passing_tests.
  rewrite (check_genome_labels_pass _ _ _ _ Hall).
  destruct (remove_indices args) as [path|].
  - destruct (Hri path eq_refl) as (r & Hr & Hin).
    unfold np_load. rewrite Hr, bind_ret.
    rewrite (check_remove_indices_pass _ _ _ Hin). cbn.
    by rewrite !app_nil_r.
  - cbn. by rewrite !app_nil_r.
Qed.

Section ValidationSteps.
Context {rng : Type} `{RandomGen rng}.

(** X1.  A genome path that is no file ends the run with [sys.exit] and
    the genome message, whatever the other arguments are; with the genome
    file in place, a labels path that is no file ends it with the labels
    message.  In both cases nothing at all has been done. *)
Theorem missing_input_file_exits w args :
  (genome_files w !! genome args = None →
   main w args = ([], Fail (SystemExit (genome_missing_msg args))))
  ∧ (is_Some (genome_files w !! genome args) →
     label_files w !! labels args = None →
     main w args = ([], Fail (SystemExit (labels_missing_msg args)))).
Proof.
  split.
  - intros Hg. apply main_parsing_Fail. unfold parsing. by rewrite Hg.
  - intros [g Hg] Hs. apply main_parsing_Fail. unfold parsing.
    by rewrite Hg, Hs.
Qed.

End ValidationSteps.

Lemma missing_input_file_exits_witness :
  genome_files Sample.world !! "data/nowhere.npz" = None
  ∧ main Sample.world
      (cli "mnase_Etienne" "data/nowhere.npz" "data/none.npz" "out" ["x"] ["y"])
    = ([], Fail (SystemExit
         ("data/nowhere.npz does not exist." +:+ nl
          +:+ "Please enter a valid genome file path.")))
  ∧ is_Some (genome_files Sample.world !! "data/yeast.npz")
  ∧ label_files Sample.world !! "data/none.npz" = None
  ∧ main Sample.world
      (cli "mnase_Etienne" "data/yeast.npz" "data/none.npz" "out" ["x"] ["y"])
    = ([], Fail (SystemExit
         ("data/none.npz does not exist." +:+ nl
          +:+ "Please enter a valid labels file path."))).
Proof.
  assert (Hg : genome_files Sample.world !! "data/nowhere.npz" = None)
    by (vm_compute; reflexivity).
  assert (Hg' : is_Some (genome_files Sample.world !! "data/yeast.npz"))
    by (eexists; vm_compute; reflexivity).
  assert (Hs : label_files Sample.world !! "data/none.npz" = None)
    by (vm_compute; reflexivity).
  split; [exact Hg|].
  split; [exact (proj1 (missing_input_file_exits (rng := Z) Sample.world
            (cli "mnase_Etienne" "data/nowhere.npz" "data/none.npz" "out"
                 ["x"] ["y"])) Hg)|].
  split; [exact Hg'|]. split; [exact Hs|].
  exact (proj2 (missing_input_file_exits (rng := Z) Sample.world
           (cli "mnase_Etienne" "data/yeast.npz" "data/none.npz" "out"
                ["x"] ["y"])) Hg' Hs).
Defined.

(** X2.  Argument validation passes exactly when the two files exist,
    the renaming succeeds and every renamed identifier is a key of the
    genome archive, of the labels archive and, if one is given, of the
    exclusion archive; it then returns the renamed arguments after two
    tests per identifier, and one more per identifier on the exclusion
    archive. *)
Theorem parsing_passes_iff w args t args' :
  parsing w args = (t, Ok args')
  ↔ rename_chroms args = Ok args' ∧ well_formed w args' ∧ t = passing_tests args'.
Proof.
  split.
  - intros Hp.
    destruct (parsing_Ok_inv _ _ _ _ Hp) as (g & s & Hg & Hs & Hr & Hall & Hri).
    assert (Hgl : genome args' = genome args ∧ labels args' = labels args).
    { by destruct (rename_chroms_set _ _ Hr) as (ct & cv & ->). }
    destruct Hgl as [Hg' Hs'].
    assert (Hwf : well_formed w args').
    { exists g, s. rewrite Hg', Hs'. by repeat split. }
    split; [done|]. split; [done|].
    rewrite (parsing_checks _ _ _ _ _ Hg Hs Hr) in Hp.
    rewrite <- Hg' in Hg. rewrite <- Hs' in Hs.
    rewrite (membership_checks_pass _ _ Hwf g s Hg Hs) in Hp. congruence.
  - intros (Hr & Hwf & ->).
    pose proof Hwf as (g & s & Hg & Hs & _).
    assert (Hgl : genome args' = genome args ∧ labels args' = labels args).
    { by destruct (rename_chroms_set _ _ Hr) as (ct & cv & ->). }
    destruct Hgl as [Hg' Hs'].
    rewrite (parsing_checks w args args' g s); try congruence.
    by apply membership_checks_pass.
Qed.

Lemma parsing_passes_iff_witness :
  parsing Sample.world Sample.args_exclude
  = ([EvMembership "data/yeast.npz" "chr01"; EvMembership "data/labels.npz" "chr01";
      EvMembership "data/yeast.npz" "chr16"; EvMembership "data/labels.npz" "chr16";
      EvMembership "data/yeast.npz" "chr02"; EvMembership "data/labels.npz" "chr02";
      EvMembership "data/exclude.npz" "chr01"; EvMembership "data/exclude.npz" "chr16";
      EvMembership "data/exclude.npz" "chr02"],
     Ok Sample.args_exclude)
  ∧ rename_chroms Sample.args_exclude = Ok Sample.args_exclude
  ∧ well_formed Sample.world Sample.args_exclude.
Proof.
  assert (Hp : parsing Sample.world Sample.args_exclude
               = (passing_tests Sample.args_exclude, Ok Sample.args_exclude))
    by (vm_compute; reflexivity).
  split; [exact Hp|].
  destruct (proj1 (parsing_passes_iff _ _ _ _) Hp) as (Hr & Hwf & _).
  by split.
Defined.

(** X3.  When a renamed identifier is missing from the genome or the
    labels archive, the identifier reported is the first such one in the
    order training, then validation; the identifiers before it have had
    their two tests, the reported one is tested on the labels archive
    only if the genome archive holds it, and the ones after it are not
    tested at all. *)
Theorem first_missing_identifier w args args' g s pre id post :
  genome_files w !! genome args = Some g →
  label_files w !! labels args = Some s →
  rename_chroms args = Ok args' →
  chrom_train args' ++ chrom_valid args' = pre ++ id :: post →
  Forall (λ c, is_Some (g !! c) ∧ is_Some (s !! c)) pre →
  g !! id = None ∨ s !! id = None →
  parsing w args
  = (genome_labels_tests args pre ++ failing_tests args g id,
     Fail (SystemExit (genome_labels_msg args id))).
Proof.
  intros Hg Hs Hr Hids Hpre Hno.
  rewrite (parsing_checks _ _ _ _ _ Hg Hs Hr). unfold membership_checks.
  rewrite Hids, (check_genome_labels_stop _ _ _ _ _ _ Hpre Hno).
  by destruct (rename_chroms_set _ _ Hr) as (ct & cv & ->).
Qed.

Lemma first_missing_identifier_witness :
  genome_files Sample.world !! genome Sample.args_W303_7 = Some Sample.genome_W303
  ∧ label_files Sample.world !! labels Sample.args_W303_7 = Some Sample.labels_W303
  ∧ rename_chroms Sample.args_W303_7
    = Ok (set_chroms Sample.args_W303_7 ["chr01"; "chr07"] ["chr02"])
  ∧ Forall (λ c, is_Some (Sample.genome_W303 !! c) ∧ is_Some (Sample.labels_W303 !! c))
           ["chr01"]
  ∧ Sample.genome_W303 !! "chr07" = None
  ∧ parsing Sample.world Sample.args_W303_7
    = ([EvMembership "data/W303.npz" "chr01"; EvMembership "data/labels.npz" "chr01";
        EvMembership "data/W303.npz" "chr07"],
       Fail (SystemExit
               "chr07 is not a valid chromosome id in data/W303.npz and data/labels.npz")).
Proof.
  assert (Hg : genome_files Sample.world !! genome Sample.args_W303_7
               = Some Sample.genome_W303) by (vm_compute; reflexivity).
  assert (Hs : label_files Sample.world !! labels Sample.args_W303_7
               = Some Sample.labels_W303) by (vm_compute; reflexivity).
  assert (Hr : rename_chroms Sample.args_W303_7
               = Ok (set_chroms Sample.args_W303_7 ["chr01"; "chr07"] ["chr02"]))
    by (vm_compute; reflexivity).
  assert (Hpre : Forall (λ c, is_Some (Sample.genome_W303 !! c)
                              ∧ is_Some (Sample.labels_W303 !! c)) ["chr01"])
    by (repeat constructor; by eexists).
  assert (Hno : Sample.genome_W303 !! "chr07" = None) by (vm_compute; reflexivity).
  repeat (split; [done|]).
  exact (first_missing_identifier Sample.world Sample.args_W303_7 _ _ _
           ["chr01"] "chr07" ["chr02"] Hg Hs Hr eq_refl Hpre (or_introl Hno)).
Defined.

Section ExclusionFile.
Context {rng : Type} `{RandomGen rng}.

(** X4.  The path given to [--remove_indices] is not checked like the
    genome and the labels paths: when it is no file, and the identifiers
    have passed the tests on the genome and labels archives, the run ends
    with an uncaught [FileNotFoundError] instead of a [sys.exit] message,
    after those tests and before any other step. *)
Theorem missing_exclusion_file_raises w args args' g s path :
  genome_files w !! genome args = Some g →
  label_files w !! labels args = Some s →
  rename_chroms args = Ok args' →
  Forall (λ id, is_Some (g !! id) ∧ is_Some (s !! id))
         (chrom_train args' ++ chrom_valid args') →
  remove_indices args = Some path →
  index_files w !! path = None →
  main w args
  = (genome_labels_tests args (chrom_train args' ++ chrom_valid args'),
     Fail (FileNotFoundError path)).
Proof.
  intros Hg Hs Hr Hall Hri Hidx. apply main_parsing_Fail.
  rewrite (parsing_checks _ _ _ _ _ Hg Hs Hr). unfold membership_checks.
  rewrite (check_genome_labels_pass _ _ _ _ Hall).
  destruct (rename_chroms_set _ _ Hr) as (ct & cv & ->).
  cbn [set_chroms remove_indices chrom_train chrom_valid] in *.
  rewrite Hri. unfold np_load. rewrite Hidx. cbn. by rewrite app_nil_r.
Qed.

End ExclusionFile.

Lemma missing_exclusion_file_raises_witness :
  genome_files Sample.world !! "data/yeast.npz" = Some Sample.genome_W303
  ∧ label_files Sample.world !! "data/labels.npz" = Some Sample.labels_W303
  ∧ rename_chroms (with_remove_indices Sample.args_yeast "data/lost.npz")
    = Ok (with_remove_indices Sample.args_yeast "data/lost.npz")
  ∧ Forall (λ id, is_Some (Sample.genome_W303 !! id) ∧ is_Some (Sample.labels_W303 !! id))
           (["chr01"; "chr16"] ++ ["chr02"])
  ∧ index_files Sample.world !! "data/lost.npz" = None
  ∧ main Sample.world (with_remove_indices Sample.args_yeast "data/lost.npz")
    = ([EvMembership "data/yeast.npz" "chr01"; EvMembership "data/labels.npz" "chr01";
        EvMembership "data/yeast.npz" "chr16"; EvMembership "data/labels.npz" "chr16";
        EvMembership "data/yeast.npz" "chr02"; EvMembership "data/labels.npz" "chr02"],
       Fail (FileNotFoundError "data/lost.npz")).
Proof.
  assert (Hg : genome_files Sample.world !! "data/yeast.npz" = Some Sample.genome_W303)
    by (vm_compute; reflexivity).
  assert (Hs : label_files Sample.world !! "data/labels.npz" = Some Sample.labels_W303)
    by (vm_compute; reflexivity).
  assert (Hr : rename_chroms (with_remove_indices Sample.args_yeast "data/lost.npz")
               = Ok (with_remove_indices Sample.args_yeast "data/lost.npz"))
    by (vm_compute; reflexivity).
  assert (Hall : Forall (λ id, is_Some (Sample.genome_W303 !! id)
                               ∧ is_Some (Sample.labels_W303 !! id))
                   (["chr01"; "chr16"] ++ ["chr02"]))
    by (repeat constructor; by eexists).
  assert (Hidx : index_files Sample.world !! "data/lost.npz" = None)
    by (vm_compute; reflexivity).
  repeat (split; [done|]).
  exact (missing_exclusion_file_raises (rng := Z) Sample.world
           (with_remove_indices Sample.args_yeast "data/lost.npz") _ _ _
           "data/lost.npz" Hg Hs Hr Hall eq_refl Hidx).
Defined.

(** ** The integer literal of an identifier and its rendering (line 233) *)

Lemma int_digits_uint_pos d : ∀ p,
  Py.int_digits (Zpos p) false (NilEmpty.string_of_uint d)
  = Some (Zpos (Pos.of_uint_acc d p)).
Proof.
  induction d; intros p; [reflexivity|..];
    simpl; rewrite <- IHd; f_equal; lia.
Qed.

Lemma int_digits_uint d :
  Py.int_digits 0 false (NilEmpty.string_of_uint d)
  = Some (Z.of_N (Pos.of_uint d)).
Proof.
  induction d; [reflexivity|exact IHd|..];
    simpl; rewrite <- int_digits_uint_pos; reflexivity.
Qed.

(** Reading back a non-empty string of decimal digits. *)
Lemma int_string_of_uint d :
  d ≠ Decimal.Nil →
  Py.int (NilEmpty.string_of_uint d) = Some (Z.of_N (Pos.of_uint d)).
Proof.
  intros Hd. pose proof (int_digits_uint d) as Hi.
  destruct d; [done|..]; cbn [NilEmpty.string_of_uint] in *;
    set (s := NilEmpty.string_of_uint d) in *; clearbody s;
    unfold Py.int; simpl in *; by rewrite Hi.
Qed.

Lemma str_of_int_pos p :
  Py.str_of_int (Zpos p) = NilEmpty.string_of_uint (Pos.to_uint p).
Proof.
  unfold Py.str_of_int. cbn [Z.to_int NilZero.string_of_int].
  unfold NilZero.string_of_uint.
  pose proof (Unsigned.to_uint_nonnil p). by destruct (Pos.to_uint p).
Qed.

Lemma int_str_of_int_pos p : Py.int (Py.str_of_int (Zpos p)) = Some (Zpos p).
Proof.
  rewrite str_of_int_pos, int_string_of_uint by apply Unsigned.to_uint_nonnil.
  by rewrite Unsigned.of_to.
Qed.

Lemma int_str_of_int_neg p : Py.int (Py.str_of_int (Zneg p)) = Some (Zneg p).
Proof.
  pose proof (int_str_of_int_pos p) as Hp. rewrite str_of_int_pos in Hp.
  unfold Py.str_of_int. cbn [Z.to_int NilZero.string_of_int].
  unfold NilZero.string_of_uint.
  pose proof (Unsigned.to_uint_nonnil p) as Hn.
  destruct (Pos.to_uint p) as [|d|d|d|d|d|d|d|d|d|d] eqn:Hd; [done|..];
    cbn [NilEmpty.string_of_uint] in *;
    set (s := NilEmpty.string_of_uint d) in *; clearbody s;
    unfold Py.int in *; simpl in *;
    (destruct (Py.int_digits _ false s) as [n|]; [|done]);
    by injection Hp as ->.
Qed.

(** [int(str(n)) == n] *)
Lemma int_str_of_int n : Py.int (Py.str_of_int n) = Some n.
Proof.
  destruct n as [|p|p];
    [reflexivity|apply int_str_of_int_pos|apply int_str_of_int_neg].
Qed.

(** [int(format(n, "02d")) == n]: the padding zero does not change the
    value read back. *)
Lemma int_format_02d n : Py.int (Py.format_02d n) = Some n.
Proof.
  unfold Py.format_02d.
  destruct ((0 <=? n) && (n <? 10))%bool eqn:Hn; [|apply int_str_of_int].
  apply andb_prop in Hn as [H0 H10].
  apply Z.leb_le in H0. apply Z.ltb_lt in H10.
  assert (Hc : n = 0 ∨ n = 1 ∨ n = 2 ∨ n = 3 ∨ n = 4 ∨ n = 5 ∨ n = 6
               ∨ n = 7 ∨ n = 8 ∨ n = 9) by lia.
  repeat destruct Hc as [->|Hc]; try reflexivity. by subst.
Qed.

Lemma format_02d_inj n m : Py.format_02d n = Py.format_02d m → n = m.
Proof.
  intros Heq. pose proof (int_format_02d n) as Hn.
  rewrite Heq, int_format_02d in Hn. congruence.
Qed.

(** X5.  With the W303 genome two identifiers are renamed to the same
    key exactly when they are literals of the same integer: the padding,
    a sign or surrounding blanks make no difference ("7", "07" and " +7"
    all become "chr07"), and different numbers never share a key. *)
Theorem w303_id_same_value c c' r r' :
  w303_id c = Ok r →
  w303_id c' = Ok r' →
  r = r' ↔ Py.int c = Py.int c'.
Proof.
  unfold w303_id. intros Hc Hc'.
  destruct (Py.int c) as [n|]; [|done].
  destruct (Py.int c') as [n'|]; [|done].
  injection Hc as <-. injection Hc' as <-.
  split.
  - intros Heq. f_equal. apply format_02d_inj. by simplify_eq.
  - by intros [= ->].
Qed.

Lemma w303_id_same_value_witness :
  w303_id "7" = Ok "chr07" ∧ w303_id " +07" = Ok "chr07"
  ∧ w303_id "70" = Ok "chr70"
  ∧ ("chr07" = "chr07" ↔ Py.int "7" = Py.int " +07")
  ∧ ("chr07" = "chr70" ↔ Py.int "7" = Py.int "70").
Proof.
  assert (H7 : w303_id "7" = Ok "chr07") by reflexivity.
  assert (H07 : w303_id " +07" = Ok "chr07") by reflexivity.
  assert (H70 : w303_id "70" = Ok "chr70") by reflexivity.
  split; [exact H7|]. split; [exact H07|]. split; [exact H70|].
  split; [exact (w303_id_same_value _ _ _ _ H7 H07)
         |exact (w303_id_same_value _ _ _ _ H7 H70)].
Defined.

(** ** The renaming never merges two chromosomes (lines 231-237) *)

Lemma mmmyco_id_inj c c' : mmmyco_id c = mmmyco_id c' → c = c'.
Proof.
  unfold mmmyco_id. intros Heq.
  destruct (decide (c = "Mmmyco")) as [->|Hc];
    destruct (decide (c' = "Mmmyco")) as [->|Hc']; [done|..].
  - rewrite (bool_decide_eq_true_2 _ Hc') in Heq. discriminate.
  - rewrite (bool_decide_eq_true_2 _ Hc) in Heq. discriminate.
  - rewrite (bool_decide_eq_true_2 _ Hc), (bool_decide_eq_true_2 _ Hc') in Heq.
    by injection Heq.
Qed.

(** X6.  For every genome but W303 the renaming is one-to-one: the
    renamed identifiers are pairwise distinct exactly when the given ones
    are, so a chromosome listed once is looked up once and training and
    validation lists without a common identifier stay so. *)
Theorem renaming_keeps_distinct args args' :
  Py.path_stem (genome args) ≠ "W303" →
  rename_chroms args = Ok args' →
  NoDup (chrom_train args' ++ chrom_valid args')
  ↔ NoDup (chrom_train args ++ chrom_valid args).
Proof.
  intros Hw. unfold rename_chroms.
  rewrite bool_decide_eq_false_2 by done.
  case_bool_decide.
  - intros [= <-].
    destruct args; simpl. rewrite <- fmap_app.
    split; [apply NoDup_fmap_1|].
    apply (@NoDup_fmap_2 _ _ mmmyco_id mmmyco_id_inj).
  - by intros [= <-].
Qed.

Lemma renaming_keeps_distinct_witness :
  Py.path_stem (genome Sample.args_Mmmyco) ≠ "W303"
  ∧ rename_chroms Sample.args_Mmmyco
    = Ok (set_chroms Sample.args_Mmmyco
            (mmmyco_id <$> chrom_train Sample.args_Mmmyco)
            (mmmyco_id <$> chrom_valid Sample.args_Mmmyco))
  ∧ (NoDup ((mmmyco_id <$> chrom_train Sample.args_Mmmyco)
            ++ (mmmyco_id <$> chrom_valid Sample.args_Mmmyco))
     ↔ NoDup (chrom_train Sample.args_Mmmyco ++ chrom_valid Sample.args_Mmmyco)).
Proof.
  assert (Hs : Py.path_stem (genome Sample.args_Mmmyco) ≠ "W303")
    by (vm_compute; discriminate).
  assert (Hr : rename_chroms Sample.args_Mmmyco
               = Ok (set_chroms Sample.args_Mmmyco
                       (mmmyco_id <$> chrom_train Sample.args_Mmmyco)
                       (mmmyco_id <$> chrom_valid Sample.args_Mmmyco)))
    by (vm_compute; reflexivity).
  split; [exact Hs|]. split; [exact Hr|].
  exact (renaming_keeps_distinct _ _ Hs Hr).
Defined.

(** ** The genome name is the file name without directory (line 231) *)

Lemma append_cons c a b : String c a +:+ b = String c (a +:+ b).
Proof. reflexivity. Qed.

Lemma split_nonempty sep s : Py.split sep s ≠ [].
Proof.
  destruct s as [|c r]; [done|]. cbn [Py.split].
  destruct (Ascii.eqb c sep); [done|]. by destruct (Py.split sep r).
Qed.

Lemma split_app sep a b :
  Py.split sep (a +:+ String sep b) = Py.split sep a ++ Py.split sep b.
Proof.
  induction a as [|c a IH].
  - change (EmptyString +:+ String sep b) with (String sep b).
    cbn [Py.split]. by rewrite Ascii.eqb_refl.
  - rewrite append_cons. cbn [Py.split]. rewrite IH.
    destruct (Ascii.eqb c sep); [done|].
    pose proof (split_nonempty sep a) as Hne.
    by destruct (Py.split sep a).
Qed.

Lemma split_no_sep sep s : Py.rfind sep s = None → Py.split sep s = [s].
Proof.
  induction s as [|c r IH]; [done|]. cbn [Py.rfind Py.split].
  destruct (Py.rfind sep r); [done|].
  destruct (Ascii.eqb c sep); [done|]. intros _. by rewrite IH.
Qed.

Lemma path_tail_name name :
  name ≠ EmptyString → name ≠ "." →
  Py.rfind "/" name = None →
  Py.path_tail name = [name].
Proof.
  intros He Hd Hn. unfold Py.path_tail. rewrite (split_no_sep _ _ Hn).
  cbn [List.filter].
  rewrite (proj2 (String.eqb_neq _ _) He), (proj2 (String.eqb_neq _ _) Hd).
  reflexivity.
Qed.

Lemma path_name_directory dir name :
  name ≠ EmptyString → name ≠ "." →
  Py.rfind "/" name = None →
  Py.path_name (dir +:+ "/" +:+ name) = name.
Proof.
  intros He Hd Hn. unfold Py.path_name.
  change ("/" +:+ name) with (String "/" name).
  unfold Py.path_tail at 1. rewrite split_app, List.filter_app.
  fold (Py.path_tail name). rewrite (path_tail_name _ He Hd Hn).
  apply List.last_last.
Qed.

Lemma path_name_plain name :
  name ≠ EmptyString → name ≠ "." →
  Py.rfind "/" name = None → Py.path_name name = name.
Proof.
  intros He Hd Hn. unfold Py.path_name.
  by rewrite (path_tail_name _ He Hd Hn).
Qed.

Lemma path_stem_directory dir name :
  name ≠ EmptyString → name ≠ "." →
  Py.rfind "/" name = None →
  Py.path_stem (dir +:+ "/" +:+ name) = Py.path_stem name.
Proof.
  intros He Hd Hn. unfold Py.path_stem.
  by rewrite path_name_directory, path_name_plain.
Qed.

(** The renamed lists as a function of the genome name. *)
Lemma rename_chroms_by_stem args1 args2 args1' :
  Py.path_stem (genome args1) = Py.path_stem (genome args2) →
  chrom_train args1 = chrom_train args2 →
  chrom_valid args1 = chrom_valid args2 →
  rename_chroms args1 = Ok args1' →
  rename_chroms args2
  = Ok (set_chroms args2 (chrom_train args1') (chrom_valid args1')).
Proof.
  unfold rename_chroms. intros Hs Ht Hv. rewrite Hs, Ht, Hv.
  repeat case_bool_decide.
  - destruct (comprehension w303_id (chrom_train args2)) as [ct|]; [|done].
    destruct (comprehension w303_id (chrom_valid args2)) as [cv|]; [|done].
    intros [= <-]. by destruct args1.
  - intros [= <-]. by destruct args1.
  - intros [= <-]. by rewrite Ht, Hv, set_chroms_id.
Qed.

(** X7.  The renaming looks at the file name of the genome only: a file
    name (not empty, without slash, and not the dot that [pathlib] drops)
    gives under any directory the renamed identifiers that it gives
    alone, and the same failure if the renaming fails. *)
Theorem renaming_ignores_directory args1 args2 dir :
  genome args2 ≠ EmptyString →
  genome args2 ≠ "." →
  Py.rfind "/" (genome args2) = None →
  genome args1 = dir +:+ "/" +:+ genome args2 →
  chrom_train args1 = chrom_train args2 →
  chrom_valid args1 = chrom_valid args2 →
  match rename_chroms args1, rename_chroms args2 with
  | Ok args1', Ok args2' =>
      chrom_train args1' = chrom_train args2'
      ∧ chrom_valid args1' = chrom_valid args2'
  | Fail e1, Fail e2 => e1 = e2
  | _, _ => False
  end.
Proof.
  intros He Hd Hn Hg Ht Hv.
  assert (Hs : Py.path_stem (genome args1) = Py.path_stem (genome args2))
    by (rewrite Hg; by apply path_stem_directory).
  destruct (rename_chroms args1) as [args1'|e1] eqn:H1.
  - rewrite (rename_chroms_by_stem _ _ _ Hs Ht Hv H1). by destruct args2.
  - destruct (rename_chroms args2) as [args2'|e2] eqn:H2.
    + symmetry in Hs, Ht, Hv.
      rewrite (rename_chroms_by_stem _ _ _ Hs Ht Hv H2) in H1. done.
    + revert H1 H2. unfold rename_chroms. rewrite Hs, Ht, Hv.
      repeat case_bool_decide; [|done..].
      destruct (comprehension w303_id (chrom_train args2)); [|congruence].
      destruct (comprehension w303_id (chrom_valid args2)); [done|congruence].
Qed.

Lemma renaming_ignores_directory_witness :
  "W303.npz" ≠ EmptyString
  ∧ "W303.npz" ≠ "."
  ∧ Py.rfind "/" "W303.npz" = None
  ∧ match rename_chroms (cli "mnase_Etienne" "/data/genomes/W303.npz" "l.npz" "out"
                             ["1"; "16"] ["2"]),
          rename_chroms (cli "bassenji_Etienne" "W303.npz" "m.npz" "res"
                             ["1"; "16"] ["2"]) with
    | Ok args1', Ok args2' =>
        chrom_train args1' = chrom_train args2'
        ∧ chrom_valid args1' = chrom_valid args2'
    | Fail e1, Fail e2 => e1 = e2
    | _, _ => False
    end.
Proof.
  split; [discriminate|]. split; [discriminate|]. split; [reflexivity|].
  apply (renaming_ignores_directory
           (cli "mnase_Etienne" "/data/genomes/W303.npz" "l.npz" "out"
                ["1"; "16"] ["2"])
           (cli "bassenji_Etienne" "W303.npz" "m.npz" "res" ["1"; "16"] ["2"])
           "/data/genomes"); first [discriminate | reflexivity].
Defined.

(** ** The steps of a run, in order (lines 257-397) *)

Lemma rename_chroms_fields args args' :
  rename_chroms args = Ok args' →
  output args' = output args ∧ seed args' = seed args
  ∧ architecture args' = architecture args.
Proof.
  intros Hr. by destruct (rename_chroms_set _ _ Hr) as (ct & cv & ->).
Qed.

Lemma model_dict_unknown a :
  model_dict !! a = None ↔ a ≠ "mnase_Etienne" ∧ a ≠ "bassenji_Etienne".
Proof.
  unfold model_dict. rewrite lookup_insert_None, lookup_singleton_None.
  split; intros [? ?]; split; congruence.
Qed.

Section RunSteps.
Context {rng : Type} `{RandomGen rng}.

Lemma run_setup w args :
  ∃ rest, trace (run w args) = setup_steps args ++ rest.
Proof.
  unfold run, build_model, setup_steps, seed_events.
  rewrite !trace_bind. cbn [emit trace result fst snd].
  destruct (seed args); cbn [emit trace result fst snd app];
    eexists; reflexivity.
Qed.

(** X8.  The output directory is created and the experiment file opened
    exactly when argument validation passes, and then before anything
    else: they are left behind by a run that fails later (unknown
    architecture, data that cannot be merged), and a run that fails
    validation creates nothing. *)
Theorem output_created_iff_validated w args :
  match result (parsing w args) with
  | Ok _ =>
      ∃ rest, trace (main w args)
              = trace (parsing w args) ++ setup_steps args ++ rest
  | Fail e =>
      result (main w args) = Fail e
      ∧ Forall (λ ev, ∃ a c, ev = EvMembership a c) (trace (main w args))
  end.
Proof.
  pose proof (parsing_trace w args) as Ht.
  destruct (parsing w args) as [t [args'|e]] eqn:Hp; cbn [result trace fst snd] in *.
  - rewrite (main_parsing_Ok _ _ _ _ Hp). cbn [trace fst].
    destruct (run_setup w args') as [rest ->]. exists rest.
    destruct (parsing_Ok_inv _ _ _ _ Hp) as (g & s & _ & _ & Hr & _).
    destruct (rename_chroms_fields _ _ Hr) as (Ho & Hs & _).
    unfold setup_steps, seed_events. by rewrite Ho, Hs.
  - by rewrite (main_parsing_Fail _ _ _ _ Hp).
Qed.

(** X9.  With arguments that pass validation, an architecture that is
    neither "mnase_Etienne" nor "bassenji_Etienne" ends the run with
    [KeyError] on that name; the output directory and the experiment file
    have been written and the seed set by then, and nothing else is
    done. *)
Theorem unknown_architecture_outcome w args t args' :
  parsing w args = (t, Ok args') →
  architecture args ≠ "mnase_Etienne" →
  architecture args ≠ "bassenji_Etienne" →
  main w args = (t ++ setup_steps args, Fail (KeyError (architecture args))).
Proof.
  intros Hp Hm Hb. rewrite (main_parsing_Ok _ _ _ _ Hp).
  destruct (parsing_Ok_inv _ _ _ _ Hp) as (g & s & _ & _ & Hr & _).
  destruct (rename_chroms_fields _ _ Hr) as (Ho & Hs & Ha).
  assert (Hnone : model_dict !! architecture args' = None)
    by (rewrite Ha; by apply model_dict_unknown).
  unfold run, build_model, getitem, setup_steps, seed_events.
  rewrite Hnone, Ho, Hs, Ha. by destruct (seed args).
Qed.

End RunSteps.

Lemma unknown_architecture_outcome_witness :
  parsing Sample.world Sample.args_resnet
  = (passing_tests Sample.args_resnet, Ok Sample.args_resnet)
  ∧ architecture Sample.args_resnet ≠ "mnase_Etienne"
  ∧ architecture Sample.args_resnet ≠ "bassenji_Etienne"
  ∧ main Sample.world Sample.args_resnet
    = (passing_tests Sample.args_resnet ++ setup_steps Sample.args_resnet,
       Fail (KeyError (architecture Sample.args_resnet))).
Proof.
  assert (Hp : parsing Sample.world Sample.args_resnet
               = (passing_tests Sample.args_resnet, Ok Sample.args_resnet))
    by (vm_compute; reflexivity).
  assert (Hm : architecture Sample.args_resnet ≠ "mnase_Etienne")
    by (vm_compute; discriminate).
  assert (Hb : architecture Sample.args_resnet ≠ "bassenji_Etienne")
    by (vm_compute; discriminate).
  split; [exact Hp|]. split; [exact Hm|]. split; [exact Hb|].
  exact (unknown_architecture_outcome (rng := Z) _ _ _ _ Hp Hm Hb).
Defined.

Section RunOutcome.
Context {rng : Type} `{RandomGen rng}.

Lemma load_data_trace w args d :
  result (load_data w args) = Ok d →
  trace (load_data w args)
  = [EvMergeChroms (chrom_train args) (genome args);
     EvMergeChroms (chrom_valid args) (genome args);
     EvMergeChroms (chrom_train args) (labels args);
     EvMergeChroms (chrom_valid args) (labels args)]
  ∧ (is_Some (remove_indices_train d) ↔ is_Some (remove_indices args))
  ∧ (is_Some (remove_indices_valid d) ↔ is_Some (remove_indices args)).
Proof.
  unfold load_data, load_merged, load_remove_indices, np_load, lift_res, emit.
  repeat (match goal with
          | |- context [match ?x with _ => _ end] =>
              match x with
              | context [match _ with _ => _ end] => fail 1
              | _ => destruct x eqn:?
              end
          end;
          cbn -[merge_chroms remap_indices]); try done;
    intros [= <-]; cbn; (split; [done|]); split; split; by eauto.
Qed.

Lemma build_generators_trace w args d :
  ∃ rest,
    trace (build_generators w args d)
    = EvWindowGenerator Train
        (generator_train_kwargs args (x_train d) (y_train d)
                                (remove_indices_train d))
      :: rest
    ∧ (rest = []
       ∨ rest = [EvWindowGenerator Valid
                   (generator_valid_kwargs args (x_valid d) (y_valid d)
                                           (remove_indices_valid d))])
    ∧ (∀ g, result (build_generators w args d) = Ok g → rest ≠ []).
Proof.
  unfold build_generators. rewrite !construct_eq.
  destruct (WindowGenerator _ (generator_train_kwargs _ _ _ _));
    [|eexists; split; [reflexivity|split; [by left|done]]].
  destruct (WindowGenerator _ (generator_valid_kwargs _ _ _ _));
    eexists; (split; [reflexivity|split; [by right|done]]).
Qed.

(** X10.  A run that reaches its end has performed, after the
    membership tests, exactly these steps in this order: output
    directory, experiment file, the seed if one is given, the model, the
    four merges (training then validation sequences, training then
    validation labels), the training generator, the validation generator,
    the fit, the training time appended to the experiment file and the
    saving of the model under the output directory.  (The device set-up,
    the optimiser, the callbacks and the clock are not steps of the
    model.) *)
Theorem completed_run_steps w args :
  result (main w args) = Ok () →
  ∃ args' d,
    rename_chroms args = Ok args'
    ∧ result (load_data w args') = Ok d
    ∧ trace (main w args) = passing_tests args' ++ run_steps args' d.
Proof.
  intros Hok. destruct (parsing w args) as [t [args'|e]] eqn:Hp.
  2:{ by rewrite (main_parsing_Fail _ _ _ _ Hp) in Hok. }
  rewrite (main_parsing_Ok _ _ _ _ Hp) in Hok |- *.
  cbn [result trace fst snd] in *.
  destruct (parsing_Ok_inv _ _ _ _ Hp) as (g & s & Hg & Hs & Hr & Hall & Hri).
  assert (Ht : t = passing_tests args').
  { rewrite (parsing_checks _ _ _ _ _ Hg Hs Hr) in Hp.
    assert (Hwf : well_formed w args').
    { destruct (rename_chroms_set _ _ Hr) as (ct & cv & ->).
      exists g, s. by repeat split. }
    rewrite (membership_checks_pass _ _ Hwf g s) in Hp; [congruence|..];
      by destruct (rename_chroms_set _ _ Hr) as (ct & cv & ->). }
  subst t. exists args'.
  rewrite run_decompose in Hok |- *. cbn [result trace fst snd] in *.
  destruct (model_dict !! architecture args'); [|done].
  destruct (load_data w args') as [tl [d|e]] eqn:Hl; [|done].
  cbn [result trace fst snd] in *. exists d. split; [done|]. split; [done|].
  destruct (load_data_trace w args' d) as (Htl & _).
  { by rewrite Hl. }
  rewrite Hl in Htl. cbn [trace fst] in Htl. subst tl.
  destruct (build_generators_trace w args' d) as (rest & -> & Hrest & Hne).
  destruct (result (build_generators w args' d)) as [gs|e] eqn:Hg'; [|done].
  destruct Hrest as [->| ->]; [by destruct (Hne gs)|].
  reflexivity.
Qed.

Lemma run_generator_event w args role kw :
  EvWindowGenerator role kw ∈ trace (run w args) →
  shared_settings args kw ∧ own_settings args role kw.
Proof.
  rewrite run_decompose. unfold trace at 1. cbn [fst].
  unfold setup_steps, seed_events.
  rewrite elem_of_app. intros [Hin|Hin].
  { destruct (seed args); repeat (apply elem_of_cons in Hin as [Hin|Hin]; [done|]);
      by apply elem_of_nil in Hin. }
  destruct (model_dict !! architecture args); [|by apply elem_of_nil in Hin].
  apply elem_of_cons in Hin as [Hin|Hin]; [done|].
  destruct (result (load_data w args)) as [d|e] eqn:Hl.
  2:{ rewrite app_nil_r in Hin.
      exfalso. revert Hin. clear.
      unfold load_data, load_merged, load_remove_indices, np_load, lift_res, emit.
      repeat (match goal with
              | |- context [match ?x with _ => _ end] =>
                  match x with
                  | context [match _ with _ => _ end] => fail 1
                  | _ => destruct x eqn:?
                  end
              end;
              cbn -[merge_chroms remap_indices]);
        intros Hin;
        repeat (apply elem_of_cons in Hin as [Hin|Hin]; [done|]);
        by apply elem_of_nil in Hin. }
  destruct (load_data_trace w args d Hl) as (Htl & Hrt & Hrv).
  destruct (build_generators_trace w args d) as (rest & Htg & Hrest & _).
  rewrite Htl, Htg in Hin.
  apply elem_of_app in Hin as [Hin|Hin].
  { repeat (apply elem_of_cons in Hin as [Hin|Hin]; [done|]);
      by apply elem_of_nil in Hin. }
  apply elem_of_app in Hin as [Hin|Hin].
  - apply elem_of_cons in Hin as [Hin|Hin].
    + injection Hin as -> ->. split; [|by repeat split].
      repeat (split; [reflexivity|]). exact Hrt.
    + destruct Hrest as [->| ->]; [by apply elem_of_nil in Hin|].
      apply elem_of_cons in Hin as [Hin|Hin]; [|by apply elem_of_nil in Hin].
      injection Hin as -> ->. split; [|done].
      repeat (split; [reflexivity|]). exact Hrv.
  - destruct (result (build_generators w args d));
      repeat (apply elem_of_cons in Hin as [Hin|Hin]; [done|]);
      by apply elem_of_nil in Hin.
Qed.

(** X11.  Whenever a generator is built, in a run that ends well or
    not, it gets the window size, batch size, strand, head interval and
    the two removal flags of the command line, and exclusion indices
    exactly when [--remove_indices] is given: the removals that the help
    describes for the training set apply to the validation generator as
    well.  The seed, [--same_samples], the balancing and [--max_train]
    reach the training generator only; the validation generator is
    bounded by [--max_valid]. *)
Theorem generator_settings w args role kw :
  EvWindowGenerator role kw ∈ trace (main w args) →
  shared_settings args kw ∧ own_settings args role kw.
Proof.
  intros Hin. destruct (parsing w args) as [t [args'|e]] eqn:Hp.
  - rewrite (main_parsing_Ok _ _ _ _ Hp) in Hin. cbn [trace fst] in Hin.
    apply elem_of_app in Hin as [Hin|Hin].
    + pose proof (parsing_trace w args) as Ht. rewrite Hp in Ht.
      rewrite Forall_forall in Ht. by destruct (Ht _ Hin) as (? & ? & ?).
    + destruct (parsing_Ok_inv _ _ _ _ Hp) as (g & s & _ & _ & Hr & _).
      destruct (rename_chroms_set _ _ Hr) as (ct & cv & ->).
      apply run_generator_event in Hin. by destruct args, role.
  - rewrite (main_parsing_Fail _ _ _ _ Hp) in Hin. cbn [trace fst] in Hin.
    pose proof (parsing_trace w args) as Ht. rewrite Hp in Ht.
    rewrite Forall_forall in Ht. by destruct (Ht _ Hin) as (? & ? & ?).
Qed.

End RunOutcome.

Lemma completed_run_steps_witness :
  result (main Sample.world Sample.args_exclude) = Ok ()
  ∧ ∃ args' d,
      rename_chroms Sample.args_exclude = Ok args'
      ∧ result (load_data Sample.world args') = Ok d
      ∧ trace (main Sample.world Sample.args_exclude)
        = passing_tests args' ++ run_steps args' d.
Proof.
  assert (Hok : result (main Sample.world Sample.args_exclude) = Ok ())
    by (vm_compute; reflexivity).
  split; [exact Hok|].
  exact (completed_run_steps (rng := Z) _ _ Hok).
Defined.

Lemma generator_settings_witness :
  EvWindowGenerator Train
    (generator_train_kwargs Sample.args_exclude
       [Some Sample.bA; Some Sample.bC; Some Sample.bG; None;
        Some Sample.bG; Some Sample.bA; Some Sample.bT; Some Sample.bC]
       [Some 1; Some 2; Some 3; None; Some 6; Some 7; Some 8; Some 9]%Q (Some [0; 2; 4; 7]))
  ∈ trace (main Sample.world Sample.args_exclude)
  ∧ shared_settings Sample.args_exclude
      (generator_train_kwargs Sample.args_exclude
         [Some Sample.bA; Some Sample.bC; Some Sample.bG; None;
          Some Sample.bG; Some Sample.bA; Some Sample.bT; Some Sample.bC]
         [Some 1; Some 2; Some 3; None; Some 6; Some 7; Some 8; Some 9]%Q (Some [0; 2; 4; 7]))
  ∧ own_settings Sample.args_exclude Train
      (generator_train_kwargs Sample.args_exclude
         [Some Sample.bA; Some Sample.bC; Some Sample.bG; None;
          Some Sample.bG; Some Sample.bA; Some Sample.bT; Some Sample.bC]
         [Some 1; Some 2; Some 3; None; Some 6; Some 7; Some 8; Some 9]%Q (Some [0; 2; 4; 7])).
Proof.
  assert (Hin : EvWindowGenerator Train
            (generator_train_kwargs Sample.args_exclude
               [Some Sample.bA; Some Sample.bC; Some Sample.bG; None;
                Some Sample.bG; Some Sample.bA; Some Sample.bT; Some Sample.bC]
               [Some 1; Some 2; Some 3; None; Some 6; Some 7; Some 8; Some 9]%Q (Some [0; 2; 4; 7]))
          ∈ trace (main Sample.world Sample.args_exclude)).
  { apply list_elem_of_In. vm_compute. tauto. }
  split; [exact Hin|].
  exact (generator_settings (rng := Z) _ _ _ _ Hin).
Defined.

(** ** The remapping of the exclusion indices (lines 311-323) *)

Lemma rename_chroms_lengths args args' :
  rename_chroms args = Ok args' →
  length (chrom_train args') = length (chrom_train args)
  ∧ length (chrom_valid args') = length (chrom_valid args).
Proof.
  unfold rename_chroms. repeat case_bool_decide.
  - destruct (comprehension w303_id (chrom_train args)) as [ct|] eqn:Ht; [|done].
    destruct (comprehension w303_id (chrom_valid args)) as [cv|] eqn:Hv; [|done].
    intros [= <-]. apply comprehension_Ok, Forall2_length in Ht, Hv.
    by destruct args.
  - intros [= <-]. destruct args; simpl. by rewrite !length_fmap.
  - by intros [= <-].
Qed.

Lemma nonempty_length {A} (l l' : list A) :
  length l' = length l → l ≠ [] → l' ≠ [].
Proof. by destruct l, l'. Qed.

Lemma total_len_after_nil s : total_len_after s [] = 0.
Proof. done. Qed.

Lemma total_len_after_cons s k ks sk :
  s !! k = Some sk →
  total_len_after s (k :: ks)
  = Z.of_nat (length sk) + 1 + total_len_after s ks.
Proof.
  intros Hs. unfold total_len_after, total_length. simpl. rewrite Hs.
  simpl. lia.
Qed.

Lemma total_len_after_app s pre ks :
  total_len_after s (pre ++ ks) = total_len_after s pre + total_len_after s ks.
Proof.
  unfold total_len_after, total_length.
  rewrite sum_list_with_app, length_app. lia.
Qed.

Lemma total_len_after_snoc s pre k sk :
  s !! k = Some sk →
  total_len_after s (pre ++ [k])
  = total_len_after s pre + (Z.of_nat (length sk) + 1).
Proof.
  intros Hs. rewrite total_len_after_app, (total_len_after_cons _ _ _ _ Hs).
  rewrite total_len_after_nil. lia.
Qed.

Lemma total_len_after_nonneg s ks : 0 <= total_len_after s ks.
Proof. unfold total_len_after. lia. Qed.

Lemma total_len_after_offset s ks ss :
  Forall2 (λ k a, s !! k = Some a) ks ss →
  total_len_after s ks = chrom_offset (length <$> ss) (length ks).
Proof.
  intros Hs. unfold total_len_after, total_length, chrom_offset.
  rewrite (Forall2_length _ _ _ Hs), <- (length_fmap length ss), firstn_all.
  f_equal. f_equal. induction Hs as [|k a ks ss Hk _ IH]; [done|].
  simpl. by rewrite Hk, IH.
Qed.

(** The loop goes through when the archives hold the identifiers and
    the offsets fit. *)
Lemma remap_loop_fit f s ks : ∀ pre acc,
  Forall (λ c, is_Some (f !! c) ∧ is_Some (s !! c)) ks →
  offsets_fit f s pre ks = true →
  ∃ out, remap_loop f s ks acc (total_len_after s pre) = Ok out
         ∧ length out = (length acc + length ks)%nat.
Proof.
  induction ks as [|k ks IH]; intros pre acc Hall Hfit.
  - exists acc. split; [done|]. simpl. lia.
  - apply Forall_cons in Hall as [[[fk Hfk] [sk Hsk]] Hall].
    cbn [offsets_fit] in Hfit. rewrite Hfk in Hfit.
    apply andb_true_iff in Hfit as [Hin Hfit].
    cbn [remap_loop]. unfold getitem, np_add_int. rewrite Hfk, Hsk.
    cbn -[total_len_after Np.in_range Np.wrap]. rewrite Hin.
    cbn -[total_len_after Np.in_range Np.wrap].
    rewrite <- (total_len_after_snoc _ _ _ _ Hsk).
    destruct (IH (pre ++ [k]) (acc ++ [{|
        Np.dtype := Np.dtype fk;
        Np.values := (λ x, Np.wrap (Np.dtype fk) (x + total_len_after s pre))
                       <$> Np.values fk |}]) Hall Hfit) as (out & -> & Hlen).
    exists out. split; [done|]. rewrite Hlen, length_app. simpl. lia.
Qed.

(** The loop stops at the first step that fails. *)
Lemma remap_loop_stop f s before k post e : ∀ pre acc,
  Forall (λ c, is_Some (f !! c) ∧ is_Some (s !! c)) before →
  offsets_fit f s pre before = true →
  step_failure f s (pre ++ before) k e →
  remap_loop f s (before ++ k :: post) acc (total_len_after s pre) = Fail e.
Proof.
  induction before as [|c before IH]; intros pre acc Hall Hfit Hk.
  - rewrite app_nil_r in Hk. unfold step_failure in Hk.
    cbn [app remap_loop]. unfold getitem, np_add_int.
    destruct (f !! k) as [fk|]; [|by rewrite Hk].
    cbn -[total_len_after Np.in_range Np.wrap].
    destruct (Np.in_range _ _); [|by rewrite Hk].
    destruct Hk as [-> ->]. done.
  - apply Forall_cons in Hall as [[[fc Hfc] [sc Hsc]] Hall].
    cbn [offsets_fit] in Hfit. rewrite Hfc in Hfit.
    apply andb_true_iff in Hfit as [Hin Hfit].
    cbn [app remap_loop]. unfold getitem, np_add_int. rewrite Hfc, Hsc.
    cbn -[total_len_after Np.in_range Np.wrap]. rewrite Hin.
    cbn -[total_len_after Np.in_range Np.wrap].
    rewrite <- (total_len_after_snoc _ _ _ _ Hsc).
    apply IH; [done..|]. by rewrite <- app_assoc.
Qed.

(** Every step of the loop goes through, or one is the first to fail. *)
Lemma first_failing_step f s ks : ∀ pre,
  (Forall (λ c, is_Some (f !! c) ∧ is_Some (s !! c)) ks
   ∧ offsets_fit f s pre ks = true)
  ∨ ∃ before k post e,
      ks = before ++ k :: post
      ∧ Forall (λ c, is_Some (f !! c) ∧ is_Some (s !! c)) before
      ∧ offsets_fit f s pre before = true
      ∧ step_failure f s (pre ++ before) k e.
Proof.
  induction ks as [|k ks IH]; intros pre; [by left|].
  destruct (f !! k) as [fk|] eqn:Hfk.
  2:{ right. exists [], k, ks, (KeyError k). rewrite app_nil_r.
      unfold step_failure. by rewrite Hfk. }
  destruct (Np.in_range (Np.dtype fk) (total_len_after s pre)) eqn:Hin.
  2:{ right. exists [], k, ks, offset_overflow. rewrite app_nil_r.
      unfold step_failure. by rewrite Hfk, Hin. }
  destruct (s !! k) as [sk|] eqn:Hsk.
  2:{ right. exists [], k, ks, (KeyError k). rewrite app_nil_r.
      unfold step_failure. by rewrite Hfk, Hin. }
  destruct (IH (pre ++ [k]))
    as [[Hall Hfit]|(before & k' & post & e & -> & Hall & Hfit & Hk')].
  - left. split; [constructor; [by rewrite Hfk, Hsk|done]|].
    cbn [offsets_fit]. by rewrite Hfk, Hin, Hfit.
  - right. exists (k :: before), k', post, e. split; [done|].
    split; [constructor; [by rewrite Hfk, Hsk|done]|].
    split; [cbn [offsets_fit]; by rewrite Hfk, Hin, Hfit|].
    by rewrite <- app_assoc in Hk'.
Qed.

Lemma step_failure_unique f s pre k e e' :
  step_failure f s pre k e → step_failure f s pre k e' → e = e'.
Proof.
  unfold step_failure. destruct (f !! k); [|congruence].
  destruct (Np.in_range _ _); [|congruence].
  intros [_ ->] [_ ->]. done.
Qed.

(** The failures of the remapping of one list of chromosomes. *)
Lemma remap_indices_failures f s ks e :
  remap_indices f s ks = Fail e
  ↔ (ks = [] ∧ e = ValueError "need at least one array to concatenate")
    ∨ ∃ before k post,
        ks = before ++ k :: post
        ∧ Forall (λ c, is_Some (f !! c) ∧ is_Some (s !! c)) before
        ∧ offsets_fit f s [] before = true
        ∧ step_failure f s before k e.
Proof.
  change (remap_indices f s ks)
    with (arrays ← remap_loop f s ks [] (total_len_after s []); np_concatenate arrays).
  split.
  - intros Hf. destruct ks as [|k0 ks0]; [left; by injection Hf as <-|].
    right. destruct (first_failing_step f s (k0 :: ks0) [])
      as [[Hall Hfit]|(before & k & post & e' & Hks & Hall & Hfit & Hk)].
    + exfalso. destruct (remap_loop_fit f s _ [] [] Hall Hfit) as (out & Hl & Hlen).
      rewrite Hl in Hf. by destruct out.
    + exists before, k, post. repeat (split; [done|]).
      rewrite Hks, (remap_loop_stop _ _ _ _ _ _ [] [] Hall Hfit Hk) in Hf.
      by injection Hf as <-.
  - intros [[-> ->]|(before & k & post & -> & Hall & Hfit & Hk)]; [done|].
    by rewrite (remap_loop_stop _ _ _ _ _ _ [] [] Hall Hfit Hk).
Qed.

(** An offset of a list whose offsets fit does fit. *)
Lemma offsets_fit_app f s before k post a : ∀ pre,
  offsets_fit f s pre (before ++ k :: post) = true →
  f !! k = Some a →
  Np.in_range (Np.dtype a) (total_len_after s (pre ++ before)) = true.
Proof.
  induction before as [|c before IH]; intros pre Hfit Hk.
  - cbn [app offsets_fit] in Hfit. rewrite Hk in Hfit.
    apply andb_true_iff in Hfit as [Hin _]. by rewrite app_nil_r.
  - cbn [app offsets_fit] in Hfit. apply andb_true_iff in Hfit as [_ Hfit].
    replace (pre ++ c :: before) with ((pre ++ [c]) ++ before)
      by by rewrite <- app_assoc.
    by apply IH.
Qed.

(** On identifiers that both archives hold, the remapping fails on an
    offset that does not fit, and on nothing else. *)
Lemma remap_indices_present f s ks :
  ks ≠ [] →
  Forall (λ c, is_Some (f !! c) ∧ is_Some (s !! c)) ks →
  (∀ e, remap_indices f s ks = Fail e → e = offset_overflow)
  ∧ (offsets_fit f s [] ks = true → ∃ out, remap_indices f s ks = Ok out).
Proof.
  intros Hne Hall. split.
  - intros e [[-> _]|(before & k & post & -> & _ & _ & Hk)]%remap_indices_failures;
      [done|].
    apply Forall_app in Hall as [_ [[[fk Hfk] [sk Hsk]] _]%Forall_cons].
    unfold step_failure in Hk. rewrite Hfk, Hsk in Hk.
    destruct (Np.in_range _ _); [by destruct Hk|done].
  - intros Hfit. destruct (remap_indices f s ks) as [out|e] eqn:Hr; [by exists out|].
    apply remap_indices_failures in Hr
      as [[-> _]|(before & k & post & -> & _ & _ & Hk)]; [done|].
    apply Forall_app in Hall as [_ [[[fk Hfk] [sk Hsk]] _]%Forall_cons].
    pose proof (offsets_fit_app _ _ _ _ _ _ [] Hfit Hfk) as Hin.
    cbn [app] in Hin.
    unfold step_failure in Hk. rewrite Hfk, Hsk, Hin in Hk. by destruct Hk.
Qed.

(** X12.  Once argument validation has passed, the remapping of the
    exclusion indices cannot fail on a key: every [f[k]] and [s[k]] of
    lines 317-322 finds its key and [np.concatenate] gets at least one
    array.  It fails with [OverflowError] when a value of [total_len] is
    outside the integer type of the index array it is added to, and in no
    other way; when every offset fits, it reads the archives without
    any other step and gives both generators an index array exactly when
    [--remove_indices] is given. *)
Theorem validated_exclusions_load w args t args' :
  parsing w args = (t, Ok args') →
  chrom_train args ≠ [] →
  chrom_valid args ≠ [] →
  (∀ e, result (load_remove_indices w args') = Fail e → e = offset_overflow)
  ∧ ((∀ path r s,
        remove_indices args' = Some path →
        index_files w !! path = Some r →
        label_files w !! labels args' = Some s →
        offsets_fit r s [] (chrom_train args') = true
        ∧ offsets_fit r s [] (chrom_valid args') = true) →
     ∃ rt rv,
       load_remove_indices w args' = ([], Ok (rt, rv))
       ∧ (is_Some rt ↔ is_Some (remove_indices args))
       ∧ (is_Some rv ↔ is_Some (remove_indices args))).
Proof.
  intros Hp Hnt Hnv.
  destruct (parsing_Ok_inv _ _ _ _ Hp) as (g & s & Hg & Hs & Hr & Hall & Hri).
  destruct (rename_chroms_lengths _ _ Hr) as [Hlt Hlv].
  apply (nonempty_length _ _ Hlt) in Hnt. apply (nonempty_length _ _ Hlv) in Hnv.
  assert (Heq : labels args' = labels args ∧ remove_indices args' = remove_indices args)
    by (by destruct (rename_chroms_set _ _ Hr) as (ct & cv & ->)).
  destruct Heq as [Hl Hre]. rewrite <- Hre.
  unfold load_remove_indices.
  destruct (remove_indices args') as [path|] eqn:Hpath.
  - destruct (Hri path eq_refl) as (r & Hidx & Hin).
    apply Forall_app in Hin as [Hint Hinv].
    apply Forall_app in Hall as [Hallt Hallv].
    assert (Hpt : Forall (λ c, is_Some (r !! c) ∧ is_Some (s !! c))
                         (chrom_train args')).
    { apply Forall_forall. intros c Hc. rewrite Forall_forall in Hint, Hallt.
      split; [by apply Hint|]. by destruct (Hallt c Hc). }
    assert (Hpv : Forall (λ c, is_Some (r !! c) ∧ is_Some (s !! c))
                         (chrom_valid args')).
    { apply Forall_forall. intros c Hc. rewrite Forall_forall in Hinv, Hallv.
      split; [by apply Hinv|]. by destruct (Hallv c Hc). }
    destruct (remap_indices_present r s _ Hnt Hpt) as [Hft Hot].
    destruct (remap_indices_present r s _ Hnv Hpv) as [Hfv Hov].
    unfold np_load. rewrite Hidx, Hl, Hs, !bind_ret. unfold lift_res. split.
    + intros e.
      destruct (remap_indices r s (chrom_train args')) as [rt|et] eqn:Hrt.
      * destruct (remap_indices r s (chrom_valid args')) as [rv|ev] eqn:Hrv; [done|].
        cbn. intros [= <-]. by apply Hfv.
      * cbn. intros [= <-]. by apply Hft.
    + intros Hfit.
      destruct (Hfit path r s eq_refl Hidx eq_refl) as [Hfitt Hfitv].
      destruct (Hot Hfitt) as [rt ->]. destruct (Hov Hfitv) as [rv ->].
      eexists _, _. split; [reflexivity|]. split; split; by eauto.
  - split; [done|]. intros _.
    exists None, None. split; [reflexivity|]. by split.
Qed.

Lemma validated_exclusions_load_witness :
  parsing Sample.world Sample.args_exclude
  = (passing_tests Sample.args_exclude, Ok Sample.args_exclude)
  ∧ chrom_train Sample.args_exclude ≠ []
  ∧ chrom_valid Sample.args_exclude ≠ []
  ∧ (∀ e, result (load_remove_indices Sample.world Sample.args_exclude) = Fail e →
          e = offset_overflow)
  ∧ ((∀ path r s,
        remove_indices Sample.args_exclude = Some path →
        index_files Sample.world !! path = Some r →
        label_files Sample.world !! labels Sample.args_exclude = Some s →
        offsets_fit r s [] (chrom_train Sample.args_exclude) = true
        ∧ offsets_fit r s [] (chrom_valid Sample.args_exclude) = true) →
     ∃ rt rv,
       load_remove_indices Sample.world Sample.args_exclude = ([], Ok (rt, rv))
       ∧ (is_Some rt ↔ is_Some (remove_indices Sample.args_exclude))
       ∧ (is_Some rv ↔ is_Some (remove_indices Sample.args_exclude))).
Proof.
  assert (Hp : parsing Sample.world Sample.args_exclude
               = (passing_tests Sample.args_exclude, Ok Sample.args_exclude))
    by (vm_compute; reflexivity).
  assert (Hnt : chrom_train Sample.args_exclude ≠ []) by (vm_compute; discriminate).
  assert (Hnv : chrom_valid Sample.args_exclude ≠ []) by (vm_compute; discriminate).
  split; [exact Hp|]. split; [exact Hnt|]. split; [exact Hnv|].
  exact (validated_exclusions_load _ _ _ _ Hp Hnt Hnv).
Defined.

(** An offset outside the type of the indices stops a validated run. *)
Example wide_offset_overflows :
  load_remove_indices Sample.world Sample.args_int8_wide
  = ([], Fail offset_overflow).
Proof. vm_compute. reflexivity. Qed.

(** X13.  The remapping of one list of chromosomes fails in these ways
    only: with the [ValueError] of [np.concatenate] when the list is
    empty, and otherwise at the first chromosome, in list order, whose
    step fails: with [KeyError] when the exclusion archive does not hold
    it, with [OverflowError] when the value of [total_len], the lengths
    of the labels of the chromosomes before it plus one for each, is
    outside the integer type of its index array, and with [KeyError] when
    the labels archive does not hold it. *)
Theorem remap_indices_failure f s ks e :
  remap_indices f s ks = Fail e
  ↔ (ks = [] ∧ e = ValueError "need at least one array to concatenate")
    ∨ ∃ pre k post,
        ks = pre ++ k :: post
        ∧ Forall (λ c, is_Some (f !! c) ∧ is_Some (s !! c)) pre
        ∧ offsets_fit f s [] pre = true
        ∧ match f !! k with
          | None => e = KeyError k
          | Some a =>
              if Np.in_range (Np.dtype a) (total_len_after s pre)
              then s !! k = None ∧ e = KeyError k
              else e = OverflowError
                         "Python integer out of bounds for the type of the array"
          end.
Proof. exact (remap_indices_failures f s ks e). Qed.

Lemma chrom_offset_bounds lens : ∀ i n,
  lens !! i = Some n →
  0 <= chrom_offset lens i
  ∧ chrom_offset lens i + Z.of_nat n + 1 <= chrom_offset lens (length lens).
Proof.
  induction lens as [|m lens IH]; intros i n Hi; [done|].
  destruct i as [|i].
  - injection Hi as ->. rewrite chrom_offset_0. cbn [length].
    rewrite chrom_offset_S. unfold chrom_offset. lia.
  - cbn [length]. rewrite !chrom_offset_S. destruct (IH i n Hi). lia.
Qed.

Lemma merged_indices_Forall (P : Z → Prop) local lens :
  (∀ i idx x, local !! i = Some idx → x ∈ idx → P (x + chrom_offset lens i)) →
  Forall P (merged_indices local lens).
Proof.
  intros HP. unfold merged_indices. apply Forall_concat, Forall_forall.
  intros l (i & idx & -> & Hi)%elem_of_lookup_imap.
  apply Forall_fmap, Forall_forall. intros x Hx. by eapply HP.
Qed.

(** Local indices that increase inside their chromosomes increase as a
    whole once shifted. *)
Lemma shifted_indices_sorted local lens : ∀ base,
  Forall2 (λ idx n, StronglySorted Z.lt idx
                    ∧ Forall (λ x, 0 <= x < Z.of_nat n) idx) local lens →
  StronglySorted Z.lt
    (concat (imap (λ i idx, (λ x, x + (base + chrom_offset lens i)) <$> idx) local))
  ∧ Forall (λ x, base <= x ∧ x + 1 < base + chrom_offset lens (length lens))
      (concat (imap (λ i idx, (λ x, x + (base + chrom_offset lens i)) <$> idx) local)).
Proof.
  intros base Hall. revert base.
  induction Hall as [|idx n local lens [Hs Hb] _ IH]; intros base.
  - split; constructor.
  - rewrite imap_cons. cbn [concat length].
    rewrite chrom_offset_0, chrom_offset_S.
    assert (Htail : imap ((λ i idx0, (λ x, x + (base + chrom_offset (n :: lens) i)) <$> idx0) ∘ S) local
                    = imap (λ i idx0, (λ x, x + ((base + Z.of_nat n + 1) + chrom_offset lens i)) <$> idx0) local).
    { apply imap_ext. intros i idx0 _. unfold compose. cbn beta.
      apply list_fmap_ext. intros _ x _. rewrite chrom_offset_S. lia. }
    rewrite Htail. destruct (IH (base + Z.of_nat n + 1)) as [IHs IHb].
    assert (Hoff : 0 <= chrom_offset lens (length lens))
      by (unfold chrom_offset; lia).
    split.
    + apply StronglySorted_app_2; [| |done].
      * intros x1 x2 (y & -> & Hy)%list_elem_of_fmap H2.
        rewrite Forall_forall in Hb, IHb. apply Hb in Hy. apply IHb in H2. lia.
      * eapply StronglySorted_fmap; [|exact Hs]. intros x y. simpl. lia.
    + apply Forall_app. split.
      * apply Forall_fmap. eapply Forall_impl; [exact Hb|].
        intros x. unfold compose. lia.
      * eapply Forall_impl; [exact IHb|]. intros x. simpl. lia.
Qed.

(** X14.  If, for every chromosome of the list, the local exclusion
    indices are strictly increasing and inside the labels of that
    chromosome, and the final value of [total_len] does not exceed
    [2 ^ 53] and fits the integer type of every index array, then the
    remapped array is strictly increasing as a whole: indices of
    different chromosomes never collide or interleave.  Every remapped
    index lies below the final [total_len] minus one, the length of the
    merged labels. *)
Theorem remap_indices_increasing f s ks out :
  remap_indices f s ks = Ok out →
  (∀ k fk sk, k ∈ ks → f !! k = Some fk → s !! k = Some sk →
     StronglySorted Z.lt (Np.values fk)
     ∧ Forall (λ x, 0 <= x < Z.of_nat (length sk)) (Np.values fk)
     ∧ Np.in_range (Np.dtype fk) (total_len_after s ks) = true) →
  total_len_after s ks <= 2 ^ 53 →
  StronglySorted Z.lt out
  ∧ Forall (λ x, 0 <= x < total_len_after s ks - 1) out.
Proof.
  intros Hr Hks Hbig.
  assert (Hne : ks ≠ []) by (intros ->; done).
  assert (Hall : Forall (λ c, is_Some (f !! c) ∧ is_Some (s !! c)) ks).
  { destruct (first_failing_step f s ks [])
      as [[Hall _]|(before & k & post & e & -> & Hall & Hfit & Hk)]; [done|].
    assert (remap_indices f s (before ++ k :: post) = Fail e) as Hfail.
    { apply remap_indices_failures. right. by exists before, k, post. }
    congruence. }
  destruct (lookups_Forall2 f ks) as [fs Hfs].
  { eapply Forall_impl; [exact Hall|]. by intros ? [? _]. }
  destruct (lookups_Forall2 s ks) as [ss Hss].
  { eapply Forall_impl; [exact Hall|]. by intros ? [_ ?]. }
  pose proof (total_len_after_offset _ _ _ Hss) as Htot.
  rewrite (Forall2_length _ _ _ Hss), <- (length_fmap length ss) in Htot.
  set (lens := length <$> ss) in *.
  assert (Hlocal : ∀ i a, fs !! i = Some a →
            ∃ sk, ss !! i = Some sk
                  ∧ StronglySorted Z.lt (Np.values a)
                  ∧ Forall (λ x, 0 <= x < Z.of_nat (length sk)) (Np.values a)
                  ∧ Np.in_range (Np.dtype a) (total_len_after s ks) = true).
  { intros i a Hi.
    destruct (Forall2_lookup_r _ _ _ _ _ Hfs Hi) as (k & Hk & Hfk).
    destruct (Forall2_lookup_l _ _ _ _ _ Hss Hk) as (sk & Hsk & Hsk').
    exists sk. split; [done|]. apply (Hks k); [|done..].
    by eapply list_elem_of_lookup_2. }
  assert (Hfit : ∀ i a x, fs !! i = Some a → x ∈ Np.values a →
            0 <= chrom_offset lens i
            ∧ 0 <= x + chrom_offset lens i < total_len_after s ks - 1
            ∧ Np.in_range (Np.dtype a) (total_len_after s ks) = true).
  { intros i a x Hi Hx. destruct (Hlocal i a Hi) as (sk & Hsk & _ & Hb & Hin).
    rewrite Forall_forall in Hb. apply Hb in Hx.
    destruct (chrom_offset_bounds lens i (length sk)) as [H0 H1].
    { unfold lens. by rewrite list_lookup_fmap, Hsk. }
    split; [done|]. split; [lia|done]. }
  assert (Hexact : remap_exact fs lens = true).
  { unfold remap_exact. apply andb_true_iff. split.
    - apply forallb_imap. intros i a Hi. unfold shift_exact.
      destruct (Hlocal i a Hi) as (sk & Hsk & _ & Hb & Hin).
      destruct (chrom_offset_bounds lens i (length sk)) as [H0 H1].
      { unfold lens. by rewrite list_lookup_fmap, Hsk. }
      apply andb_true_iff. split.
      + apply (in_range_below _ (total_len_after s ks)); [lia|done].
      + apply forallb_forall. intros x Hx%list_elem_of_In.
        destruct (Hfit i a x Hi Hx) as (_ & Hx' & _).
        apply (in_range_below _ (total_len_after s ks)); [lia|done].
    - apply forallb_forall. intros v Hv%list_elem_of_In. apply Z.eqb_eq.
      revert v Hv. apply Forall_forall, merged_indices_Forall.
      intros i idx x Hi Hx. rewrite list_lookup_fmap in Hi.
      destruct (fs !! i) as [a|] eqn:Ha; [|done]. injection Hi as <-.
      destruct (Hfit i a x Ha Hx) as (_ & Hx' & Hin).
      apply (cast_result_type_in _ (Np.dtype a)).
      + apply list_elem_of_fmap. exists a. split; [done|].
        by eapply list_elem_of_lookup_2.
      + lia.
      + apply (in_range_below _ (total_len_after s ks)); [lia|done]. }
  rewrite (remap_indices_spec _ _ _ _ _ Hne Hfs Hss Hexact) in Hr.
  injection Hr as <-.
  destruct (shifted_indices_sorted (Np.values <$> fs) lens 0) as [Hsorted _].
  { apply Forall2_fmap_l, Forall2_same_length_lookup. split.
    - unfold lens. rewrite length_fmap.
      by rewrite <- (Forall2_length _ _ _ Hfs), (Forall2_length _ _ _ Hss).
    - intros i a n Ha Hn. destruct (Hlocal i a Ha) as (sk & Hsk & Hs' & Hb & _).
      unfold lens in Hn. rewrite list_lookup_fmap, Hsk in Hn.
      injection Hn as <-. by split. }
  split.
  - unfold merged_indices.
    erewrite imap_ext; [exact Hsorted|]. intros i idx _. cbn beta.
    apply list_fmap_ext. intros _ x _. fold lens. lia.
  - apply merged_indices_Forall. intros i idx x Hi Hx.
    rewrite list_lookup_fmap in Hi.
    destruct (fs !! i) as [a|] eqn:Ha; [|done]. injection Hi as <-.
    by destruct (Hfit i a x Ha Hx) as (_ & Hx' & _).
Qed.

Lemma remap_indices_increasing_witness :
  remap_indices Sample.exclusions Sample.labels_W303 ["chr01"; "chr16"]
  = Ok [0; 2; 4; 7]
  ∧ total_len_after Sample.labels_W303 ["chr01"; "chr16"] <= 2 ^ 53
  ∧ StronglySorted Z.lt [0; 2; 4; 7]
  ∧ Forall (λ x, 0 <= x
                 < total_len_after Sample.labels_W303 ["chr01"; "chr16"] - 1)
           [0; 2; 4; 7].
Proof.
  assert (Hr : remap_indices Sample.exclusions Sample.labels_W303 ["chr01"; "chr16"]
               = Ok [0; 2; 4; 7]) by (vm_compute; reflexivity).
  assert (Hbig : total_len_after Sample.labels_W303 ["chr01"; "chr16"] <= 2 ^ 53)
    by (vm_compute; discriminate).
  split; [exact Hr|]. split; [exact Hbig|].
  apply (remap_indices_increasing _ _ _ _ Hr); [|exact Hbig].
  intros k fk sk Hin.
  apply elem_of_cons in Hin as [->|Hin];
    [|apply elem_of_cons in Hin as [->|Hin]; [|by apply elem_of_nil in Hin]];
    intros [= <-] [= <-];
    (split; [repeat constructor; lia|split; [repeat constructor; lia|reflexivity]]).
Defined.

(** With 8-bit indices that wrap around, the remapped array is not
    increasing. *)
Example narrow_indices_not_increasing :
  remap_indices Sample.exclusions_int8 Sample.labels_long ["A"; "B"]
  = Ok [0; -56].
Proof. vm_compute. reflexivity. Qed.

(** ** What argument validation does not look at (lines 238-253) *)

Lemma rename_chroms_rename_id args :
  rename_chroms args
  = match comprehension (rename_id (Py.path_stem (genome args))) (chrom_train args),
          comprehension (rename_id (Py.path_stem (genome args))) (chrom_valid args) with
    | Ok ct, Ok cv => Ok (set_chroms args ct cv)
    | Fail e, _ => Fail e
    | Ok _, Fail e => Fail e
    end.
Proof.
  unfold rename_chroms, rename_id. repeat case_bool_decide.
  - change (λ c, w303_id c) with w303_id.
    by destruct (comprehension w303_id (chrom_train args)),
                (comprehension w303_id (chrom_valid args)).
  - assert (Hc : ∀ l, comprehension (λ c, Ok (mmmyco_id c)) l = Ok (mmmyco_id <$> l)).
    { induction l as [|x l IH]; [done|]. simpl. by rewrite IH. }
    by rewrite !Hc.
  - assert (Hc : ∀ l : list string, comprehension (λ c, Ok c) l = Ok l).
    { induction l as [|x l IH]; [done|]. simpl. by rewrite IH. }
    by rewrite !Hc, set_chroms_id.
Qed.

Lemma comprehension_subset {A B} (f : A → Res B) l k l' :
  comprehension f l = Ok k →
  l' ⊆ l →
  ∃ k', comprehension f l' = Ok k' ∧ k' ⊆ k.
Proof.
  intros Hl Hsub. apply comprehension_Ok in Hl.
  induction l' as [|x l' IH].
  - exists []. split; [done|]. intros y Hy. by apply elem_of_nil in Hy.
  - destruct IH as (k' & Hk' & Hsub').
    { intros y Hy. apply Hsub. by right. }
    assert (Hx : x ∈ l) by (apply Hsub; by left).
    apply list_elem_of_lookup in Hx as [i Hi].
    destruct (Forall2_lookup_l _ _ _ _ _ Hl Hi) as (y & Hy & Hfx).
    exists (y :: k'). simpl. rewrite Hfx, Hk'. split; [done|].
    intros z Hz. apply elem_of_cons in Hz as [->|Hz].
    + by eapply list_elem_of_lookup_2.
    + by apply Hsub'.
Qed.

Lemma comprehension_app {A B} (f : A → Res B) l1 l2 k1 k2 :
  comprehension f l1 = Ok k1 →
  comprehension f l2 = Ok k2 →
  comprehension f (l1 ++ l2) = Ok (k1 ++ k2).
Proof.
  rewrite !comprehension_Ok. apply Forall2_app.
Qed.

(** X15.  Argument validation never compares the two lists with each
    other: when a command line is accepted, so is every command line
    that differs only in taking its (non-empty) training and validation
    lists among the identifiers of the first, in any order, with
    repetitions, or with the same chromosome in both lists. *)
Theorem overlapping_lists_accepted w args t args' ct cv :
  parsing w args = (t, Ok args') →
  ct ≠ [] → cv ≠ [] →
  ct ⊆ chrom_train args ++ chrom_valid args →
  cv ⊆ chrom_train args ++ chrom_valid args →
  ∃ t' args'', parsing w (set_chroms args ct cv) = (t', Ok args'').
Proof.
  intros Hp _ _ Hct Hcv.
  destruct (parsing_Ok_inv _ _ _ _ Hp) as (g & s & Hg & Hs & Hr & Hall & Hri).
  rewrite rename_chroms_rename_id in Hr.
  destruct (comprehension _ (chrom_train args)) as [kt|] eqn:Hkt; [|done].
  destruct (comprehension _ (chrom_valid args)) as [kv|] eqn:Hkv; [|done].
  injection Hr as <-.
  pose proof (comprehension_app _ _ _ _ _ Hkt Hkv) as Hk.
  destruct (comprehension_subset _ _ _ _ Hk Hct) as (ct' & Hct' & Hsubt).
  destruct (comprehension_subset _ _ _ _ Hk Hcv) as (cv' & Hcv' & Hsubv).
  assert (Hr' : rename_chroms (set_chroms args ct cv)
                = Ok (set_chroms args ct' cv')).
  { rewrite rename_chroms_rename_id. destruct args; simpl in *.
    by rewrite Hct', Hcv'. }
  assert (Hwf : well_formed w (set_chroms args ct' cv')).
  { exists g, s. destruct args; simpl in *. repeat split; try done.
    - apply Forall_forall. intros id Hid. rewrite Forall_forall in Hall.
      apply Hall. apply elem_of_app in Hid as [Hid|Hid]; auto.
    - intros path Hpath. destruct (Hri path Hpath) as (r & Hr & Hin).
      exists r. split; [done|]. apply Forall_forall. intros id Hid.
      rewrite Forall_forall in Hin.
      apply Hin. apply elem_of_app in Hid as [Hid|Hid]; auto. }
  exists (passing_tests (set_chroms args ct' cv')), (set_chroms args ct' cv').
  rewrite (parsing_checks w (set_chroms args ct cv) (set_chroms args ct' cv') g s);
    [|by destruct args..|exact Hr'].
  apply membership_checks_pass; [done|by destruct args..].
Qed.

Lemma overlapping_lists_accepted_witness :
  parsing Sample.world Sample.args_yeast
  = (passing_tests Sample.args_yeast, Ok Sample.args_yeast)
  ∧ ["chr01"; "chr02"] ⊆ chrom_train Sample.args_yeast ++ chrom_valid Sample.args_yeast
  ∧ ["chr02"; "chr02"] ⊆ chrom_train Sample.args_yeast ++ chrom_valid Sample.args_yeast
  ∧ ∃ t' args'',
      parsing Sample.world
        (set_chroms Sample.args_yeast ["chr01"; "chr02"] ["chr02"; "chr02"])
      = (t', Ok args'').
Proof.
  assert (Hp : parsing Sample.world Sample.args_yeast
               = (passing_tests Sample.args_yeast, Ok Sample.args_yeast))
    by (vm_compute; reflexivity).
  assert (Ht : ["chr01"; "chr02"]
               ⊆ chrom_train Sample.args_yeast ++ chrom_valid Sample.args_yeast).
  { intros x Hx. apply list_elem_of_In. apply list_elem_of_In in Hx.
    simpl in *. tauto. }
  assert (Hv : ["chr02"; "chr02"]
               ⊆ chrom_train Sample.args_yeast ++ chrom_valid Sample.args_yeast).
  { intros x Hx. apply list_elem_of_In. apply list_elem_of_In in Hx.
    simpl in *. tauto. }
  split; [exact Hp|]. split; [exact Ht|]. split; [exact Hv|].
  apply (overlapping_lists_accepted _ _ _ _ _ _ Hp); [discriminate..|exact Ht|exact Hv].
Defined.

(** ** Validated arguments as a new command line (lines 231-234, 254) *)

Lemma int_chr s : Py.int ("chr" +:+ s) = None.
Proof. reflexivity. Qed.

Lemma w303_id_renamed c r : w303_id c = Ok r → w303_id r = Fail (ValueError r).
Proof.
  unfold w303_id at 1. destruct (Py.int c) as [n|]; [|done].
  intros [= <-]. unfold w303_id. by rewrite int_chr.
Qed.

(** X16.  With the W303 genome the renaming cannot be applied twice: the
    arguments that validation returns, whose identifiers are the renamed
    ones, are refused as a command line, with [ValueError] on the first
    training identifier and before any membership test. *)
Theorem w303_revalidation_fails w args t args' :
  Py.path_stem (genome args) = "W303" →
  chrom_train args ≠ [] →
  parsing w args = (t, Ok args') →
  ∃ c, head (chrom_train args') = Some c
       ∧ parsing w args' = ([], Fail (ValueError c)).
Proof.
  intros Hstem Hne Hp.
  destruct (parsing_Ok_inv _ _ _ _ Hp) as (g & s & Hg & Hs & Hr & _).
  revert Hr. unfold rename_chroms. rewrite bool_decide_eq_true_2 by done.
  destruct (comprehension w303_id (chrom_train args)) as [ct|] eqn:Hct; [|done].
  destruct (comprehension w303_id (chrom_valid args)) as [cv|] eqn:Hcv; [|done].
  intros [= <-].
  destruct (chrom_train args) as [|c0 rest] eqn:Htrain; [done|].
  apply comprehension_Ok in Hct.
  inversion Hct as [|? c ? ct' Hc _]; subst.
  exists c. split; [by destruct args|].
  assert (Hr' : rename_chroms (set_chroms args (c :: ct') cv)
                = Fail (ValueError c)).
  { unfold rename_chroms.
    rewrite bool_decide_eq_true_2 by by destruct args.
    replace (chrom_train (set_chroms args (c :: ct') cv)) with (c :: ct')
      by by destruct args.
    cbn [comprehension]. by rewrite (w303_id_renamed _ _ Hc). }
  unfold parsing.
  replace (genome (set_chroms args (c :: ct') cv)) with (genome args)
    by by destruct args.
  replace (labels (set_chroms args (c :: ct') cv)) with (labels args)
    by by destruct args.
  rewrite Hg, Hs, Hr'.
  rewrite !bool_decide_eq_true_2 by by eexists.
  reflexivity.
Qed.

Lemma w303_revalidation_fails_witness :
  Py.path_stem (genome Sample.args_W303) = "W303"
  ∧ chrom_train Sample.args_W303 ≠ []
  ∧ parsing Sample.world Sample.args_W303
    = (passing_tests (set_chroms Sample.args_W303 ["chr01"; "chr16"] ["chr02"]),
       Ok (set_chroms Sample.args_W303 ["chr01"; "chr16"] ["chr02"]))
  ∧ ∃ c, head (chrom_train (set_chroms Sample.args_W303 ["chr01"; "chr16"] ["chr02"]))
         = Some c
         ∧ parsing Sample.world
             (set_chroms Sample.args_W303 ["chr01"; "chr16"] ["chr02"])
           = ([], Fail (ValueError c)).
Proof.
  assert (Hs : Py.path_stem (genome Sample.args_W303) = "W303")
    by (vm_compute; reflexivity).
  assert (Hn : chrom_train Sample.args_W303 ≠ []) by (vm_compute; discriminate).
  assert (Hp : parsing Sample.world Sample.args_W303
               = (passing_tests (set_chroms Sample.args_W303 ["chr01"; "chr16"] ["chr02"]),
                  Ok (set_chroms Sample.args_W303 ["chr01"; "chr16"] ["chr02"])))
    by (vm_compute; reflexivity).
  split; [exact Hs|]. split; [exact Hn|]. split; [exact Hp|].
  exact (w303_revalidation_fails _ _ _ _ Hs Hn Hp).
Defined.

(** ** Examples of the built-ins *)


Example int_1 : Py.int "1" = Some 1. Proof. reflexivity. Qed.
Example int_007 : Py.int " 007 " = Some 7. Proof. reflexivity. Qed.
Example int_neg : Py.int "-3" = Some (-3). Proof. reflexivity. Qed.
Example int_us : Py.int "1_0" = Some 10. Proof. reflexivity. Qed.
Example int_us2 : Py.int "1__0" = None. Proof. reflexivity. Qed.
Example int_us3 : Py.int "1_" = None. Proof. reflexivity. Qed.
Example int_us4 : Py.int "1_ " = None. Proof. reflexivity. Qed.
Example int_x : Py.int "X" = None. Proof. reflexivity. Qed.
Example int_e : Py.int EmptyString = None. Proof. reflexivity. Qed.
Example int_sp : Py.int "1 2" = None. Proof. reflexivity. Qed.
Example fmt_1 : Py.format_02d 1 = "01". Proof. reflexivity. Qed.
Example fmt_0 : Py.format_02d 0 = "00". Proof. reflexivity. Qed.
Example fmt_12 : Py.format_02d 12 = "12". Proof. reflexivity. Qed.
Example fmt_123 : Py.format_02d 123 = "123". Proof. reflexivity. Qed.
Example fmt_m3 : Py.format_02d (-3) = "-3". Proof. reflexivity. Qed.
Example stem_1 : Py.path_stem "data/W303.npz" = "W303". Proof. reflexivity. Qed.
Example stem_2 : Py.path_stem "W303" = "W303". Proof. reflexivity. Qed.
Example stem_3 : Py.path_stem "/a/b.c/W303_Mmmyco.v2.npz" = "W303_Mmmyco.v2". Proof. reflexivity. Qed.
Example stem_4 : Py.path_stem ".npz" = ".npz". Proof. reflexivity. Qed.
Example stem_5 : Py.path_stem "W303." = "W303.". Proof. reflexivity. Qed.
Example stem_6 : Py.path_stem "data/W303.npz/" = "W303". Proof. reflexivity. Qed.
Example stem_7 : Py.path_stem "data//./W303.npz/." = "W303". Proof. reflexivity. Qed.
Example stem_8 : Py.path_stem "/" = EmptyString. Proof. reflexivity. Qed.
Example stem_9 : Py.path_stem "a/.." = "..". Proof. reflexivity. Qed.
Example int_nbsp : Py.int (String "160" "7") = Some 7. Proof. reflexivity. Qed.
Example int_fs : Py.int (String "028" "7") = None. Proof. reflexivity. Qed.
